(** * TCForecast: ECMWF BUFR and CXML tropical-cyclone forecast tracks

    A shallow embedding of [climada_petals/hazard/tc_tracks_forecast.py].

    The Python code is effectful: it appends to [self.data], writes to a
    logger and raises exceptions.  Those effects are threaded through a
    small state-and-exception monad [M].  numpy arrays are lists, an
    [xarray.Dataset] is a record of named columns (data variables,
    coordinates) and named attributes, a [pandas.DataFrame] is a list of
    named columns.

    Floating-point numbers are modelled as [NaN] or an exact rational:
    NaN and the comparison with the ecCodes missing value are modelled,
    the rounding of the measured values is not.  Where a property hangs
    on rounding, for the numbers of the tracks, the binary64 arithmetic
    is written out ([b64], [id_no_float64]). *)

From Stdlib Require Import List ZArith QArith Qround Qabs Lia Lqa Bool String Ascii.
From Stdlib Require Import Arith SpecFloat.
From Stdlib Require Import DecimalString DecimalZ DecimalPos Sorted OrdersEx.
Import ListNotations.

Set Implicit Arguments.
Close Scope Q_scope.

(** ** Values *)

(** A numpy [float64]. *)
Inductive float64 : Type :=
| NaN
| Fin (q : Q).

(** [x == y] on floats: NaN equals nothing, itself included. *)
Definition feq (x y : float64) : bool :=
  match x, y with
  | Fin a, Fin b => Qeq_bool a b
  | _, _ => false
  end.

(** [x != y] on floats. *)
Definition fne (x y : float64) : bool := negb (feq x y).

Definition isnan (x : float64) : bool :=
  match x with NaN => true | Fin _ => false end.

(** [x / y] for a finite non-zero divisor [y]. *)
Definition fdiv (x : float64) (y : Q) : float64 :=
  match x with NaN => NaN | Fin a => Fin (a / y) end.

(** A dynamically typed Python value: a cell of an array or of a
    DataFrame column, an attribute of a Dataset, an argument of an
    exception or of a log record. *)
Inductive value : Type :=
| VFloat (x : float64)
| VInt (z : Z)
| VStr (s : string)
| VBool (b : bool)
| VTime (t : Z)          (* numpy.datetime64, minutes since the epoch *)
| VTimestamp (t : Z)     (* pandas.Timestamp, minutes since the epoch *)
| VArr (l : list Z)      (* an integer numpy array used as a value *)
| VNA.                   (* pandas <NA> / None *)

(** [ec.CODES_MISSING_DOUBLE] and [ec.CODES_MISSING_LONG]. *)
Definition MISSING_DOUBLE : float64 := Fin (- (10 ^ 100) # 1).
Definition MISSING_LONG : Z := 2147483647.

(** [str(n)] for a non-negative integer. *)
Definition str_of_nat (n : nat) : string :=
  NilEmpty.string_of_uint (Nat.to_uint n).

(** ** Exceptions, logging and the monad *)

Inductive exn : Type :=
| ValueError (args : list value)
| IndexError
| KeyError
| TypeError
| FileNotFoundError
| CodesInternalError.

Inductive result (A : Type) : Type :=
| Ok (a : A)
| Raise (e : exn).
Arguments Ok {A} a.
Arguments Raise {A} e.

Inductive level : Type := DEBUG | INFO | WARNING.

(** [LOGGER.<level>(fmt, *args)] *)
Record log_record : Type := LogRecord {
  lvl : level;
  fmt : string;
  fmt_args : list value
}.

(** One dimension only ('time'): a variable is a column of cells. *)
Definition column : Type := list value.

(** [xarray.Dataset] *)
Record Dataset : Type := mkDataset {
  data_vars : list (string * column);
  coords : list (string * column);
  attrs : list (string * value)
}.

(** What a run can change: the tracks of the instance ([self.data]), the
    records handed to [LOGGER] and the HDF5 files written, by name. *)
Record world : Type := mkWorld {
  data : list Dataset;
  logged : list log_record;
  files : list (string * list Dataset)
}.

Definition M (A : Type) : Type := world -> result A * world.

Definition ret {A} (a : A) : M A := fun w => (Ok a, w).

Definition bind {A B} (c : M A) (k : A -> M B) : M B :=
  fun w => match c w with
           | (Ok a, w') => k a w'
           | (Raise e, w') => (Raise e, w')
           end.

Definition raise {A} (e : exn) : M A := fun w => (Raise e, w).

Definition lift {A} (r : result A) : M A := fun w => (r, w).

Definition logger (l : level) (f : string) (args : list value) : M unit :=
  fun w => (Ok tt, mkWorld (data w) (logged w ++ [LogRecord l f args]) (files w)).

(** [self.append(track)] *)
Definition append (tr : Dataset) : M unit :=
  fun w => (Ok tt, mkWorld (data w ++ [tr]) (logged w) (files w)).

Declare Scope monad_scope.
Delimit Scope monad_scope with monad.
Notation "x <- c ;; k" := (bind c (fun x => k))
  (at level 61, c at next level, right associativity) : monad_scope.
Notation "c ;; k" := (bind c (fun _ => k))
  (at level 61, right associativity) : monad_scope.
Local Open Scope monad_scope.

(** [for x in xs: s = body(s, x)], leaving the loop at the first raise. *)
Fixpoint for_each {A S : Type} (body : S -> A -> M S) (s : S) (xs : list A)
  : M S :=
  match xs with
  | [] => ret s
  | x :: xs' => s' <- body s x ;; for_each body s' xs'
  end.

(** ** TCForecast._check_variable *)

Definition check_variable_warning : string :=
  "%s: only 1 variable value for %d ensemble members, duplicating value to all members. This is only acceptable for lat and lon data at time 0.".

(** [var[var == MISSING_DOUBLE] = np.nan] *)
Definition mask_missing (var : list float64) : list float64 :=
  map (fun x => if feq x MISSING_DOUBLE then NaN else x) var.

Definition _check_variable (var : list float64) (n_ens : nat)
    (varname : string) : M (list float64) :=
  if (List.length var =? n_ens)%nat then
    ret (mask_missing var)
  else if (List.length var =? 1)%nat && feq (nth 0 var NaN) MISSING_DOUBLE then
    ret (repeat NaN n_ens)
  else if (List.length var =? 1)%nat && fne (nth 0 var NaN) MISSING_DOUBLE then
    logger WARNING check_variable_warning
      [VStr varname; VInt (Z.of_nat n_ens)] ;;
    ret (repeat (nth 0 var NaN) n_ens)
  else
    raise (ValueError []).

(** ** TCForecast.get_value_from_bufr_array *)

(** The loop of the [else] branch: the first entry that is not the
    missing value makes the function return [var], the whole array. *)
Fixpoint first_non_missing (var rest : list Z) : result value :=
  match rest with
  | [] => Raise (ValueError
            [VStr "Did not find a non-missing value in the array"])
  | x :: rest' =>
      if negb (x =? MISSING_LONG)%Z then Ok (VArr var)
      else first_non_missing var rest'
  end.

(** In the length-1 branch the [ValueError] is built but not raised, so
    the test on the missing value has no effect. *)
Definition get_value_from_bufr_array (var : list Z) : result value :=
  if (List.length var =? 1)%nat then
    Ok (VInt (nth 0 var 0%Z))
  else
    first_non_missing var var.

(** ** numpy and xarray, as far as the module uses them *)

(** A numpy array of dimension 0 or 1. *)
Inductive ndarray : Type :=
| Arr0 (v : value)
| Arr1 (l : list value).

(** [np.squeeze]: a one-element array loses its only axis. *)
Definition squeeze (a : ndarray) : ndarray :=
  match a with
  | Arr1 [v] => Arr0 v
  | _ => a
  end.

(** [np.append(a, x)]: always one-dimensional. *)
Definition np_append (a : ndarray) (x : value) : ndarray :=
  match a with
  | Arr0 v => Arr1 [v; x]
  | Arr1 l => Arr1 (l ++ [x])
  end.

(** Cell-wise map over an array. *)
Definition arr_map (f : value -> value) (a : ndarray) : ndarray :=
  match a with
  | Arr0 v => Arr0 (f v)
  | Arr1 l => Arr1 (map f l)
  end.

Fixpoint lookup {A : Type} (k : string) (l : list (string * A)) : option A :=
  match l with
  | [] => None
  | (k', a) :: l' => if String.eqb k k' then Some a else lookup k l'
  end.

Fixpoint remove_key {A : Type} (k : string) (l : list (string * A))
  : list (string * A) :=
  match l with
  | [] => []
  | (k', a) :: l' =>
      if String.eqb k k' then remove_key k l' else (k', a) :: remove_key k l'
  end.

(** [d[k] = a]: replaces the entry in place or adds it at the end. *)
Fixpoint set_key {A : Type} (k : string) (a : A) (l : list (string * A))
  : list (string * A) :=
  match l with
  | [] => [(k, a)]
  | (k', a') :: l' =>
      if String.eqb k k' then (k, a) :: l' else (k', a') :: set_key k a l'
  end.

(** A variable declared as [('time', array)] needs a one-dimensional array. *)
Definition as_time_variable (a : ndarray) : result column :=
  match a with
  | Arr1 l => Ok l
  | Arr0 _ =>
      Raise (ValueError [VStr "dimensions ('time',) must have the same length as the number of data dimensions, ndim=0"])
  end.

Fixpoint as_time_variables (vars : list (string * ndarray))
  : result (list (string * column)) :=
  match vars with
  | [] => Ok []
  | (k, a) :: vars' =>
      match as_time_variable a with
      | Raise e => Raise e
      | Ok col =>
          match as_time_variables vars' with
          | Raise e => Raise e
          | Ok cols => Ok ((k, col) :: cols)
          end
      end
  end.

(** [xr.Dataset(data_vars=..., coords={'time': time, ...}, attrs=...)] with
    every other variable declared on the dimension 'time'.  It raises
    [ValueError] when an array is not one-dimensional or when two
    variables disagree on the size of 'time'.  The times are taken to be
    times that nanoseconds can hold ([datetime64_ns]): the refusal of a
    time outside that range is not part of this definition. *)
Definition xr_Dataset (dvars : list (string * ndarray)) (time : ndarray)
    (cvars : list (string * ndarray)) (ats : list (string * value))
  : result Dataset :=
  match as_time_variables dvars, as_time_variable time,
        as_time_variables cvars with
  | Ok dcols, Ok tcol, Ok ccols =>
      if forallb (fun kc => (List.length (snd kc) =? List.length tcol)%nat)
           (dcols ++ ccols)
      then Ok (mkDataset dcols (("time"%string, tcol) :: ccols) ats)
      else Raise (ValueError [VStr "conflicting sizes for dimension 'time'"])
  | Raise e, _, _ => Raise e
  | _, Raise e, _ => Raise e
  | _, _, Raise e => Raise e
  end.

(** A missing cell: NaN, or pandas' <NA>. *)
Definition isnull (v : value) : bool :=
  match v with
  | VFloat NaN => true
  | VNA => true
  | _ => false
  end.

Fixpoint zip_with {A B C : Type} (f : A -> B -> C) (l : list A) (l' : list B)
  : list C :=
  match l, l' with
  | a :: t, b :: t' => f a b :: zip_with f t t'
  | _, _ => []
  end.

(** [ds.sizes['time']] *)
Definition sizes_time (ds : Dataset) : nat :=
  match lookup "time" (coords ds) with
  | Some col => List.length col
  | None => 0
  end.

(** The rows [Dataset.dropna('time')] keeps: those in which every data
    variable has a value.  The default [subset] is [self.data_vars], so
    coordinates are not looked at. *)
Definition dropna_mask (ds : Dataset) : list bool :=
  fold_left
    (fun mask kc => zip_with andb mask (map (fun v => negb (isnull v)) (snd kc)))
    (data_vars ds) (repeat true (sizes_time ds)).

(** [array[mask]] *)
Fixpoint isel {A : Type} (mask : list bool) (col : list A) : list A :=
  match mask, col with
  | b :: mask', v :: col' => if b then v :: isel mask' col' else isel mask' col'
  | _, _ => []
  end.

Definition dropna (ds : Dataset) : Dataset :=
  let mask := dropna_mask ds in
  mkDataset
    (map (fun kc => (fst kc, isel mask (snd kc))) (data_vars ds))
    (map (fun kc => (fst kc, isel mask (snd kc))) (coords ds))
    (attrs ds).

(** [ds.set_coords(names)]: data variables that become coordinates;
    names that are coordinates already stay what they are. *)
Definition set_coords (names : list string) (ds : Dataset) : Dataset :=
  fold_left
    (fun d k => match lookup k (data_vars d) with
                | Some col => mkDataset (remove_key k (data_vars d))
                                (coords d ++ [(k, col)]) (attrs d)
                | None => d
                end)
    names ds.

(** [ds[name] = ('time', col)] *)
Definition set_var (k : string) (col : column) (ds : Dataset) : Dataset :=
  mkDataset (set_key k col (data_vars ds)) (coords ds) (attrs ds).

(** [ds.drop_vars([name])] *)
Definition drop_var (k : string) (ds : Dataset) : Dataset :=
  mkDataset (remove_key k (data_vars ds)) (coords ds) (attrs ds).

(** [ds.attrs[name] = v] *)
Definition set_attr (k : string) (v : value) (ds : Dataset) : Dataset :=
  mkDataset (data_vars ds) (coords ds) (set_key k v (attrs ds)).

(** [x.shift({'time': 1}, fill_value=fill)] on a list of integers. *)
Definition shift1 (fill : Z) (l : list Z) : list Z :=
  match l with
  | [] => []
  | _ :: _ => fill :: removelast l
  end.

(** [x - x.shift({'time': 1}, fill_value=0)] *)
Definition diff_shift (l : list Z) : list Z :=
  zip_with Z.sub l (shift1 0 l).

(** The integers of an integer column. *)
Definition ints_of (col : column) : list Z :=
  flat_map (fun v => match v with VInt z => [z] | _ => [] end) col.

(** [np.full_like(track.time, v)] *)
Definition full_like (ds : Dataset) (v : value) : column :=
  repeat v (sizes_time ds).

(** ** Constants of the module and of CLIMADA *)

(** Saffir-Simpson hurricane categories in m/s. *)
Definition SAFFIR_MS_CAT : list Z := [18; 33; 43; 50; 59; 71; 1000]%Z.

(** The BUFR code 008005 significance for 'centre'. *)
Definition SIG_CENTRE : Z := 1.

(** What the module imports from [climada.hazard.tc_tracks]. *)
Record Climada : Type := mkClimada {
  DEF_ENV_PRESSURE : float64;
  BASIN_ENV_PRESSURE : string -> float64;
  set_category : column -> string -> list Z -> Z;
  CAT_NAMES : Z -> string
}.

(** ** Strings *)

(** Python's whitespace among the ASCII characters. *)
Definition is_space (c : ascii) : bool :=
  let n := nat_of_ascii c in
  (n =? 32)%nat || ((9 <=? n)%nat && (n <=? 13)%nat)
  || ((28 <=? n)%nat && (n <=? 31)%nat).

Fixpoint lstrip (s : string) : string :=
  match s with
  | EmptyString => EmptyString
  | String c s' => if is_space c then lstrip s' else s
  end.

Definition string_rev (s : string) : string :=
  string_of_list_ascii (rev (list_ascii_of_string s)).

(** [s.strip()] *)
Definition strip (s : string) : string :=
  string_rev (lstrip (string_rev (lstrip s))).

(** ** TCForecast._subset_to_track *)

(** The dictionary [msg] that [read_one_bufr_tc] hands to
    [_subset_to_track].  The four forecast dictionaries have the member
    indices [0 .. n_ens-1] as keys and are lists here. *)
Record message : Type := mkMessage {
  msg_latitude : list ndarray;
  msg_longitude : list ndarray;
  msg_wind_10m : list ndarray;
  msg_pressure : list ndarray;
  msg_timestamp : list value;
  msg_wmo_longname : string;
  msg_storm_id : string;
  msg_ens_type : list Z;
  msg_ens_number : list Z
}.

(** [d[k]] on a dictionary with keys [0 .. n-1]. *)
Definition dict_get {A : Type} (d : list A) (k : nat) : result A :=
  match nth_error d k with
  | Some a => Ok a
  | None => Raise KeyError
  end.

(** [a[i]] on an array. *)
Definition array_get {A : Type} (a : list A) (i : nat) : result A :=
  match nth_error a i with
  | Some x => Ok x
  | None => Raise IndexError
  end.

(** [np.array(l)] for the list of lead times.  Its first entry is the
    integer 0; an entry that is an array makes the list ragged, which
    numpy refuses. *)
Fixpoint np_array (l : list value) : result (list value) :=
  match l with
  | [] => Ok []
  | VInt z :: l' =>
      match np_array l' with
      | Ok r => Ok (VInt z :: r)
      | Raise e => Raise e
      end
  | _ :: _ =>
      Raise (ValueError [VStr "setting an array element with a sequence. The requested array has an inhomogeneous shape"])
  end.

(** [timestamp_origin + h.astype('timedelta64[h]')], in minutes. *)
Definition add_hours (timestamp_origin : Z) (v : value) : value :=
  match v with
  | VInt h => VTime (timestamp_origin + 60 * h)
  | _ => v
  end.

(** [np.squeeze(pre)/100] *)
Definition div100 (v : value) : value :=
  match v with
  | VFloat x => VFloat (fdiv x 100)
  | _ => v
  end.

(** [int(id_no) + index / 100] as a number; its binary64 value is
    [id_no_float64]. *)
Definition member_id (id_no : Z) (index : nat) : Q :=
  inject_Z id_no + (Z.of_nat index # 100).

(** [sid[2]] *)
Definition sid_basin (sid : string) : result string :=
  match String.get 2 sid with
  | Some c => Ok (String c EmptyString)
  | None => Raise IndexError
  end.

(** The body of [_subset_to_track] after [dropna]. *)
Definition finish_track (env : Climada) (sid : string) (track : Dataset)
  : M (option Dataset) :=
  if (sizes_time track =? 0)%nat then ret None else
  (* can only make latlon coords after dropna *)
  let track := set_coords ["lat"; "lon"]%string track in
  let ts_int :=
    match lookup "ts_int" (data_vars track) with
    | Some col => ints_of col
    | None => []
    end in
  let track := set_var "time_step" (map VInt (diff_shift ts_int)) track in
  let track := drop_var "ts_int" track in
  let track := set_var "radius_max_wind" (full_like track (VFloat NaN)) track in
  let track := set_var "environmental_pressure"
                 (full_like track (VFloat (DEF_ENV_PRESSURE env))) track in
  (* according to specs always num-num-letter *)
  basin <- lift (sid_basin sid) ;;
  let track := set_var "basin" (full_like track (VStr basin)) track in
  (if String.eqb basin "X"
   then logger INFO "Undefined basin %s for track name %s ensemble no. %d"
          [VStr basin;
           match lookup "name" (attrs track) with Some v => v | None => VNA end;
           match lookup "ensemble_number" (attrs track) with
           | Some v => v | None => VNA end]
   else ret tt) ;;
  let wind := match lookup "max_sustained_wind" (data_vars track) with
              | Some col => col | None => [] end in
  let cat_name := CAT_NAMES env (set_category env wind "m/s" SAFFIR_MS_CAT) in
  ret (Some (set_attr "category" (VStr cat_name) track)).

(** Subroutine to process one BUFR subset into one [xr.Dataset]. *)
Definition _subset_to_track (env : Climada) (msg : message) (index : nat)
    (provider : string) (timestamp_origin : Z) (name : string) (id_no : Z)
  : M (option Dataset) :=
  lat <- lift (dict_get (msg_latitude msg) index) ;;
  lon <- lift (dict_get (msg_longitude msg) index) ;;
  wnd <- lift (dict_get (msg_wind_10m msg) index) ;;
  pre <- lift (dict_get (msg_pressure msg) index) ;;
  let sid := strip (msg_storm_id msg) in
  ts <- lift (np_array (msg_timestamp msg)) ;;
  let timestep_int := squeeze (Arr1 ts) in
  let timestamp := arr_map (add_hours timestamp_origin) timestep_int in
  (* 'ens_type' can take a number of values telling us the source of the
     track. 0 means the deterministic analysis, which we want to flag. *)
  ens_type <- lift (array_get (msg_ens_type msg) index) ;;
  let ens_bool := negb (ens_type =? 0)%Z in
  ens_number <- lift (array_get (msg_ens_number msg) index) ;;
  match
    xr_Dataset
      [("max_sustained_wind", squeeze wnd);
       ("central_pressure", arr_map div100 (squeeze pre));
       ("ts_int", timestep_int)]%string
      timestamp
      [("lat", lat); ("lon", lon)]%string
      [("max_sustained_wind_unit", VStr "m/s");
       ("central_pressure_unit", VStr "mb");
       ("name", VStr name);
       ("sid", VStr sid);
       ("orig_event_flag", VBool false);
       ("data_provider", VStr provider);
       ("id_no", VFloat (Fin (member_id id_no index)));
       ("ensemble_number", VInt ens_number);
       ("is_ensemble", VBool ens_bool);
       ("run_datetime", VTime timestamp_origin)]%string
  with
  | Raise (ValueError err) =>
      logger WARNING "Could not process track %s subset %d, error: %s"
        ([VStr sid; VInt (Z.of_nat index)] ++ err) ;;
      ret None
  | Raise e => raise e
  | Ok track => finish_track env sid (dropna track)
  end.

(** ** TCForecast.read_one_bufr_tc *)

(** An unpacked BUFR message as ecCodes shows it to the module.  The
    header date (year, month, day, hour, minute) is one timestamp.  A key
    that the message does not have is [None]: ecCodes raises
    [CodesInternalError] for it. *)
Record bufr : Type := mkBufr {
  bufr_datetime : Z;
  stormIdentifier : string;
  longStormName : string;
  centre : Z;
  timePeriod_size : option nat;
  ensembleMemberNumber : option (list Z);
  ensembleForecastType : option (list Z);
  timePeriod : nat -> option (list Z);
  meteorologicalAttributeSignificance : nat -> option (list Z);
  latitude : nat -> option (list float64);
  longitude : nat -> option (list float64);
  pressureReducedToMeanSeaLevel : nat -> option (list float64);
  windSpeedAt10M : nat -> option (list float64)
}.

(** [ec.codes_get_array(bufr, key)] *)
Definition codes_get_array {A : Type} (a : option (list A)) : result (list A) :=
  match a with
  | Some l => Ok l
  | None => Raise CodesInternalError
  end.

(** [if v == k:] for what [get_value_from_bufr_array] returned.  On an
    array the comparison is cell-wise, and the truth value of an array
    of more than one cell is an error. *)
Definition truth_of_eq (v : value) (k : Z) : result bool :=
  match v with
  | VInt z => Ok (z =? k)%Z
  | VArr [] => Ok false
  | VArr [z] => Ok (z =? k)%Z
  | VArr _ =>
      Raise (ValueError [VStr "The truth value of an array with more than one element is ambiguous. Use a.any() or a.all()"])
  | _ => Ok false
  end.

(** [l[i] = v] *)
Fixpoint list_set {A : Type} (l : list A) (i : nat) (v : A) : list A :=
  match l, i with
  | [], _ => []
  | _ :: l', O => v :: l'
  | a :: l', S i' => a :: list_set l' i' v
  end.

(** What the loop over the time steps updates. *)
Record decoded : Type := mkDecoded {
  timesteps_int : list value;
  dec_latitude : list ndarray;
  dec_longitude : list ndarray;
  dec_pressure : list ndarray;
  dec_max_wind : list ndarray
}.

(** [for ind_ens in range(n_ens): d[ind_ens] = np.append(d[ind_ens], x[ind_ens])];
    [x] comes from [_check_variable] and has [n_ens] entries. *)
Definition append_step (d : list ndarray) (x : list float64) : list ndarray :=
  zip_with (fun a v => np_append a (VFloat v)) d x.

Definition unexpected_significance : string :=
  "unexpected meteorologicalAttributeSignificance=".

(** The body of the loop [for ind_timestep in range(1, n_timestep)]. *)
Definition read_timestep (file : bufr) (n_ens : nat) (st : decoded)
    (ind_timestep : nat) : M decoded :=
  let rank1 := (ind_timestep * 2 + 2)%nat in
  let rank3 := (ind_timestep * 2 + 3)%nat in
  let at_time := str_of_nat ind_timestep in
  (* Get timestep *)
  timestep <- lift (codes_get_array (timePeriod file ind_timestep)) ;;
  tvalue <- lift (get_value_from_bufr_array timestep) ;;
  let ts := list_set (timesteps_int st) ind_timestep tvalue in
  (* Location of the storm *)
  sig_values <-
    lift (codes_get_array (meteorologicalAttributeSignificance file rank1)) ;;
  significance <- lift (get_value_from_bufr_array sig_values) ;;
  is_centre <- lift (truth_of_eq significance 1) ;;
  centre_temp <-
    (if is_centre : bool then
       lat_temp <- lift (codes_get_array (latitude file rank1)) ;;
       lon_temp <- lift (codes_get_array (longitude file rank1)) ;;
       pre_temp <- lift (codes_get_array
                     (pressureReducedToMeanSeaLevel file (ind_timestep + 1))) ;;
       ret (lat_temp, lon_temp, pre_temp)
     else
       raise (ValueError [VStr unexpected_significance; significance])) ;;
  let '(lat_temp, lon_temp, pre_temp) := centre_temp in
  (* Location of max wind *)
  sig_values <-
    lift (codes_get_array (meteorologicalAttributeSignificance file rank3)) ;;
  significanceWind <- lift (get_value_from_bufr_array sig_values) ;;
  is_wind <- lift (truth_of_eq significanceWind 3) ;;
  wnd_temp <-
    (if is_wind : bool then
       lift (codes_get_array (windSpeedAt10M file (ind_timestep + 1)))
     else
       raise (ValueError [VStr unexpected_significance; significance])) ;;
  (* check dimension of the variables, and replace missing value with NaN *)
  lat <- _check_variable lat_temp n_ens ("Latitude at time " ++ at_time) ;;
  lon <- _check_variable lon_temp n_ens ("Longitude at time " ++ at_time) ;;
  pre <- _check_variable pre_temp n_ens ("Pressure at time " ++ at_time) ;;
  wnd <- _check_variable wnd_temp n_ens
           ("Maximum 10m wind at time " ++ at_time) ;;
  ret (mkDecoded ts
         (append_step (dec_latitude st) lat)
         (append_step (dec_longitude st) lon)
         (append_step (dec_pressure st) pre)
         (append_step (dec_max_wind st) wnd)).

(** [str(n)] for an integer. *)
Definition str_of_Z (z : Z) : string := NilZero.string_of_int (Z.to_int z).

(** The loop [for i in range(n_ens)] that turns the subsets into tracks. *)
Definition append_subset (env : Climada) (msg : message) (provider : string)
    (timestamp_origin : Z) (id_no : Z) (_ : unit) (i : nat) : M unit :=
  let name := msg_wmo_longname msg in
  track <- _subset_to_track env msg i provider timestamp_origin name id_no ;;
  match track with
  | Some tr => append tr
  | None => logger DEBUG "Dropping empty track %s, subset %d"
              [VStr name; VInt (Z.of_nat i)]
  end.

(** The first part of [read_one_bufr_tc], for a message with [size] lead
    times: everything up to the dictionary [msg]. *)
Definition read_message (file : bufr) (size : nat) : M message :=
  let sid := strip (stormIdentifier file) in
  let n_timestep := (size + 1)%nat in
  ens_no <- lift (codes_get_array (ensembleMemberNumber file)) ;;
  let n_ens := List.length ens_no in
  ens_type <- lift (codes_get_array (ensembleForecastType file)) ;;
  let ens_type :=
    if (List.length ens_type =? 1)%nat
    then repeat (nth 0 ens_type 0%Z) n_ens else ens_type in
  lat_init_temp <- lift (codes_get_array (latitude file 2)) ;;
  lon_init_temp <- lift (codes_get_array (longitude file 2)) ;;
  pre_init_temp <-
    lift (codes_get_array (pressureReducedToMeanSeaLevel file 1)) ;;
  wnd_init_temp <- lift (codes_get_array (windSpeedAt10M file 1)) ;;
  lat_init <- _check_variable lat_init_temp n_ens "Latitude at time 0" ;;
  lon_init <- _check_variable lon_init_temp n_ens "Longitude at time 0" ;;
  pre_init <- _check_variable pre_init_temp n_ens "Pressure at time 0" ;;
  wnd_init <- _check_variable wnd_init_temp n_ens
                "Maximum 10m wind at time 0" ;;
  let init (x : list float64) := map (fun v => Arr0 (VFloat v)) x in
  st <- for_each (read_timestep file n_ens)
          (mkDecoded (repeat (VInt 0) n_timestep)
             (init lat_init) (init lon_init) (init pre_init)
             (init wnd_init))
          (seq 1 (n_timestep - 1)) ;;
  ret (mkMessage (dec_latitude st) (dec_longitude st) (dec_max_wind st)
         (dec_pressure st) (timesteps_int st)
         (strip (longStormName file)) sid ens_type ens_no).

(** Read a single BUFR TC track file.  [id_no] is given; without it the
    caller's number is the date followed by random digits. *)
Definition read_one_bufr_tc (env : Climada) (file : bufr) (id_no : Z)
  : M unit :=
  let timestamp_origin := bufr_datetime file in
  let sid := strip (stormIdentifier file) in
  match timePeriod_size file with
  | None =>
      logger WARNING "Track %s has no defined timePeriod. Track is discarded."
        [VStr sid]
  | Some size =>
      msg <- read_message file size ;;
      let n_ens := List.length (msg_ens_number msg) in
      let orig_centre := centre file in
      let provider :=
        if (orig_centre =? 98)%Z then "ECMWF"%string
        else ("BUFR code " ++ str_of_Z orig_centre)%string in
      for_each (append_subset env msg provider timestamp_origin id_no) tt
        (seq 0 n_ens)
  end.

(** ** TCForecast.fetch_ecmwf *)

(** [for i, file in enumerate(files, 1): self.read_one_bufr_tc(file, id_no=i)]
    on an explicit list of opened files, one BUFR message each. *)
Fixpoint fetch_files (env : Climada) (i : Z) (files : list bufr) : M unit :=
  match files with
  | [] => ret tt
  | file :: files' =>
      read_one_bufr_tc env file i ;; fetch_files env (i + 1) files'
  end.

Definition fetch_ecmwf (env : Climada) (files : list bufr) : M unit :=
  fetch_files env 1 files.

(** ** The CXML path: _cxml_to_df, _fcastdf_to_ds, read_cxml *)

(** A [pandas.DataFrame]: named columns of one length. *)
Definition DataFrame : Type := list (string * column).

(** [df[name]] *)
Definition df_get (df : DataFrame) (k : string) : result column :=
  match lookup k df with
  | Some col => Ok col
  | None => Raise KeyError
  end.

Definition df_rows (df : DataFrame) : nat :=
  match df with
  | [] => 0
  | (_, col) :: _ => List.length col
  end.

(** [df[mask]] *)
Definition df_isel (mask : list bool) (df : DataFrame) : DataFrame :=
  map (fun kc => (fst kc, isel mask (snd kc))) df.

(** [df.dropna(subset=names, how="any")] *)
Fixpoint df_dropna (names : list string) (df : DataFrame) : result DataFrame :=
  match names with
  | [] => Ok df
  | k :: names' =>
      match df_get df k with
      | Raise e => Raise e
      | Ok col => df_dropna names' (df_isel (map (fun v => negb (isnull v)) col) df)
      end
  end.

(** The dictionary [BASIN_ENV_PRESSURE_CXML]. *)
Definition BASIN_ENV_PRESSURE_CXML (env : Climada) : list (string * value) :=
  [("Southwest Pacific", VFloat (BASIN_ENV_PRESSURE env "SP"));
   ("North Indian", VFloat (BASIN_ENV_PRESSURE env "NI"));
   ("Northeast Pacific", VFloat (BASIN_ENV_PRESSURE env "EP"));
   ("Northwest Pacific", VFloat (BASIN_ENV_PRESSURE env "WP"));
   ("North Atlantic", VFloat (BASIN_ENV_PRESSURE env "NA"))]%string.

(** [series.replace(d)]: a cell that is a key of [d] becomes its value. *)
Definition replace (d : list (string * value)) (col : column) : column :=
  map (fun v => match v with
                | VStr s => match lookup s d with Some v' => v' | None => v end
                | _ => v
                end) col.

(** [series.fillna(other)], cell by cell. *)
Definition fillna (col other : column) : column :=
  zip_with (fun v d => if isnull v then d else v) col other.

(** [df.fillna({name: other})]: a name that is no column is skipped. *)
Definition df_fillna (k : string) (other : column) (df : DataFrame)
  : DataFrame :=
  map (fun kc => if String.eqb (fst kc) k then (fst kc, fillna (snd kc) other)
                 else kc) df.

(** [number.astype(str) + " - " + basin] *)
Definition default_name (number basin : value) : value :=
  match basin with
  | VStr b =>
      match number with
      | VInt z => VStr (str_of_Z z ++ " - " ++ b)
      | _ => VStr ("<NA> - " ++ b)
      end
  | _ => VFloat NaN
  end.

(** [_cxml_to_df] from the table that [pd.read_csv] returns for the
    transformed document. *)
Definition _cxml_to_df (env : Climada) (all_storms_df : DataFrame)
    (basin_env_pressures : option (list (string * value)))
  : result DataFrame :=
  match df_dropna ["validTime"; "latitude"; "longitude"]%string
          all_storms_df with
  | Raise e => Raise e
  | Ok df =>
      let basin_env_pressures :=
        match basin_env_pressures with
        | Some d => d
        | None => BASIN_ENV_PRESSURE_CXML env
        end in
      match df_get df "basin", df_get df "cycloneName",
            df_get df "cycloneNumber" with
      | Ok basin, Ok cycloneName, Ok cycloneNumber =>
          let default_env_pressure := replace basin_env_pressures basin in
          let df := set_key "is_named_storm"
                      (map (fun v => VBool (negb (isnull v))) cycloneName) df in
          let default_names := zip_with default_name cycloneNumber basin in
          Ok (df_fillna "lastClosedIsobar" default_env_pressure
                (df_fillna "cycloneName" default_names df))
      | Raise e, _, _ => Raise e
      | _, Raise e, _ => Raise e
      | _, _, Raise e => Raise e
      end
  end.

(** [series.iloc[0]]: the first cell.  pandas hands the cell of a
    datetime column out as a [Timestamp]. *)
Definition iloc0 (col : column) : result value :=
  match col with
  | VTime t :: _ => Ok (VTimestamp t)
  | v :: _ => Ok v
  | [] => Raise IndexError
  end.

Definition bind_result {A B : Type} (r : result A) (k : A -> result B)
  : result B :=
  match r with
  | Ok a => k a
  | Raise e => Raise e
  end.

Notation "x <~ r ;; k" := (bind_result r (fun x => k))
  (at level 61, r at next level, right associativity) : monad_scope.

(** Convert a given subdataframe into an [xr.Dataset]. *)
Definition _fcastdf_to_ds (track_as_df : DataFrame) : result Dataset :=
  maximumWind <~ df_get track_as_df "maximumWind" ;;
  minimumPressure <~ df_get track_as_df "minimumPressure" ;;
  hour <~ df_get track_as_df "hour" ;;
  maximumWindRadius <~ df_get track_as_df "maximumWindRadius" ;;
  minimumPressure' <~ df_get track_as_df "minimumPressure" ;;
  basin <~ df_get track_as_df "basin" ;;
  validTime <~ df_get track_as_df "validTime" ;;
  latitude <~ df_get track_as_df "latitude" ;;
  longitude <~ df_get track_as_df "longitude" ;;
  name <~ bind_result (df_get track_as_df "cycloneName") iloc0 ;;
  sid <~ bind_result (df_get track_as_df "id") iloc0 ;;
  origin <~ bind_result (df_get track_as_df "origin") iloc0 ;;
  cycloneNumber <~ bind_result (df_get track_as_df "cycloneNumber") iloc0 ;;
  member <~ bind_result (df_get track_as_df "member") iloc0 ;;
  member' <~ bind_result (df_get track_as_df "member") iloc0 ;;
  baseTime <~ bind_result (df_get track_as_df "baseTime") iloc0 ;;
  is_named_storm <~ bind_result (df_get track_as_df "is_named_storm") iloc0 ;;
  xr_Dataset
    [("max_sustained_wind", Arr1 maximumWind);
     ("central_pressure", Arr1 minimumPressure);
     ("hour", Arr1 hour);
     ("radius_max_wind", Arr1 maximumWindRadius);
     ("environmental_pressure", Arr1 minimumPressure');
     ("basin", Arr1 basin)]%string
    (Arr1 validTime)
    [("lat", Arr1 latitude); ("lon", Arr1 longitude)]%string
    [("max_sustained_wind_unit", VStr "m/s");
     ("central_pressure_unit", VStr "mb");
     ("name", name);
     ("sid", sid);
     ("orig_event_flag", VBool false);
     ("data_provider", origin);
     ("id_no", cycloneNumber);
     ("ensemble_number", member);
     ("is_ensemble", VBool (negb (isnull member')));
     ("run_datetime", baseTime);
     ("is_named_storm", is_named_storm)]%string.

(** Equality of group keys; missing values form one group
    ([dropna=False]). *)
Definition key_eqb (v v' : value) : bool :=
  match v, v' with
  | VFloat NaN, VFloat NaN => true
  | VFloat (Fin q), VFloat (Fin q') => Qeq_bool q q'
  | VInt z, VInt z' => (z =? z')%Z
  | VStr s, VStr s' => String.eqb s s'
  | VBool b, VBool b' => Bool.eqb b b'
  | VTime t, VTime t' => (t =? t')%Z
  | VNA, VNA => true
  | _, _ => false
  end.

Fixpoint keys_eqb (k k' : list value) : bool :=
  match k, k' with
  | [], [] => true
  | v :: t, v' :: t' => key_eqb v v' && keys_eqb t t'
  | _, _ => false
  end.

(** The group keys in the order in which they are first seen. *)
Fixpoint first_seen (seen : list (list value)) (ks : list (list value))
  : list (list value) :=
  match ks with
  | [] => []
  | k :: ks' =>
      if existsb (keys_eqb k) seen then first_seen seen ks'
      else k :: first_seen (k :: seen) ks'
  end.

(** The subdataframes of [df.groupby(names, sort=False, dropna=False)]. *)
Definition groupby (names : list string) (df : DataFrame)
  : result (list DataFrame) :=
  let fix cols (names : list string) : result (list column) :=
    match names with
    | [] => Ok []
    | k :: names' =>
        c <~ df_get df k ;; cs <~ cols names' ;; Ok (c :: cs)
    end in
  cs <~ cols names ;;
  let row_keys :=
    map (fun i => map (fun c => nth i c VNA) cs) (seq 0 (df_rows df)) in
  Ok (map (fun k => df_isel (map (keys_eqb k) row_keys) df)
        (first_seen [] row_keys)).

Fixpoint map_result {A B : Type} (f : A -> result B) (l : list A)
  : result (list B) :=
  match l with
  | [] => Ok []
  | a :: l' => b <~ f a ;; bs <~ map_result f l' ;; Ok (b :: bs)
  end.

(** [read_cxml] from the table of the transformed document: the tracks
    of the new instance. *)
Definition read_cxml (env : Climada) (all_storms_df : DataFrame)
  : result (list Dataset) :=
  df <~ _cxml_to_df env all_storms_df None ;;
  groups <~ groupby
    ["disturbance_no"; "baseTime"; "basin"; "cycloneNumber"; "member"]%string
    df ;;
  map_result _fcastdf_to_ds groups.

(** ** write_hdf5 and from_hdf5 *)

(** [int(v)] on the types an [is_ensemble] attribute holds. *)
Definition py_int (v : value) : result value :=
  match v with
  | VBool b => Ok (VInt (if b then 1 else 0))
  | VInt z => Ok (VInt z)
  | _ => Raise TypeError
  end.

(** [bool(v)] *)
Definition py_bool (v : value) : result value :=
  match v with
  | VBool b => Ok (VBool b)
  | VInt z => Ok (VBool (negb (z =? 0)%Z))
  | VFloat NaN => Ok (VBool true)
  | VFloat (Fin q) => Ok (VBool (negb (Qeq_bool q 0)))
  | VStr s => Ok (VBool (negb (String.eqb s "")))
  | VTime _ => Ok (VBool true)
  | VTimestamp _ => Ok (VBool true)
  | VNA => Ok (VBool false)
  | VArr [] => Ok (VBool false)
  | VArr [z] => Ok (VBool (negb (z =? 0)%Z))
  | VArr _ => Raise (ValueError [VStr "The truth value of an array with more than one element is ambiguous. Use a.any() or a.all()"])
  end.

(** numpy's text form of a [datetime64] and its reading back, and pandas'
    text form of a [Timestamp], are taken as given. *)
Record Numpy : Type := mkNumpy {
  datetime_as_string : Z -> string;
  datetime_of_string : string -> option Z;
  timestamp_as_string : Z -> string
}.

(** [str(v)] on the types a [run_datetime] attribute holds. *)
Definition py_str (np : Numpy) (v : value) : result value :=
  match v with
  | VTime t => Ok (VStr (datetime_as_string np t))
  | VTimestamp t => Ok (VStr (timestamp_as_string np t))
  | VStr s => Ok (VStr s)
  | _ => Raise TypeError
  end.

(** [np.datetime64(v)] *)
Definition np_datetime64 (np : Numpy) (v : value) : result value :=
  match v with
  | VTime t => Ok (VTime t)
  | VTimestamp t => Ok (VTime t)
  | VStr s =>
      match datetime_of_string np s with
      | Some t => Ok (VTime t)
      | None => Raise (ValueError [VStr "Error parsing datetime string"])
      end
  | _ => Raise (ValueError [VStr "Could not convert object to NumPy datetime"])
  end.

(** [track.attrs[k] = f(track.attrs[k])] *)
Definition update_attr (k : string) (f : value -> result value) (tr : Dataset)
  : Dataset * option exn :=
  match lookup k (attrs tr) with
  | None => (tr, Some KeyError)
  | Some v =>
      match f v with
      | Ok v' => (set_attr k v' tr, None)
      | Raise e => (tr, Some e)
      end
  end.

(** Two assignments on one track, the second only if the first passed. *)
Definition update_attrs (k1 : string) (f1 : value -> result value)
    (k2 : string) (f2 : value -> result value) (tr : Dataset)
  : Dataset * option exn :=
  match update_attr k1 f1 tr with
  | (tr1, None) => update_attr k2 f2 tr1
  | (tr1, Some e) => (tr1, Some e)
  end.

(** [for track in tracks: ...] on tracks that are changed in place: after
    a raise the tracks not yet reached are as they were. *)
Fixpoint for_tracks (f : Dataset -> Dataset * option exn)
    (tracks : list Dataset) : list Dataset * option exn :=
  match tracks with
  | [] => ([], None)
  | tr :: tracks' =>
      match f tr with
      | (tr', None) =>
          let (rest, e) := for_tracks f tracks' in (tr' :: rest, e)
      | (tr', Some e) => (tr' :: tracks', Some e)
      end
  end.

(** change dtype from bool to int to be NetCDF4-compliant *)
Definition to_netcdf4 (np : Numpy) : Dataset -> Dataset * option exn :=
  update_attrs "is_ensemble" py_int "run_datetime" (py_str np).

(** undo the change of dtype *)
Definition of_netcdf4 (np : Numpy) : Dataset -> Dataset * option exn :=
  update_attrs "is_ensemble" py_bool "run_datetime" (np_datetime64 np).

(** What the storage format holds as the value of an attribute: numbers
    and text.  It has no boolean and no timestamp. *)
Definition netcdf_value (v : value) : bool :=
  match v with
  | VInt _ | VFloat _ | VStr _ => true
  | _ => false
  end.

(** A track that the base class can write: [orig_event_flag], the
    boolean of the base class, is its own matter; every other attribute
    has to be a value of the format. *)
Definition netcdf_track (tr : Dataset) : bool :=
  forallb (fun kv => String.eqb (fst kv) "orig_event_flag"
                     || netcdf_value (snd kv))
    (attrs tr).

(** Modelled from the spec: [TCTracks.write_hdf5] of the base class, which
    is not part of the module.  The spec asks of the persisted file that
    reading it back reproduces the field values, and says that the
    storage format does not natively support a boolean or a timestamp:
    a track with such an attribute is refused; otherwise the file holds
    the tracks as they are when it is written, and writing to an existing
    name overwrites. *)
Definition super_write_hdf5 (file_name : string) : M unit :=
  fun w => if forallb netcdf_track (data w)
           then (Ok tt, mkWorld (data w) (logged w)
                          (set_key file_name (data w) (files w)))
           else (Raise TypeError, w).

(** Modelled from the spec: [TCTracks.from_hdf5] of the base class, which
    is not part of the module: the tracks held by the file.  A name that
    was never written is a [ValueError], whose text is left out. *)
Definition super_from_hdf5 (file_name : string) : M (list Dataset) :=
  fun w => match lookup file_name (files w) with
           | Some tracks => (Ok tracks, w)
           | None => (Raise (ValueError []), w)
           end.

(** [for track in self.data: ...] *)
Definition for_self_data (f : Dataset -> Dataset * option exn) : M unit :=
  fun w => let (tracks, e) := for_tracks f (data w) in
           (match e with Some e => Raise e | None => Ok tt end,
            mkWorld tracks (logged w) (files w)).

(** [try: c finally: h]: [h] runs in both cases, and what [c] raised is
    raised again unless [h] raises. *)
Definition try_finally {A : Type} (c : M A) (h : M unit) : M A :=
  fun w => match c w with
           | (r, w') =>
               match h w' with
               | (Ok _, w'') => (r, w'')
               | (Raise e, w'') => (Raise e, w'')
               end
           end.

(** Write TC tracks in NetCDF4-compliant HDF5 format. *)
Definition write_hdf5 (np : Numpy) (file_name : string) : M unit :=
  for_self_data (to_netcdf4 np) ;;
  try_finally (super_write_hdf5 file_name) (for_self_data (of_netcdf4 np)).

(** Create a new TCForecast from a NetCDF4-compliant HDF5 file: the
    tracks of the new instance. *)
Definition from_hdf5 (np : Numpy) (file_name : string) : M (list Dataset) :=
  temp <- super_from_hdf5 file_name ;;
  let (tracks, e) := for_tracks (of_netcdf4 np) temp in
  match e with
  | Some e => raise e
  | None => ret tracks
  end.

(** ** Sample inputs *)

(** Modelled from the spec: [set_category] of CLIMADA, which is not part
    of the module: the peak wind over the track is bucketed with the
    threshold table, a strict "less than the next threshold" comparison
    selects the class, and the class below the first threshold is -1. *)
Definition peak_wind (wind : column) : Q :=
  fold_left (fun m v => match v with
                        | VFloat (Fin q) => if Qle_bool m q then q else m
                        | _ => m
                        end) wind 0%Q.

Fixpoint first_above (peak : Q) (scale : list Z) (i : Z) : Z :=
  match scale with
  | [] => -1
  | s :: scale' =>
      if Qle_bool (inject_Z s) peak then first_above peak scale' (i + 1)
      else i - 1
  end.

Definition set_category_spec (wind : column) (unit : string) (scale : list Z)
  : Z :=
  first_above (peak_wind wind) scale 0.

(** The values CLIMADA gives to what the module imports from it. *)
Definition climada : Climada :=
  mkClimada
    (Fin 1010)
    (fun basin =>
       if String.eqb basin "SP" then Fin 1004
       else if String.eqb basin "NI" then Fin 1005
       else if String.eqb basin "WP" then Fin 1005
       else Fin 1010)
    set_category_spec
    (fun c =>
       if (c =? -1)%Z then "Tropical Depression"
       else if (c =? 0)%Z then "Tropical Storm"
       else ("Hurricane Cat. " ++ str_of_Z c))%string.

(** A fresh instance: no tracks, nothing logged, no files. *)
Definition w0 : world := mkWorld [] [] [].

(** A message with two ensemble members and three time steps (the
    analysis and the lead times 6 h and 12 h).  [period1], [sig1] and
    [sig3] are the arrays of the first lead time and of its two
    significance qualifiers. *)
Definition sample_bufr (period1 sig1 sig3 : list Z) (size : option nat)
  : bufr :=
  mkBufr
    28512720                       (* 2024-03-18 12:00 *)
    "07P  " "SEVEN     " 98
    size
    (Some [1; 2]%Z)
    (Some [4]%Z)
    (fun k => match k with
              | 1%nat => Some period1 | 2%nat => Some [12]%Z | _ => None end)
    (fun rank => match rank with
                 | 4%nat => Some sig1 | 5%nat => Some sig3
                 | 6%nat => Some [1]%Z | 7%nat => Some [3]%Z | _ => None end)
    (fun rank => match rank with
                 | 2%nat => Some [Fin (-15); Fin (-15)]
                 | 4%nat => Some [Fin (-16); Fin (-33 # 2)]
                 | 6%nat => Some [Fin (-17); Fin (-18)]
                 | _ => None end)
    (fun rank => match rank with
                 | 2%nat => Some [Fin 160]
                 | 4%nat => Some [Fin 161; Fin 162]
                 | 6%nat => Some [Fin 162; Fin 164]
                 | _ => None end)
    (fun k => match k with
              | 1%nat => Some [Fin 99000; Fin 99100]
              | 2%nat => Some [Fin 98500; Fin 98700]
              | 3%nat => Some [Fin 98000; MISSING_DOUBLE]
              | _ => None end)
    (fun k => match k with
              | 1%nat => Some [Fin 20; Fin 19]
              | 2%nat => Some [Fin 25; Fin 23]
              | 3%nat => Some [Fin 30; Fin 26]
              | _ => None end).

Definition good_bufr : bufr := sample_bufr [6]%Z [1]%Z [3]%Z (Some 2).

(** The same message with the qualifier 4 where 1 (storm centre) is
    expected. *)
Definition bad_bufr : bufr := sample_bufr [6]%Z [4]%Z [3]%Z (Some 2).

(** The same message without the key timePeriod. *)
Definition no_period_bufr : bufr := sample_bufr [6]%Z [1]%Z [3]%Z None.

(** The same message with a wholly missing first qualifier. *)
Definition missing_sig_bufr : bufr :=
  sample_bufr [6]%Z [MISSING_LONG] [3]%Z (Some 2).

(** The same message with a wholly missing first lead time. *)
Definition missing_period_bufr : bufr :=
  sample_bufr [MISSING_LONG] [1]%Z [3]%Z (Some 2).

(** A bundle of two members and three rows; the first row of the first
    member has no wind. *)
Definition gap_message : message :=
  mkMessage
    [Arr1 [VFloat (Fin 10); VFloat (Fin 11); VFloat (Fin 12)];
     Arr1 [VFloat (Fin 10); VFloat (Fin 12); VFloat (Fin 14)]]
    [Arr1 [VFloat (Fin 50); VFloat (Fin 51); VFloat (Fin 52)];
     Arr1 [VFloat (Fin 50); VFloat (Fin 52); VFloat (Fin 54)]]
    [Arr1 [VFloat NaN; VFloat (Fin 21); VFloat (Fin 22)];
     Arr1 [VFloat (Fin 19); VFloat (Fin 20); VFloat (Fin 24)]]
    [Arr1 [VFloat (Fin 99000); VFloat (Fin 98000); VFloat (Fin 97000)];
     Arr1 [VFloat (Fin 99100); VFloat (Fin 98100); VFloat (Fin 97100)]]
    [VInt 0; VInt 6; VInt 18]
    "SEVEN" "07P" [4; 4]%Z [1; 2]%Z.

(** A member bundle of two rows whose first row has no latitude. *)
Definition nolat_message : message :=
  mkMessage
    [Arr1 [VFloat NaN; VFloat (Fin 11)]]
    [Arr1 [VFloat (Fin 50); VFloat (Fin 51)]]
    [Arr1 [VFloat (Fin 20); VFloat (Fin 21)]]
    [Arr1 [VFloat (Fin 99000); VFloat (Fin 98000)]]
    [VInt 0; VInt 6]
    "SEVEN" "07P" [4]%Z [1]%Z.

(** The table of a CXML document with one forecast row whose last closed
    isobar is missing. *)
Definition sample_cxml : DataFrame :=
  [("disturbance_no", [VInt 1]);
   ("baseTime", [VTime 28512720]);
   ("validTime", [VTime 28513080]);
   ("basin", [VStr "Southwest Pacific"]);
   ("cycloneNumber", [VInt 7]);
   ("member", [VInt 3]);
   ("cycloneName", [VFloat NaN]);
   ("hour", [VInt 6]);
   ("latitude", [VFloat (Fin (-16))]);
   ("longitude", [VFloat (Fin 161)]);
   ("maximumWind", [VFloat (Fin 25)]);
   ("minimumPressure", [VFloat (Fin 985)]);
   ("maximumWindRadius", [VFloat NaN]);
   ("lastClosedIsobar", [VFloat NaN]);
   ("id", [VStr "2024031812_07P"]);
   ("origin", [VStr "ecmf"])]%string.

(** A clock for numpy's datetime text: the minutes since the epoch in
    decimal. *)
Definition decimal_clock : Numpy :=
  mkNumpy str_of_Z
    (fun s => match NilZero.int_of_string s with
              | Some d => Some (Z.of_int d)
              | None => None
              end)
    str_of_Z.

(** The state of the loop when the first lead time of the sample
    messages is read. *)
Definition sample_decoded : decoded :=
  mkDecoded [VInt 0; VInt 0; VInt 0]
    [Arr0 (VFloat (Fin (-15))); Arr0 (VFloat (Fin (-15)))]
    [Arr0 (VFloat (Fin 160)); Arr0 (VFloat (Fin 160))]
    [Arr0 (VFloat (Fin 99000)); Arr0 (VFloat (Fin 99100))]
    [Arr0 (VFloat (Fin 20)); Arr0 (VFloat (Fin 19))].

(** ** What an assembled track is compared with *)

(** A row has a place in the track when its wind and its pressure (in
    hPa) are defined. *)
Definition row_defined (w p : value) : bool :=
  negb (isnull w) && negb (isnull (div100 p)).

(** The cells of [xs] in the rows in which wind and pressure are
    defined. *)
Fixpoint retained {A : Type} (wnd pre : list value) (xs : list A) : list A :=
  match wnd, pre, xs with
  | w :: wnd', p :: pre', x :: xs' =>
      if row_defined w p then x :: retained wnd' pre' xs'
      else retained wnd' pre' xs'
  | _, _, _ => []
  end.

(** The rows in which latitude, longitude, wind and pressure are all
    defined. *)
Fixpoint fully_defined (lat lon wnd pre : list value) : nat :=
  match lat, lon, wnd, pre with
  | a :: lat', o :: lon', w :: wnd', p :: pre' =>
      (if negb (isnull a) && negb (isnull o) && negb (isnull w)
          && negb (isnull p) then 1 else 0)
      + fully_defined lat' lon' wnd' pre'
  | _, _, _, _ => 0
  end.

(** The fractional part of a rational. *)
Definition frac (q : Q) : Q := q - inject_Z (Qfloor q).

(** The track that [_subset_to_track] builds from the columns of one
    member. *)
Definition assembled (env : Climada) (lat lon wnd pre : list value)
    (leads : list Z) (basin sid provider name : string)
    (timestamp_origin id_no : Z) (index : nat) (ens_type ens_number : Z)
  : Dataset :=
  let n := List.length (retained wnd pre leads) in
  mkDataset
    [("max_sustained_wind", retained wnd pre wnd);
     ("central_pressure", retained wnd pre (map div100 pre));
     ("time_step", map VInt (diff_shift (retained wnd pre leads)));
     ("radius_max_wind", repeat (VFloat NaN) n);
     ("environmental_pressure", repeat (VFloat (DEF_ENV_PRESSURE env)) n);
     ("basin", repeat (VStr basin) n)]%string
    [("time", map (fun h => VTime (timestamp_origin + 60 * h))
                (retained wnd pre leads));
     ("lat", retained wnd pre lat);
     ("lon", retained wnd pre lon)]%string
    [("max_sustained_wind_unit", VStr "m/s");
     ("central_pressure_unit", VStr "mb");
     ("name", VStr name);
     ("sid", VStr sid);
     ("orig_event_flag", VBool false);
     ("data_provider", VStr provider);
     ("id_no", VFloat (Fin (member_id id_no index)));
     ("ensemble_number", VInt ens_number);
     ("is_ensemble", VBool (negb (ens_type =? 0)%Z));
     ("run_datetime", VTime timestamp_origin);
     ("category",
      VStr (CAT_NAMES env
              (set_category env (retained wnd pre wnd) "m/s"
                 SAFFIR_MS_CAT)))]%string.

(** The differences of a list of lead times, the first one taken from
    [prev]. *)
Fixpoint diffs (prev : Z) (l : list Z) : list Z :=
  match l with
  | [] => []
  | a :: l' => (a - prev)%Z :: diffs a l'
  end.

(** A computation that leaves the tracks of the instance alone. *)
Definition keeps_data {A : Type} (c : M A) : Prop :=
  forall w, data (snd (c w)) = data w.

(** The error of an unexpected significance qualifier. *)
Definition qualifier_error (e : exn) : Prop :=
  exists code, e = ValueError [VStr unexpected_significance; code].

(** A track as the class documents it: [is_ensemble] is a boolean and
    [run_datetime] a [numpy.datetime64]. *)
Definition forecast_track (tr : Dataset) : Prop :=
  exists b t,
    lookup "is_ensemble" (attrs tr) = Some (VBool b) /\
    lookup "run_datetime" (attrs tr) = Some (VTime t).

(** The instance after the run over [good_bufr]: two tracks. *)
Definition good_world : world := snd (fetch_ecmwf climada [good_bufr] w0).

(** ** Shapes of what a message is decoded to *)

(** [a.size]: the number of cells of an array. *)
Definition arr_size (a : ndarray) : nat :=
  match a with
  | Arr0 _ => 1
  | Arr1 l => List.length l
  end.

(** A dictionary with one series of [k] cells per ensemble member; a
    series of more than one cell is one-dimensional. *)
Definition series_ok (n_ens k : nat) (d : list ndarray) : Prop :=
  List.length d = n_ens /\
  Forall (fun a => arr_size a = k /\ (k <> 1 -> exists l, a = Arr1 l)) d.

(** The state of the loop over the time steps after [k - 1] steps of a
    message with [n_timestep] time steps. *)
Definition decoded_ok (n_ens k n_timestep : nat) (st : decoded) : Prop :=
  List.length (timesteps_int st) = n_timestep /\
  nth_error (timesteps_int st) 0 = Some (VInt 0) /\
  series_ok n_ens k (dec_latitude st) /\
  series_ok n_ens k (dec_longitude st) /\
  series_ok n_ens k (dec_pressure st) /\
  series_ok n_ens k (dec_max_wind st).

(** The provider that [read_one_bufr_tc] names for a message. *)
Definition provider_of (file : bufr) : string :=
  if (centre file =? 98)%Z then "ECMWF"%string
  else ("BUFR code " ++ str_of_Z (centre file))%string.

(** [tr] is a track of the member at index [i] of the message [file],
    read with the number [id_no]. *)
Definition track_of_member (file : bufr) (id_no : Z) (i : nat) (tr : Dataset)
  : Prop :=
  lookup "id_no" (attrs tr) = Some (VFloat (Fin (member_id id_no i))) /\
  lookup "run_datetime" (attrs tr) = Some (VTime (bufr_datetime file)) /\
  lookup "data_provider" (attrs tr) = Some (VStr (provider_of file)) /\
  lookup "name" (attrs tr) = Some (VStr (strip (longStormName file))) /\
  (exists ens_no eno,
     ensembleMemberNumber file = Some ens_no /\
     nth_error ens_no i = Some eno /\
     lookup "ensemble_number" (attrs tr) = Some (VInt eno)) /\
  (exists b, lookup "is_ensemble" (attrs tr) = Some (VBool b)).

(** The error of a variable without a time axis. *)
Definition ndim0_error : string :=
  "dimensions ('time',) must have the same length as the number of data dimensions, ndim=0".

(** ** TCForecast.fetch_bufr_ftp *)

(** What the FTP server shows to a connection: the names in its root
    ([con.nlst()] before any [cwd]), for a directory the names in it
    ([con.cwd(d)] then [con.nlst()]), and for a directory and a name the
    file that [RETR] gives.  A refused command is the text of the error of
    [ftplib]. *)
Record ftp_server : Type := mkFtp {
  ftp_root : string + list string;
  ftp_cwd : string -> string + list string;
  ftp_retr : string -> string -> string + bufr
}.

(** What [fetch_bufr_ftp] can raise. *)
Inductive ftp_exn : Type :=
| FtpError (msg : string)           (* an error of ftplib *)
| FtpFileNotFound (msg : string)    (* FileNotFoundError *)
| FtpIndexError.                    (* IndexError *)

(** What a call of [fetch_bufr_ftp] leaves: what it returns or raises,
    whether [con.quit()] was called, and what it logged. *)
Record ftp_outcome : Type := mkOutcome {
  ftp_result : ftp_exn + list bufr;
  ftp_quit : bool;
  ftp_log : list log_record
}.

(** [sub in s] *)
Fixpoint contains (sub s : string) : bool :=
  String.prefix sub s
  || match s with
     | EmptyString => false
     | String _ s' => contains sub s'
     end.

(** [s.endswith(suffix)] *)
Fixpoint ends_with (suffix s : string) : bool :=
  String.eqb suffix s
  || match s with
     | EmptyString => false
     | String _ s' => ends_with suffix s'
     end.

(** [re.search('120000|000000$', s)]: the forecasts initialised at 00 or
    12 UTC.  [$] is the end of the text, or the place before a last
    newline. *)
Definition is_run_directory (s : string) : bool :=
  contains "120000" s
  || ends_with "000000" s
  || ends_with (String.append "000000" (String (ascii_of_nat 10) EmptyString)) s.

(** [fnmatch.filter(names, '*tropical_cyclone*')] and then
    [fnmatch.filter(..., '*ECEP*')], where file names are compared as
    they are written. *)
Definition is_ensemble_track_file (s : string) : bool :=
  contains "tropical_cyclone" s && contains "ECEP" s.

(** [a <= b] on texts. *)
Definition str_le (a b : string) : bool :=
  match String_as_OT.compare a b with
  | Gt => false
  | _ => true
  end.

Fixpoint insert_desc (x : string) (l : list string) : list string :=
  match l with
  | [] => [x]
  | h :: t => if str_le h x then x :: h :: t else h :: insert_desc x t
  end.

(** [series.sort_values(ascending=False)] *)
Fixpoint sort_desc (l : list string) : list string :=
  match l with
  | [] => []
  | x :: l' => insert_desc x (sort_desc l')
  end.

Definition download_error : string := "Error while downloading BUFR TC tracks: ".

(** The loop over the remote files: the first refused [RETR] ends it. *)
Fixpoint retrieve (server : ftp_server) (dir : string) (names : list string)
  : string + list bufr :=
  match names with
  | [] => inr []
  | n :: names' =>
      match ftp_retr server dir n with
      | inl err => inl err
      | inr f =>
          match retrieve server dir names' with
          | inl err => inl err
          | inr fs => inr (f :: fs)
          end
      end
  end.

(** [fetch_bufr_ftp(target_dir, remote_dir)] on an open connection: what
    it returns or raises, and whether [con.quit()] was called.  The files
    are the same with and without [target_dir]. *)
(** [fetch_bufr_ftp(target_dir, remote_dir)] on an open connection.  The
    files are the same with and without [target_dir]. *)
Definition fetch_bufr_ftp (server : ftp_server) (remote_dir : option string)
  : ftp_outcome :=
  let failed (err : string) :=
    mkOutcome (inl (FtpError (download_error ++ err))) true [] in
  let chosen : string + option string :=
    match remote_dir with
    | Some d => inr (Some d)
    | None =>
        match ftp_root server with
        | inl err => inl err
        | inr root =>
            match sort_desc (filter is_run_directory root) with
            | d :: _ => inr (Some d)
            | [] => inr None
            end
        end
    end in
  match chosen with
  | inl err => failed err
  | inr None => mkOutcome (inl FtpIndexError) false []
  | inr (Some d) =>
      match ftp_cwd server d with
      | inl err => failed err
      | inr names =>
          let remotefiles_temp :=
            filter (contains "tropical_cyclone") names in
          let remotefiles := filter (contains "ECEP") remotefiles_temp in
          if (List.length remotefiles =? 0)%nat then
            mkOutcome
              (inl (FtpFileNotFound
                      (download_error ++ "No tracks found at ftp://{}/{}")))
              true []
          else
            let info := [LogRecord INFO "Fetching BUFR tracks:" []] in
            match retrieve server d remotefiles with
            | inl err =>
                mkOutcome (inl (FtpError (download_error ++ err))) true info
            | inr localfiles => mkOutcome (inr localfiles) true info
            end
      end
  end.

(** [d] is the directory that [fetch_bufr_ftp] reads: the one asked for
    or, when none is asked for, a run directory of the root listing that
    no other run directory follows in the order of texts. *)
Definition reads_directory (server : ftp_server) (remote_dir : option string)
    (d : string) : Prop :=
  match remote_dir with
  | Some r => d = r
  | None =>
      exists root,
        ftp_root server = inr root /\ In d root /\
        is_run_directory d = true /\
        forall d', In d' root -> is_run_directory d' = true ->
                   str_le d' d = true
  end.

(** A server with four runs, of which the latest of 00 or 12 UTC holds
    one ensemble forecast, one deterministic forecast and a text. *)
Definition sample_server : ftp_server :=
  mkFtp
    (inr ["20200729120000"; "20200730120000"; "20200730000000";
          "20200730180000"; "incoming"]%string)
    (fun d =>
       if String.eqb d "20200730120000" then
         inr ["A_JSXX01ECEP301200_C_ECMP_20200730120000_tropical_cyclone_track_ISAIAS_bufr4.bin";
              "A_JSXX01ECMF301200_C_ECMP_20200730120000_tropical_cyclone_track_ISAIAS_bufr4.bin";
              "readme.txt"]%string
       else if String.eqb d "20200730180000" then
         inr ["readme.txt"; "A_JSXX01ECEP301800_C_ECMP_20200730180000_wave.bin"]%string
       else if String.eqb d "20200730000000" then
         inr ["A_JSXX01ECEP300000_C_ECMP_20200730000000_tropical_cyclone_track_ISAIAS_bufr4.bin";
              "A_JSXX02ECEP300000_C_ECMP_20200730000000_tropical_cyclone_track_HANNA_bufr4.bin"]%string
       else inl "550 Failed to change directory."%string)
    (fun d n =>
       if String.eqb n "A_JSXX02ECEP300000_C_ECMP_20200730000000_tropical_cyclone_track_HANNA_bufr4.bin"
       then inl "550 Failed to open file."%string
       else inr good_bufr).

(** ** binary64 arithmetic of the track numbers *)

(** [2^e] *)
Definition pow2 (e : Z) : Q :=
  if (0 <=? e)%Z then inject_Z (2 ^ e) else 1 # Z.to_pos (2 ^ (- e)).

(** The nearest integer, the even one of two that are equally near. *)
Definition round_half_even (x : Q) : Z :=
  let f := Qfloor x in
  match Qcompare (x - inject_Z f) (1 # 2) with
  | Lt => f
  | Gt => (f + 1)%Z
  | Eq => if Z.even f then f else (f + 1)%Z
  end.

(** [floor(log2(x))] for [0 < x] *)
Definition ilog2 (x : Q) : Z :=
  if Qle_bool 1 x then Z.log2 (Qfloor x)
  else (- Z.log2_up (Qceiling (/ x)))%Z.

(** The binary64 number nearest to [x], ties to even: 53 significant
    bits, the least exponent that of the subnormal numbers. *)
Definition b64_pos (x : Q) : Q :=
  let e := Z.max (ilog2 x - 52) (-1074) in
  (inject_Z (round_half_even (x / pow2 e)) * pow2 e)%Q.

Definition b64 (x : Q) : Q :=
  Qred match Qcompare x 0 with
       | Eq => 0%Q
       | Gt => b64_pos x
       | Lt => (- b64_pos (- x))%Q
       end.

(** A result that is a finite binary64 number. *)
Definition finite64 (x : Q) : option Q :=
  if Qle_bool (pow2 1024) (Qabs x) then None else Some x.

(** [int(id_no) + index / 100] as Python computes it: the quotient of
    the two integers and the integer [id_no] are rounded to binary64 and
    so is their sum.  [None] when a step leaves the finite numbers
    ([OverflowError], or an infinite sum). *)
Definition id_no_float64 (id_no : Z) (index : nat) : option Q :=
  match finite64 (b64 (inject_Z id_no)),
        finite64 (b64 (inject_Z (Z.of_nat index) / 100)) with
  | Some b, Some q => finite64 (b64 (b + q))
  | _, _ => None
  end.

(** The integer [z] as IEEE 754 binary64, by the specification of the
    Standard Library. *)
Definition ieee_of_Z (z : Z) : spec_float :=
  binary_normalize 53 1024 z 0 false.

Definition Q_of_ieee (f : spec_float) : option Q :=
  match f with
  | S754_zero _ => Some 0%Q
  | S754_finite s m e =>
      Some (Qred ((if s then - inject_Z (Zpos m) else inject_Z (Zpos m))
                  * pow2 e))
  | _ => None
  end.

(** The quotient of two integers that are binary64 numbers, with the
    division of IEEE 754. *)
Definition ieee_quotient (n d : Z) : option Q :=
  Q_of_ieee (SFdiv 53 1024 (ieee_of_Z n) (ieee_of_Z d)).

(** [int(id_no) + index / 100] with the operations of IEEE 754. *)
Definition ieee_id_no (id_no : Z) (index : nat) : option Q :=
  Q_of_ieee (SFadd 53 1024 (ieee_of_Z id_no)
               (SFdiv 53 1024 (ieee_of_Z (Z.of_nat index)) (ieee_of_Z 100))).

Definition same_id (a b : option Q) : bool :=
  match a, b with
  | Some x, Some y => Qeq_bool x y
  | None, None => true
  | _, _ => false
  end.

(** ** Times that nanoseconds can hold *)

(** A time, in minutes since the epoch, that [datetime64[ns]] can hold:
    xarray turns the times of a Dataset into nanoseconds, which a signed
    64-bit count holds from 1677-09-21 to 2262-04-11. *)
Definition datetime64_ns (t : Z) : bool :=
  ((-153722867 <=? t) && (t <=? 153722867))%Z.

(** The sample message with a deterministic first member: the forecast
    types 0 and 4. *)
Definition mixed_bufr : bufr :=
  mkBufr (bufr_datetime good_bufr) (stormIdentifier good_bufr)
    (longStormName good_bufr) (centre good_bufr)
    (timePeriod_size good_bufr) (ensembleMemberNumber good_bufr)
    (Some [0; 4]%Z)
    (timePeriod good_bufr) (meteorologicalAttributeSignificance good_bufr)
    (latitude good_bufr) (longitude good_bufr)
    (pressureReducedToMeanSeaLevel good_bufr) (windSpeedAt10M good_bufr).

(** * Properties *)

(** ** The normalizer [_check_variable] *)

Lemma feq_NaN_l (y : float64) : feq NaN y = false.
Proof. reflexivity. Qed.

Lemma mask_missing_length (var : list float64) :
  List.length (mask_missing var) = List.length var.
Proof. apply length_map. Qed.

(** A masked array holds no missing value any more, so masking it again
    changes nothing. *)
Lemma mask_missing_idem (var : list float64) :
  mask_missing (mask_missing var) = mask_missing var.
Proof.
  unfold mask_missing. rewrite map_map. apply map_ext. intros x.
  destruct (feq x MISSING_DOUBLE) eqn:E.
  - reflexivity.
  - now rewrite E.
Qed.

Lemma check_variable_same_length (var : list float64) (n : nat)
    (varname : string) (w : world) :
  List.length var = n ->
  _check_variable var n varname w = (Ok (mask_missing var), w).
Proof.
  intros H. unfold _check_variable.
  rewrite (proj2 (Nat.eqb_eq _ _) H). reflexivity.
Qed.

(** C5, as the code has it: an array of the expected length comes back
    with every missing value replaced by NaN; a single missing value
    becomes [n_ens] NaNs; a single real value is repeated [n_ens] times
    (with a warning that names the field, unless [n_ens] is 1); any other
    length raises a [ValueError] that has no argument at all, so neither
    the name of the field nor the two lengths, and no array is
    returned. *)
Theorem check_variable_cases (var : list float64) (n : nat)
    (varname : string) (w : world) :
  (List.length var = n ->
     _check_variable var n varname w = (Ok (mask_missing var), w)) /\
  (forall v, var = [v] -> feq v MISSING_DOUBLE = true ->
     _check_variable var n varname w = (Ok (repeat NaN n), w)) /\
  (forall v, var = [v] -> feq v MISSING_DOUBLE = false ->
     fst (_check_variable var n varname w) = Ok (repeat v n) /\
     (n <> 1 ->
      _check_variable var n varname w
      = (Ok (repeat v n),
         mkWorld (data w)
           (logged w ++ [LogRecord WARNING check_variable_warning
                           [VStr varname; VInt (Z.of_nat n)]])
           (files w)))) /\
  (List.length var <> n -> List.length var <> 1 ->
     _check_variable var n varname w = (Raise (ValueError []), w)).
Proof.
  split; [|split; [|split]].
  - apply check_variable_same_length.
  - intros v -> Hv. unfold _check_variable. cbn [List.length nth].
    destruct (1 =? n) eqn:E.
    + apply Nat.eqb_eq in E. subst n. cbn. now rewrite Hv.
    + cbn. now rewrite Hv.
  - intros v -> Hv. split.
    + unfold _check_variable, fne. cbn [List.length nth].
      destruct (1 =? n) eqn:E.
      * apply Nat.eqb_eq in E. subst n. cbn. now rewrite Hv.
      * cbn. now rewrite Hv.
    + intros Hn. unfold _check_variable, fne, bind, logger, ret.
      cbn [List.length nth].
      rewrite (proj2 (Nat.eqb_neq 1 n)) by congruence.
      cbn. now rewrite Hv.
  - intros Hn H1. unfold _check_variable.
    rewrite (proj2 (Nat.eqb_neq _ _) Hn), (proj2 (Nat.eqb_neq _ _) H1).
    reflexivity.
Qed.

Lemma check_variable_cases_witness :
  _check_variable [Fin 5; MISSING_DOUBLE] 2 "Latitude at time 0" w0
    = (Ok [Fin 5; NaN], w0) /\
  _check_variable [MISSING_DOUBLE] 3 "Latitude at time 0" w0
    = (Ok [NaN; NaN; NaN], w0) /\
  (fst (_check_variable [Fin 5] 3 "Latitude at time 0" w0)
     = Ok [Fin 5; Fin 5; Fin 5] /\
   _check_variable [Fin 5] 3 "Latitude at time 0" w0
   = (Ok [Fin 5; Fin 5; Fin 5],
      mkWorld (data w0)
        (logged w0 ++ [LogRecord WARNING check_variable_warning
                         [VStr "Latitude at time 0"; VInt (Z.of_nat 3)]])
        (files w0))) /\
  _check_variable [Fin 5; Fin 6; Fin 7] 2 "Latitude at time 0" w0
    = (Raise (ValueError []), w0).
Proof.
  split; [|split; [|split]].
  - apply (proj1 (check_variable_cases [Fin 5; MISSING_DOUBLE] 2
                    "Latitude at time 0" w0)).
    reflexivity.
  - apply (proj1 (proj2 (check_variable_cases [MISSING_DOUBLE] 3
                           "Latitude at time 0" w0)) MISSING_DOUBLE);
      reflexivity.
  - destruct (proj1 (proj2 (proj2 (check_variable_cases [Fin 5] 3
                                     "Latitude at time 0" w0)))
                 (Fin 5) eq_refl eq_refl) as [H1 H2].
    split; [exact H1 | apply H2; discriminate].
  - apply (proj2 (proj2 (proj2 (check_variable_cases [Fin 5; Fin 6; Fin 7] 2
                                  "Latitude at time 0" w0))));
      cbn; lia.
Defined.

(** C5 as it is written fails: for an array of three values and two
    expected members the error that is raised does not identify the field
    "Latitude at time 0": it has no argument. *)
Lemma check_variable_error_unnamed :
  let r := fst (_check_variable [Fin 5; Fin 6; Fin 7] 2
                  "Latitude at time 0" w0) in
  r = Raise (ValueError []) /\
  ~ (exists args, r = Raise (ValueError args) /\
                  In (VStr "Latitude at time 0") args).
Proof.
  cbv zeta. split.
  - reflexivity.
  - intros [args [H Hin]]. cbn in H. inversion H; subst args.
    destruct Hin.
Qed.

(** C7: on an array of exactly the expected length the normalizer is
    idempotent: it returns the masked array, and applied to that array it
    returns it unchanged (and logs nothing). *)
Theorem check_variable_idempotent (var : list float64) (n : nat)
    (varname : string) (w : world) :
  List.length var = n ->
  exists out,
    _check_variable var n varname w = (Ok out, w) /\
    _check_variable out n varname w = (Ok out, w).
Proof.
  intros H. exists (mask_missing var). split.
  - now apply check_variable_same_length.
  - rewrite check_variable_same_length.
    + now rewrite mask_missing_idem.
    + now rewrite mask_missing_length.
Qed.

Lemma check_variable_idempotent_witness :
  exists out,
    _check_variable [Fin 5; MISSING_DOUBLE; NaN] 3 "Pressure at time 1" w0
      = (Ok out, w0) /\
    _check_variable out 3 "Pressure at time 1" w0 = (Ok out, w0).
Proof.
  apply (check_variable_idempotent [Fin 5; MISSING_DOUBLE; NaN]
           "Pressure at time 1" w0).
  reflexivity.
Defined.

(** ** [get_value_from_bufr_array] *)

Lemma first_non_missing_raises (var rest : list Z) :
  (exists e, first_non_missing var rest = Raise e) <->
  Forall (fun x => x = MISSING_LONG) rest.
Proof.
  induction rest as [|x rest IH]; cbn.
  - split; [constructor | eauto].
  - destruct (Z.eqb_spec x MISSING_LONG) as [->|Hx]; cbn.
    + rewrite IH. split; [now constructor | now inversion 1].
    + split.
      * intros [e He]. discriminate.
      * inversion 1. contradiction.
Qed.

Lemma get_value_raises (var : list Z) :
  (exists e, get_value_from_bufr_array var = Raise e) <->
  List.length var <> 1 /\ Forall (fun x => x = MISSING_LONG) var.
Proof.
  unfold get_value_from_bufr_array.
  destruct (Nat.eqb_spec (List.length var) 1) as [H|H].
  - split.
    + intros [e He]. discriminate.
    + intros [Hn _]. contradiction.
  - rewrite first_non_missing_raises. tauto.
Qed.

(** Case analysis on every [match] of a hypothesis about a monadic run. *)
Ltac run_cases H :=
  repeat match type of H with
         | context [match ?x with _ => _ end] =>
             destruct x eqn:?; try discriminate H
         end.

(** C10, as the code has it: a one-element array whose entry is the
    missing value is returned as that value, without an error; the
    function raises exactly when the length of the array is not 1 and
    there is no entry other than the missing value, which includes the
    empty array.  So a wholly missing one-element lead time is stored as
    the missing value among the lead times of the message, and a wholly
    missing one-element qualifier reaches the comparison with the
    expected code as the missing value, where the message is aborted by
    the qualifier check. *)
Theorem get_value_missing_single (var : list Z) :
  get_value_from_bufr_array [MISSING_LONG] = Ok (VInt MISSING_LONG) /\
  ((exists e, get_value_from_bufr_array var = Raise e) <->
   List.length var <> 1 /\ Forall (fun x => x = MISSING_LONG) var) /\
  (forall file n_ens st t w st' w',
     timePeriod file t = Some [MISSING_LONG] ->
     read_timestep file n_ens st t w = (Ok st', w') ->
     timesteps_int st' = list_set (timesteps_int st) t (VInt MISSING_LONG)) /\
  (forall file n_ens st t w period tvalue,
     timePeriod file t = Some period ->
     get_value_from_bufr_array period = Ok tvalue ->
     meteorologicalAttributeSignificance file (t * 2 + 2)
       = Some [MISSING_LONG] ->
     read_timestep file n_ens st t w
       = (Raise (ValueError [VStr unexpected_significance;
                             VInt MISSING_LONG]), w)).
Proof.
  split; [reflexivity|]. split; [apply get_value_raises|]. split.
  - intros file n_ens st t w st' w' Hp H.
    unfold read_timestep, bind, lift, ret, raise in H.
    rewrite Hp in H. cbn [codes_get_array] in H.
    change (get_value_from_bufr_array [MISSING_LONG])
      with (Ok (A := value) (VInt MISSING_LONG)) in H.
    cbv beta iota in H.
    run_cases H. inversion H; subst. reflexivity.
  - intros file n_ens st t w period tvalue Hp Hv Hs.
    unfold read_timestep, bind, lift, ret, raise.
    rewrite Hp. cbn [codes_get_array]. rewrite Hv, Hs. reflexivity.
Qed.

Lemma get_value_missing_single_witness :
  timesteps_int
    (mkDecoded [VInt 0; VInt MISSING_LONG; VInt 0]
       [Arr1 [VFloat (Fin (-15)); VFloat (Fin (-16))];
        Arr1 [VFloat (Fin (-15)); VFloat (Fin (-33 # 2))]]
       [Arr1 [VFloat (Fin 160); VFloat (Fin 161)];
        Arr1 [VFloat (Fin 160); VFloat (Fin 162)]]
       [Arr1 [VFloat (Fin 99000); VFloat (Fin 98500)];
        Arr1 [VFloat (Fin 99100); VFloat (Fin 98700)]]
       [Arr1 [VFloat (Fin 20); VFloat (Fin 25)];
        Arr1 [VFloat (Fin 19); VFloat (Fin 23)]])
    = list_set (timesteps_int sample_decoded) 1 (VInt MISSING_LONG) /\
  read_timestep missing_sig_bufr 2 sample_decoded 1 w0
    = (Raise (ValueError [VStr unexpected_significance; VInt MISSING_LONG]),
       w0).
Proof.
  split.
  - apply (proj1 (proj2 (proj2 (get_value_missing_single [])))
             missing_period_bufr 2 sample_decoded 1 w0 _ w0);
      reflexivity.
  - apply (proj2 (proj2 (proj2 (get_value_missing_single [])))
             missing_sig_bufr 2 sample_decoded 1 w0 [6]%Z (VInt 6));
      reflexivity.
Defined.

(** C10 as it is written fails twice: the empty array raises although
    its length is not greater than 1, and the message whose first
    qualifier is the single missing value is aborted. *)
Lemma get_value_raises_on_empty :
  (exists e, get_value_from_bufr_array [] = Raise e) /\
  ~ (1 < List.length (@nil Z)) /\
  (exists e, fst (read_one_bufr_tc climada missing_sig_bufr 1 w0) = Raise e).
Proof.
  split; [|split].
  - eexists. reflexivity.
  - cbn. lia.
  - eexists. vm_compute. reflexivity.
Qed.

(** ** The assembler [_subset_to_track] *)

Lemma np_array_ok (l r : list value) :
  np_array l = Ok r -> r = l /\ l = map VInt (ints_of l).
Proof.
  revert r. induction l as [|v l IH]; intros r H; cbn in H.
  - inversion H. split; reflexivity.
  - destruct v; try discriminate H.
    destruct (np_array l) as [r'|] eqn:E; [|discriminate H].
    inversion H; subst r. destruct (IH r' eq_refl) as [-> Hl].
    split; [reflexivity|].
    change (VInt z :: l = VInt z :: map VInt (ints_of l)). now f_equal.
Qed.

Lemma ints_of_map_VInt (l : list Z) : ints_of (map VInt l) = l.
Proof.
  induction l as [|z l IH]; [reflexivity|].
  change (z :: ints_of (map VInt l) = z :: l). now f_equal.
Qed.

Lemma squeeze_Arr1 (a : ndarray) (l : list value) :
  squeeze a = Arr1 l -> a = Arr1 l /\ List.length l <> 1.
Proof.
  destruct a as [v|[|v [|v' l']]]; cbn; intros H; inversion H; subst;
    split; try reflexivity; cbn; lia.
Qed.

Lemma arr_map_Arr1 (f : value -> value) (a : ndarray) (l : list value) :
  arr_map f a = Arr1 l -> exists l0, a = Arr1 l0 /\ l = map f l0.
Proof.
  destruct a as [v|l0]; cbn; intros H; inversion H; subst. now exists l0.
Qed.

(** When the constructor accepts the variables of a track, they are all
    one-dimensional and of one length. *)
Lemma xr_Dataset_track (k1 k2 k3 c1 c2 : string) (a1 a2 a3 t b1 b2 : ndarray)
    (ats : list (string * value)) (ds : Dataset) :
  xr_Dataset [(k1, a1); (k2, a2); (k3, a3)] t [(c1, b1); (c2, b2)] ats
    = Ok ds ->
  exists l1 l2 l3 lt m1 m2,
    a1 = Arr1 l1 /\ a2 = Arr1 l2 /\ a3 = Arr1 l3 /\ t = Arr1 lt /\
    b1 = Arr1 m1 /\ b2 = Arr1 m2 /\
    List.length l1 = List.length lt /\ List.length l2 = List.length lt /\
    List.length l3 = List.length lt /\ List.length m1 = List.length lt /\
    List.length m2 = List.length lt /\
    ds = mkDataset [(k1, l1); (k2, l2); (k3, l3)]
           [("time"%string, lt); (c1, m1); (c2, m2)] ats.
Proof.
  unfold xr_Dataset.
  destruct a1 as [?|l1], a2 as [?|l2], a3 as [?|l3], t as [?|lt],
           b1 as [?|m1], b2 as [?|m2]; cbn; try discriminate.
  destruct (List.length l1 =? List.length lt) eqn:E1; cbn; [|discriminate].
  destruct (List.length l2 =? List.length lt) eqn:E2; cbn; [|discriminate].
  destruct (List.length l3 =? List.length lt) eqn:E3; cbn; [|discriminate].
  destruct (List.length m1 =? List.length lt) eqn:E4; cbn; [|discriminate].
  destruct (List.length m2 =? List.length lt) eqn:E5; cbn; [|discriminate].
  intros H. inversion H. apply Nat.eqb_eq in E1, E2, E3, E4, E5.
  exists l1, l2, l3, lt, m1, m2. repeat split; assumption.
Qed.

(** The rows that [dropna] keeps in a track under construction. *)
Lemma isel_track_mask {A : Type} (wnd pre : list value) (leads : list Z)
    (xs : list A) :
  List.length wnd = List.length leads ->
  List.length pre = List.length leads ->
  isel
    (zip_with andb
       (zip_with andb
          (zip_with andb (repeat true (List.length leads))
             (map (fun v => negb (isnull v)) wnd))
          (map (fun v => negb (isnull v)) (map div100 pre)))
       (map (fun v => negb (isnull v)) (map VInt leads)))
    xs
  = retained wnd pre xs.
Proof.
  revert wnd pre xs.
  induction leads as [|z leads IH]; intros [|w wnd] [|p pre] xs Hw Hp;
    try discriminate; cbn in *.
  - reflexivity.
  - destruct xs as [|x xs]; [reflexivity|].
    injection Hw as Hw. injection Hp as Hp.
    unfold row_defined. rewrite <- (IH wnd pre xs Hw Hp).
    destruct (isnull w), (isnull (div100 p)); reflexivity.
Qed.

Lemma retained_length {A B : Type} (wnd pre : list value) (xs : list A)
    (ys : list B) :
  List.length xs = List.length ys ->
  List.length (retained wnd pre xs) = List.length (retained wnd pre ys).
Proof.
  revert pre xs ys.
  induction wnd as [|w wnd IH]; intros [|p pre] [|x xs] [|y ys] H;
    try discriminate; cbn; try reflexivity.
  injection H as H. destruct (row_defined w p); cbn; auto.
Qed.

Lemma retained_map {A B : Type} (f : A -> B) (wnd pre : list value)
    (xs : list A) :
  retained wnd pre (map f xs) = map f (retained wnd pre xs).
Proof.
  revert pre xs.
  induction wnd as [|w wnd IH]; intros [|p pre] [|x xs]; cbn;
    try reflexivity.
  destruct (row_defined w p); cbn; now rewrite IH.
Qed.

Lemma dropna_track (k1 k2 k3 c1 c2 : string) (wnd pre lat lon : list value)
    (leads : list Z) (times : list value) (ats : list (string * value)) :
  List.length wnd = List.length leads ->
  List.length pre = List.length leads ->
  List.length times = List.length leads ->
  dropna (mkDataset
            [(k1, wnd); (k2, map div100 pre); (k3, map VInt leads)]
            [("time"%string, times); (c1, lat); (c2, lon)] ats)
  = mkDataset
      [(k1, retained wnd pre wnd); (k2, retained wnd pre (map div100 pre));
       (k3, retained wnd pre (map VInt leads))]
      [("time"%string, retained wnd pre times); (c1, retained wnd pre lat);
       (c2, retained wnd pre lon)] ats.
Proof.
  intros Hw Hp Ht. unfold dropna, dropna_mask, sizes_time.
  cbn [data_vars coords attrs lookup String.eqb Ascii.eqb Bool.eqb fold_left
       map fst snd].
  rewrite Ht, !isel_track_mask by assumption. reflexivity.
Qed.

Lemma subset_to_track_some (env : Climada) (msg : message) (index : nat)
    (provider : string) (timestamp_origin : Z) (name : string) (id_no : Z)
    (w w' : world) (tr : Dataset) :
  _subset_to_track env msg index provider timestamp_origin name id_no w
    = (Ok (Some tr), w') ->
  exists lat lon wnd pre leads basin ens_type ens_number,
    nth_error (msg_latitude msg) index = Some (Arr1 lat) /\
    nth_error (msg_longitude msg) index = Some (Arr1 lon) /\
    nth_error (msg_wind_10m msg) index = Some (Arr1 wnd) /\
    nth_error (msg_pressure msg) index = Some (Arr1 pre) /\
    msg_timestamp msg = map VInt leads /\
    List.length lat = List.length leads /\
    List.length lon = List.length leads /\
    List.length wnd = List.length leads /\
    List.length pre = List.length leads /\
    retained wnd pre leads <> [] /\
    tr = assembled env lat lon wnd pre leads basin
           (strip (msg_storm_id msg)) provider name timestamp_origin id_no
           index ens_type ens_number.
Proof.
  unfold _subset_to_track, bind, lift, dict_get, array_get.
  destruct (nth_error (msg_latitude msg) index) as [lat|]; [|discriminate].
  destruct (nth_error (msg_longitude msg) index) as [lon|]; [|discriminate].
  destruct (nth_error (msg_wind_10m msg) index) as [wnd|]; [|discriminate].
  destruct (nth_error (msg_pressure msg) index) as [pre|]; [|discriminate].
  destruct (np_array (msg_timestamp msg)) as [ts|] eqn:Ets; [|discriminate].
  destruct (nth_error (msg_ens_type msg) index) as [ens_type|];
    [|discriminate].
  destruct (nth_error (msg_ens_number msg) index) as [ens_number|];
    [|discriminate].
  destruct (xr_Dataset _ _ _ _) as [track|e] eqn:Ex.
  2:{ destruct e; cbn; discriminate. }
  apply xr_Dataset_track in Ex.
  destruct Ex as (l1 & l2 & l3 & lt & m1 & m2 & E1 & E2 & E3 & Et & -> & ->
                  & H1 & H2 & H3 & H4 & H5 & ->).
  apply np_array_ok in Ets. destruct Ets as [-> Hts].
  set (leads := ints_of (msg_timestamp msg)) in *.
  apply squeeze_Arr1 in E1. destruct E1 as [-> _].
  apply arr_map_Arr1 in E2. destruct E2 as (pl & E2 & ->).
  apply squeeze_Arr1 in E2. destruct E2 as [-> _].
  apply squeeze_Arr1 in E3. destruct E3 as [E3 _]. injection E3 as <-.
  apply arr_map_Arr1 in Et. destruct Et as (l0 & Et & ->).
  apply squeeze_Arr1 in Et. destruct Et as [Et _]. injection Et as <-.
  rewrite Hts in *. rewrite !length_map in *.
  rewrite dropna_track by (rewrite ?length_map; assumption).
  unfold finish_track, sizes_time.
  cbn [coords lookup String.eqb Ascii.eqb Bool.eqb].
  destruct (Nat.eqb_spec
              (List.length
                 (retained l1 pl
                    (map (add_hours timestamp_origin) (map VInt leads)))) 0)
    as [E0|E0]; [discriminate|].
  unfold bind, lift.
  destruct (sid_basin (strip (msg_storm_id msg))) as [basin|]; [|discriminate].
  assert (Hlen : forall B (ys : list B), List.length ys = List.length leads ->
            List.length (retained l1 pl ys)
            = List.length (retained l1 pl leads))
    by (intros B ys Hys; now apply retained_length).
  intros H.
  exists m1, m2, l1, pl, leads, basin, ens_type, ens_number.
  repeat split; try assumption; try reflexivity.
  - intros Hnil. apply E0.
    rewrite Hlen by (now rewrite !length_map). now rewrite Hnil.
  - destruct (String.eqb basin "X"); unfold logger, ret in H;
      injection H as H _; subst tr.
    all: cbv [set_attr set_var drop_var full_like sizes_time lookup set_key
              remove_key data_vars coords attrs String.eqb Ascii.eqb Bool.eqb
              assembled].
    all: rewrite !retained_map, ints_of_map_VInt, !length_map, map_map.
    all: reflexivity.
Qed.

Lemma np_array_ints (leads : list Z) :
  np_array (map VInt leads) = Ok (map VInt leads).
Proof.
  induction leads as [|z leads IH]; [reflexivity|].
  cbn. now rewrite IH.
Qed.

Lemma squeeze_not_single (l : list value) :
  List.length l <> 1 -> squeeze (Arr1 l) = Arr1 l.
Proof.
  destruct l as [|v [|v' l]]; cbn; intros H; try reflexivity.
  now contradiction H.
Qed.

(** The assembler does return a track: for columns of one length other
    than 1 with times that nanoseconds can hold, of which one row at
    least has wind and pressure, and a storm identifier of three
    characters or more. *)
Lemma subset_to_track_assembles (env : Climada) (msg : message) (index : nat)
    (provider : string) (timestamp_origin : Z) (name : string) (id_no : Z)
    (w : world) (lat lon wnd pre : list value) (leads : list Z)
    (basin : string) (ens_type ens_number : Z) :
  nth_error (msg_latitude msg) index = Some (Arr1 lat) ->
  nth_error (msg_longitude msg) index = Some (Arr1 lon) ->
  nth_error (msg_wind_10m msg) index = Some (Arr1 wnd) ->
  nth_error (msg_pressure msg) index = Some (Arr1 pre) ->
  msg_timestamp msg = map VInt leads ->
  nth_error (msg_ens_type msg) index = Some ens_type ->
  nth_error (msg_ens_number msg) index = Some ens_number ->
  List.length lat = List.length leads ->
  List.length lon = List.length leads ->
  List.length wnd = List.length leads ->
  List.length pre = List.length leads ->
  List.length leads <> 1 ->
  forallb (fun z => datetime64_ns (timestamp_origin + 60 * z)) leads = true ->
  retained wnd pre leads <> [] ->
  sid_basin (strip (msg_storm_id msg)) = Ok basin ->
  fst (_subset_to_track env msg index provider timestamp_origin name id_no w)
  = Ok (Some (assembled env lat lon wnd pre leads basin
                (strip (msg_storm_id msg)) provider name timestamp_origin
                id_no index ens_type ens_number)).
Proof.
  intros Hlat Hlon Hwnd Hpre Hts Hety Heno L1 L2 L3 L4 Hn Hns Hkept Hbasin.
  unfold _subset_to_track, bind, lift, dict_get, array_get.
  rewrite Hlat, Hlon, Hwnd, Hpre, Hts, np_array_ints, Hety, Heno.
  rewrite !squeeze_not_single by (rewrite ?length_map; congruence).
  unfold xr_Dataset.
  cbn [as_time_variables as_time_variable arr_map app forallb snd].
  rewrite !length_map, L1, L2, L3, L4, Nat.eqb_refl.
  cbn [andb].
  rewrite dropna_track by (rewrite ?length_map; congruence).
  unfold finish_track, sizes_time.
  cbn [coords lookup String.eqb Ascii.eqb Bool.eqb].
  destruct (Nat.eqb_spec
              (List.length
                 (retained wnd pre
                    (map (add_hours timestamp_origin) (map VInt leads)))) 0)
    as [E0|E0].
  { exfalso. apply Hkept.
    rewrite (retained_length wnd pre _ leads) in E0
      by (now rewrite !length_map).
    now destruct (retained wnd pre leads). }
  unfold bind, lift. rewrite Hbasin.
  destruct (String.eqb basin "X"); unfold logger, ret; cbn [fst].
  all: cbv [set_attr set_var drop_var full_like sizes_time lookup set_key
            remove_key data_vars coords attrs String.eqb Ascii.eqb Bool.eqb
            assembled set_coords fold_left].
  all: rewrite !retained_map, ints_of_map_VInt, !length_map, map_map.
  all: reflexivity.
Qed.

(** What the code does about missing rows: the track has the rows in
    which wind and pressure are defined, whatever latitude and longitude
    are. *)
Lemma subset_to_track_rows (env : Climada) (msg : message) (index : nat)
    (provider : string) (timestamp_origin : Z) (name : string) (id_no : Z)
    (w w' : world) (tr : Dataset) :
  _subset_to_track env msg index provider timestamp_origin name id_no w
    = (Ok (Some tr), w') ->
  exists lat lon wnd pre,
    nth_error (msg_latitude msg) index = Some (Arr1 lat) /\
    nth_error (msg_longitude msg) index = Some (Arr1 lon) /\
    nth_error (msg_wind_10m msg) index = Some (Arr1 wnd) /\
    nth_error (msg_pressure msg) index = Some (Arr1 pre) /\
    sizes_time tr = List.length (retained wnd pre wnd) /\
    lookup "lat" (coords tr) = Some (retained wnd pre lat) /\
    lookup "lon" (coords tr) = Some (retained wnd pre lon).
Proof.
  intros H. apply subset_to_track_some in H.
  destruct H as (lat & lon & wnd & pre & leads & basin & ety & eno
                 & Hlat & Hlon & Hwnd & Hpre & _ & _ & _ & L3 & _ & _ & ->).
  exists lat, lon, wnd, pre. repeat split; try assumption.
  unfold sizes_time, assembled.
  cbn [coords lookup String.eqb Ascii.eqb Bool.eqb].
  rewrite length_map. now apply retained_length.
Qed.

(** C2 fails on the code: in the bundle [nolat_message] the first of two
    rows has no latitude, so one row only has all four fields, but the
    track keeps both rows and its first latitude is NaN.  Latitude and
    longitude are declared as coordinates, and [dropna] looks at the data
    variables only. *)
Theorem nan_latitude_row_is_kept :
  exists tr,
    fst (_subset_to_track climada nolat_message 0 "ECMWF" 0 "SEVEN" 1 w0)
      = Ok (Some tr) /\
    sizes_time tr = 2 /\
    lookup "lat" (coords tr) = Some [VFloat NaN; VFloat (Fin 11)] /\
    fully_defined
      [VFloat NaN; VFloat (Fin 11)] [VFloat (Fin 50); VFloat (Fin 51)]
      [VFloat (Fin 20); VFloat (Fin 21)]
      [VFloat (Fin 99000); VFloat (Fin 98000)] = 1.
Proof.
  eexists. split; [vm_compute; reflexivity|].
  split; [|split]; reflexivity.
Qed.

(** ** The time steps *)

Lemma diff_shift_diffs (l : list Z) : diff_shift l = diffs 0 l.
Proof.
  unfold diff_shift, shift1. destruct l as [|a l]; [reflexivity|].
  generalize 0%Z as prev. revert a.
  induction l as [|b l IH]; intros a prev; [reflexivity|].
  change (removelast (a :: b :: l)) with (a :: removelast (b :: l)).
  cbn [zip_with diffs]. f_equal. apply IH.
Qed.

Lemma diffs_length (prev : Z) (l : list Z) :
  List.length (diffs prev l) = List.length l.
Proof.
  revert prev. induction l as [|a l IH]; intros prev; cbn; [|rewrite IH];
    reflexivity.
Qed.

Lemma diffs_nth_S (prev : Z) (l : list Z) (k : nat) :
  S k < List.length l ->
  nth (S k) (diffs prev l) 0%Z = (nth (S k) l 0 - nth k l 0)%Z.
Proof.
  revert prev k. induction l as [|a l IH]; intros prev k H; cbn in H;
    [lia|].
  destruct l as [|b l]; cbn in H; [lia|].
  destruct k as [|k]; [reflexivity|].
  change (nth (S k) (diffs a (b :: l)) 0%Z
          = (nth (S k) (b :: l) 0 - nth k (b :: l) 0)%Z).
  apply IH. cbn. lia.
Qed.

(** C3, as the code has it: the time steps of an assembled track are
    computed on the retained rows: at every retained step but the first,
    the difference between its lead time and the lead time of the
    retained step before; at the first retained step, its own lead time
    (the difference from 0), which is zero when that lead time is zero,
    as it is when the analysis step is retained. *)
Theorem time_step_of_retained (env : Climada) (msg : message) (index : nat)
    (provider : string) (timestamp_origin : Z) (name : string) (id_no : Z)
    (w w' : world) (tr : Dataset) :
  _subset_to_track env msg index provider timestamp_origin name id_no w
    = (Ok (Some tr), w') ->
  exists wnd pre leads steps,
    nth_error (msg_wind_10m msg) index = Some (Arr1 wnd) /\
    nth_error (msg_pressure msg) index = Some (Arr1 pre) /\
    msg_timestamp msg = map VInt leads /\
    lookup "time_step" (data_vars tr) = Some (map VInt steps) /\
    List.length steps = List.length (retained wnd pre leads) /\
    List.length steps = sizes_time tr /\
    nth 0 steps 0%Z = nth 0 (retained wnd pre leads) 0%Z /\
    (forall k, S k < List.length steps ->
       nth (S k) steps 0%Z
       = (nth (S k) (retained wnd pre leads) 0
          - nth k (retained wnd pre leads) 0)%Z).
Proof.
  intros H. apply subset_to_track_some in H.
  destruct H as (lat & lon & wnd & pre & leads & basin & ety & eno
                 & _ & _ & Hwnd & Hpre & Hts & _ & _ & _ & _ & Hne & ->).
  exists wnd, pre, leads, (diffs 0 (retained wnd pre leads)).
  rewrite diffs_length.
  split; [assumption|]. split; [assumption|]. split; [assumption|].
  split; [|split; [reflexivity|split; [|split]]].
  - unfold assembled.
    cbn [data_vars lookup String.eqb Ascii.eqb Bool.eqb].
    now rewrite diff_shift_diffs.
  - unfold sizes_time, assembled.
    cbn [coords lookup String.eqb Ascii.eqb Bool.eqb].
    now rewrite length_map.
  - destruct (retained wnd pre leads) as [|a l]; [contradiction|].
    cbn. lia.
  - intros k Hk. now apply diffs_nth_S.
Qed.

Lemma time_step_of_retained_witness :
  exists wnd pre leads steps,
    nth_error (msg_wind_10m gap_message) 0 = Some (Arr1 wnd) /\
    nth_error (msg_pressure gap_message) 0 = Some (Arr1 pre) /\
    msg_timestamp gap_message = map VInt leads /\
    lookup "time_step"
      (data_vars
         (assembled climada
            [VFloat (Fin 10); VFloat (Fin 11); VFloat (Fin 12)]
            [VFloat (Fin 50); VFloat (Fin 51); VFloat (Fin 52)]
            [VFloat NaN; VFloat (Fin 21); VFloat (Fin 22)]
            [VFloat (Fin 99000); VFloat (Fin 98000); VFloat (Fin 97000)]
            [0; 6; 18]%Z "P" "07P" "ECMWF" "SEVEN" 0 1 0 4 1))
      = Some (map VInt steps) /\
    List.length steps = List.length (retained wnd pre leads) /\
    List.length steps = 2 /\
    nth 0 steps 0%Z = nth 0 (retained wnd pre leads) 0%Z /\
    (forall k, S k < List.length steps ->
       nth (S k) steps 0%Z
       = (nth (S k) (retained wnd pre leads) 0
          - nth k (retained wnd pre leads) 0)%Z).
Proof.
  apply (time_step_of_retained climada gap_message 0 "ECMWF" 0 "SEVEN" 1
           w0 (w' := w0)).
  vm_compute. reflexivity.
Defined.

(** C3 as it is written fails: in the bundle [gap_message] the analysis
    row has no wind and is dropped; the first retained step has the lead
    time 6 h and its time step is 6, not zero. *)
Lemma first_time_step_not_zero :
  exists tr,
    fst (_subset_to_track climada gap_message 0 "ECMWF" 0 "SEVEN" 1 w0)
      = Ok (Some tr) /\
    lookup "time_step" (data_vars tr) = Some [VInt 6; VInt 12] /\
    VInt 6 <> VInt 0.
Proof.
  eexists. split; [vm_compute; reflexivity|].
  split; [reflexivity | discriminate].
Qed.

(** ** The numeric id of a member *)

Lemma member_id_floor (id_no : Z) (index : nat) :
  index < 100 -> Qfloor (member_id id_no index) = id_no.
Proof.
  intros H. unfold member_id, Qfloor, Qplus, inject_Z. cbn.
  rewrite Z.mul_1_r. rewrite Z.div_add_l by lia.
  rewrite Z.div_small by lia. lia.
Qed.

Lemma member_id_frac (id_no : Z) (index : nat) :
  index < 100 -> (frac (member_id id_no index) == Z.of_nat index # 100)%Q.
Proof.
  intros H. unfold frac. rewrite member_id_floor by assumption.
  unfold member_id. ring.
Qed.

Lemma member_id_injective (id_no : Z) (i j : nat) :
  (member_id id_no i == member_id id_no j)%Q -> i = j.
Proof.
  unfold member_id, Qeq, Qplus, inject_Z. cbn. lia.
Qed.

(** *** binary64 *)























(** The rounding written out here is the one of IEEE 754 in the Standard
    Library: on the quotients of the integers up to 63 and of integers
    near the ends of the range, down to the subnormal numbers. *)
Remark b64_is_ieee :
  forallb (fun n =>
             forallb (fun d =>
                        same_id (finite64 (b64 (inject_Z n / inject_Z d)))
                          (ieee_quotient n d))
               (map Z.of_nat (seq 1 63)
                ++ [2 ^ 52 + 1; 2 ^ 53 - 1; 10 ^ 15 + 7; 3 ^ 33; 2 ^ 1000;
                    2 ^ 1023]%Z))
    (map Z.of_nat (seq 0 64)
     ++ [-7; -1; 2 ^ 52 + 1; 2 ^ 53 - 1; 10 ^ 15 + 7; 3 ^ 33; 2 ^ 1000;
         2 ^ 1023]%Z)
  = true.
Proof. vm_compute. reflexivity. Qed.

(** The ids computed here are what the operations of IEEE 754 in the
    Standard Library give, at base ids on both sides of the bounds met
    above and for the member indices up to 100. *)
Remark id_no_float64_is_ieee :
  forallb (fun B =>
             forallb (fun i => same_id (id_no_float64 B i) (ieee_id_no B i))
               (seq 0 101))
    [0; 1; 2024010100; 20240318121234; 70000000000000; 70368744177664;
     9007199254740993; 10000000000000000; -2024010100;
     2 ^ 1024 - 2 ^ 970 - 1; 2 ^ 1024 - 2 ^ 970]%Z
  = true.
Proof. vm_compute. reflexivity. Qed.

(** ** Runs over several messages *)

Lemma keeps_data_ret {A : Type} (a : A) : keeps_data (ret a).
Proof. intros w. reflexivity. Qed.

Lemma keeps_data_raise {A : Type} (e : exn) : keeps_data (raise (A := A) e).
Proof. intros w. reflexivity. Qed.

Lemma keeps_data_lift {A : Type} (r : result A) : keeps_data (lift r).
Proof. intros w. reflexivity. Qed.

Lemma keeps_data_logger (l : level) (f : string) (args : list value) :
  keeps_data (logger l f args).
Proof. intros w. reflexivity. Qed.

Lemma keeps_data_bind {A B : Type} (c : M A) (k : A -> M B) :
  keeps_data c -> (forall a, keeps_data (k a)) -> keeps_data (bind c k).
Proof.
  intros Hc Hk w. unfold bind. specialize (Hc w).
  destruct (c w) as [[a|e] w1]; cbn in *.
  - now rewrite Hk.
  - assumption.
Qed.

Lemma keeps_data_for_each {A S : Type} (body : S -> A -> M S) (xs : list A) :
  (forall s x, keeps_data (body s x)) ->
  forall s, keeps_data (for_each body s xs).
Proof.
  intros Hb. induction xs as [|x xs IH]; intros s; cbn.
  - apply keeps_data_ret.
  - apply keeps_data_bind; [apply Hb | assumption].
Qed.

Ltac keeps :=
  repeat first
    [ apply keeps_data_bind; [|intros ?]
    | apply keeps_data_ret | apply keeps_data_raise | apply keeps_data_lift
    | apply keeps_data_logger
    | match goal with
      | |- keeps_data (if ?b then _ else _) => destruct b
      | |- keeps_data (match ?x with _ => _ end) => destruct x
      | |- keeps_data (let '(_, _) := ?x in _) => destruct x
      end ].

Lemma keeps_data_check_variable (var : list float64) (n : nat)
    (varname : string) : keeps_data (_check_variable var n varname).
Proof. unfold _check_variable. keeps. Qed.

Lemma keeps_data_read_timestep (file : bufr) (n_ens : nat) (st : decoded)
    (t : nat) : keeps_data (read_timestep file n_ens st t).
Proof.
  unfold read_timestep.
  repeat first [ apply keeps_data_check_variable | progress keeps ].
Qed.

Lemma keeps_data_read_message (file : bufr) (size : nat) :
  keeps_data (read_message file size).
Proof.
  unfold read_message.
  repeat first
    [ apply keeps_data_check_variable
    | apply keeps_data_for_each; intros; apply keeps_data_read_timestep
    | progress keeps ].
Qed.

Lemma np_array_raises (l : list value) (e : exn) :
  np_array l = Raise e -> ~ qualifier_error e.
Proof.
  induction l as [|v l IH]; cbn; [discriminate|].
  destruct v; try (intros H Hq; destruct Hq as [code Hc]; inversion H; subst; discriminate).
  destruct (np_array l); cbn; [discriminate|].
  intros H. inversion H; subst. now apply IH.
Qed.

Lemma as_time_variables_raises (vars : list (string * ndarray)) (e : exn) :
  as_time_variables vars = Raise e -> exists args, e = ValueError args.
Proof.
  induction vars as [|[k a] vars IH]; cbn; [discriminate|].
  destruct a as [v|l]; cbn.
  - intros H. inversion H. eauto.
  - destruct (as_time_variables vars); cbn; [discriminate|].
    intros H. inversion H; subst. now apply IH.
Qed.

Lemma xr_Dataset_raises (dvars : list (string * ndarray)) (time : ndarray)
    (cvars : list (string * ndarray)) (ats : list (string * value))
    (e : exn) :
  xr_Dataset dvars time cvars ats = Raise e -> exists args, e = ValueError args.
Proof.
  unfold xr_Dataset.
  destruct (as_time_variables dvars) eqn:E1.
  - destruct time as [v|lt]; cbn.
    + intros H. inversion H. eauto.
    + destruct (as_time_variables cvars) eqn:E3.
      * destruct (forallb _ _); [discriminate|].
        intros H. inversion H. eauto.
      * intros H. inversion H; subst. now apply as_time_variables_raises in E3.
  - intros H. inversion H; subst. now apply as_time_variables_raises in E1.
Qed.

(** The assembler does not raise the error of the qualifier check. *)
Lemma subset_to_track_raises (env : Climada) (msg : message) (index : nat)
    (provider : string) (timestamp_origin : Z) (name : string) (id_no : Z)
    (w w' : world) (e : exn) :
  _subset_to_track env msg index provider timestamp_origin name id_no w
    = (Raise e, w') ->
  ~ qualifier_error e.
Proof.
  unfold _subset_to_track, bind, lift, dict_get, array_get.
  destruct (nth_error (msg_latitude msg) index);
    [|intros H Hq; destruct Hq as [c Hc]; inversion H; subst; discriminate].
  destruct (nth_error (msg_longitude msg) index);
    [|intros H Hq; destruct Hq as [c Hc]; inversion H; subst; discriminate].
  destruct (nth_error (msg_wind_10m msg) index);
    [|intros H Hq; destruct Hq as [c Hc]; inversion H; subst; discriminate].
  destruct (nth_error (msg_pressure msg) index);
    [|intros H Hq; destruct Hq as [c Hc]; inversion H; subst; discriminate].
  destruct (np_array (msg_timestamp msg)) eqn:Ets;
    [|intros H; inversion H; subst; now apply np_array_raises in Ets].
  destruct (nth_error (msg_ens_type msg) index);
    [|intros H Hq; destruct Hq as [c Hc]; inversion H; subst; discriminate].
  destruct (nth_error (msg_ens_number msg) index);
    [|intros H Hq; destruct Hq as [c Hc]; inversion H; subst; discriminate].
  destruct (xr_Dataset _ _ _ _) as [track|e0] eqn:Ex.
  - unfold finish_track, bind, lift, sid_basin, logger, ret.
    destruct (sizes_time (dropna track) =? 0); [discriminate|].
    destruct (String.get 2 (strip (msg_storm_id msg)));
      [|intros H Hq; destruct Hq as [c Hc]; inversion H; subst; discriminate].
    destruct (String.eqb _ "X"); discriminate.
  - apply xr_Dataset_raises in Ex. destruct Ex as [args ->].
    unfold logger, ret. discriminate.
Qed.

Lemma append_loop_raises (env : Climada) (msg : message) (provider : string)
    (timestamp_origin id_no : Z) (xs : list nat) (w w' : world) (e : exn) :
  for_each (append_subset env msg provider timestamp_origin id_no) tt xs w
    = (Raise e, w') ->
  ~ qualifier_error e.
Proof.
  revert w. induction xs as [|x xs IH]; intros w; cbn; [discriminate|].
  unfold bind at 1. unfold append_subset at 1. unfold bind at 1.
  destruct (_subset_to_track _ _ _ _ _ _ _ w) as [[track|e0] w1] eqn:E.
  - destruct track as [tr|]; unfold append, logger; apply IH.
  - intros H. inversion H; subst. now apply subset_to_track_raises in E.
Qed.

(** A message that is left with the error of the qualifier check has
    added no track. *)
Lemma qualifier_error_adds_nothing (env : Climada) (file : bufr) (id_no : Z)
    (w w' : world) (e : exn) :
  read_one_bufr_tc env file id_no w = (Raise e, w') ->
  qualifier_error e ->
  data w' = data w.
Proof.
  unfold read_one_bufr_tc.
  destruct (timePeriod_size file) as [size|]; [|discriminate].
  unfold bind. pose proof (keeps_data_read_message file size w) as Hk.
  destruct (read_message file size w) as [[msg|e0] w1]; cbn in Hk.
  - intros H Hq. now apply append_loop_raises in H.
  - intros H _. now inversion H; subst.
Qed.

Lemma fetch_files_app (env : Climada) (pre rest : list bufr) (i : Z)
    (w w1 : world) :
  fetch_files env i pre w = (Ok tt, w1) ->
  fetch_files env i (pre ++ rest) w
  = fetch_files env (i + Z.of_nat (List.length pre)) rest w1.
Proof.
  revert i w. induction pre as [|file pre IH]; intros i w H.
  - cbn in H. inversion H; subst. cbn. now rewrite Z.add_0_r.
  - cbn [fetch_files app] in *. unfold bind in *.
    destruct (read_one_bufr_tc env file i w) as [[[]|e] w2];
      [|discriminate].
    rewrite (IH _ _ H). f_equal. cbn [List.length]. lia.
Qed.

Lemma for_each_app {A S : Type} (body : S -> A -> M S) (s : S)
    (xs ys : list A) (w : world) :
  for_each body s (xs ++ ys) w
  = bind (for_each body s xs) (fun s' => for_each body s' ys) w.
Proof.
  revert s w. induction xs as [|x xs IH]; intros s w; [reflexivity|].
  cbn [for_each app]. unfold bind.
  destruct (body s x w) as [[s1|e] w1]; [|reflexivity].
  rewrite IH. reflexivity.
Qed.

(** What a time step raises and logs does not depend on what the steps
    before it have stored. *)
Lemma read_timestep_any_state (file : bufr) (n_ens : nat) (st st' : decoded)
    (t : nat) (w : world) :
  match read_timestep file n_ens st t w, read_timestep file n_ens st' t w with
  | (Ok _, w1), (Ok _, w2) => w1 = w2
  | (Raise e1, w1), (Raise e2, w2) => e1 = e2 /\ w1 = w2
  | _, _ => False
  end.
Proof.
  unfold read_timestep, bind, lift, ret, raise.
  repeat match goal with
         | |- context [match ?x with _ => _ end] =>
             match x with
             | context [st] => fail 1
             | context [st'] => fail 1
             | _ => destruct x
             end
         end; auto.
Qed.

Lemma read_timesteps_any_state (file : bufr) (n_ens : nat) (l : list nat)
    (st st' s1 : decoded) (w w1 : world) :
  for_each (read_timestep file n_ens) st l w = (Ok s1, w1) ->
  exists s2, for_each (read_timestep file n_ens) st' l w = (Ok s2, w1).
Proof.
  revert st st' w. induction l as [|t l IH]; intros st st' w H.
  - cbn in *. inversion H; subst. now exists st'.
  - cbn [for_each] in *. unfold bind in *.
    pose proof (read_timestep_any_state file n_ens st st' t w) as Hs.
    destruct (read_timestep file n_ens st t w) as [[a|e] wa];
      [|discriminate].
    destruct (read_timestep file n_ens st' t w) as [[a'|e'] wa'];
      [|contradiction].
    subst wa'. now apply IH with (st := a).
Qed.

(** When the time steps before [t] of a message decode and the time step
    [t] raises, decoding the message raises that error. *)
Lemma step_error_ends_message (file : bufr) (size t : nat) (w w1 : world)
    (msg : message) (e : exn) :
  1 <= t <= size ->
  read_message file (t - 1) w = (Ok msg, w1) ->
  (forall st, read_timestep file (List.length (msg_ens_number msg)) st t w1
              = (Raise e, w1)) ->
  read_message file size w = (Raise e, w1).
Proof.
  intros Ht H Hstep. unfold read_message, bind, lift in H |- *.
  destruct (codes_get_array (ensembleMemberNumber file)) as [ens_no|];
    [|discriminate].
  destruct (codes_get_array (ensembleForecastType file)) as [ens_type|];
    [|discriminate].
  destruct (codes_get_array (latitude file 2)) as [la|]; [|discriminate].
  destruct (codes_get_array (longitude file 2)) as [lo|]; [|discriminate].
  destruct (codes_get_array (pressureReducedToMeanSeaLevel file 1)) as [pr|];
    [|discriminate].
  destruct (codes_get_array (windSpeedAt10M file 1)) as [wn|];
    [|discriminate].
  destruct (_check_variable la _ _ w) as [[la'|] wa]; [|discriminate].
  destruct (_check_variable lo _ _ wa) as [[lo'|] wb]; [|discriminate].
  destruct (_check_variable pr _ _ wb) as [[pr'|] wc]; [|discriminate].
  destruct (_check_variable wn _ _ wc) as [[wn'|] wd]; [|discriminate].
  replace (size + 1 - 1) with ((t - 1) + S (size - t)) by lia.
  replace (t - 1 + 1 - 1) with (t - 1) in H by lia.
  rewrite seq_app, for_each_app. unfold bind.
  destruct (for_each _ _ (seq 1 (t - 1)) wd) as [[s1|e1] we] eqn:E;
    [|discriminate].
  unfold ret in H. inversion H; subst msg w1. clear H. cbn [msg_ens_number] in Hstep.
  eapply read_timesteps_any_state in E. destruct E as [s2 E].
  rewrite E. cbn [seq for_each]. unfold bind.
  replace (1 + (t - 1)) with t by lia.
  now rewrite Hstep.
Qed.

Lemma message_error_ends_run (env : Climada) (pre post : list bufr)
    (file : bufr) (w w1 w2 : world) (msg : message) (size t : nat) (e : exn) :
  fetch_files env 1 pre w = (Ok tt, w1) ->
  timePeriod_size file = Some size ->
  1 <= t <= size ->
  read_message file (t - 1) w1 = (Ok msg, w2) ->
  (forall st, read_timestep file (List.length (msg_ens_number msg)) st t w2
              = (Raise e, w2)) ->
  read_one_bufr_tc env file (1 + Z.of_nat (List.length pre)) w1
  = (Raise e, w2) /\
  data w2 = data w1 /\
  fetch_ecmwf env (pre ++ file :: post) w = (Raise e, w2).
Proof.
  intros Hpre Hsize Ht Hmsg Hstep.
  assert (Hone : read_one_bufr_tc env file
                   (1 + Z.of_nat (List.length pre)) w1 = (Raise e, w2)).
  { unfold read_one_bufr_tc. rewrite Hsize. unfold bind.
    now rewrite (@step_error_ends_message file size t w1 w2 msg e Ht Hmsg Hstep). }
  split; [exact Hone|]. split.
  - pose proof (keeps_data_read_message file (t - 1) w1) as Hk.
    now rewrite Hmsg in Hk.
  - unfold fetch_ecmwf.
    rewrite fetch_files_app with (w1 := w1) by exact Hpre.
    cbn [fetch_files]. unfold bind. now rewrite Hone.
Qed.

(** C1, as the code has it: a qualifier other than 1 for the storm
    centre, or other than 3 for the maximum wind, raises a [ValueError]
    at that time step.  When the time steps before it decode, reading the
    message raises that error and adds no track; nothing catches it, so
    it leaves the loop over the files: the tracks of the messages read
    before stay in the instance, the error reaches the caller of
    [fetch_ecmwf], and the messages after it are not read. *)
Theorem unexpected_qualifier_ends_run (env : Climada) :
  (forall file n_ens st t w period tvalue c,
     timePeriod file t = Some period ->
     get_value_from_bufr_array period = Ok tvalue ->
     meteorologicalAttributeSignificance file (t * 2 + 2) = Some [c] ->
     c <> 1%Z ->
     read_timestep file n_ens st t w
     = (Raise (ValueError [VStr unexpected_significance; VInt c]), w)) /\
  (forall file n_ens st t w period tvalue lat lon pre c,
     timePeriod file t = Some period ->
     get_value_from_bufr_array period = Ok tvalue ->
     meteorologicalAttributeSignificance file (t * 2 + 2) = Some [1%Z] ->
     latitude file (t * 2 + 2) = Some lat ->
     longitude file (t * 2 + 2) = Some lon ->
     pressureReducedToMeanSeaLevel file (t + 1) = Some pre ->
     meteorologicalAttributeSignificance file (t * 2 + 3) = Some [c] ->
     c <> 3%Z ->
     read_timestep file n_ens st t w
     = (Raise (ValueError [VStr unexpected_significance; VInt 1]), w)) /\
  (forall pre file post w w1 w2 msg size t period tvalue c,
     fetch_files env 1 pre w = (Ok tt, w1) ->
     timePeriod_size file = Some size ->
     1 <= t <= size ->
     read_message file (t - 1) w1 = (Ok msg, w2) ->
     timePeriod file t = Some period ->
     get_value_from_bufr_array period = Ok tvalue ->
     meteorologicalAttributeSignificance file (t * 2 + 2) = Some [c] ->
     c <> 1%Z ->
     read_one_bufr_tc env file (1 + Z.of_nat (List.length pre)) w1
     = (Raise (ValueError [VStr unexpected_significance; VInt c]), w2) /\
     data w2 = data w1 /\
     fetch_ecmwf env (pre ++ file :: post) w
     = (Raise (ValueError [VStr unexpected_significance; VInt c]), w2)) /\
  (forall pre file post w w1 w2 msg size t period tvalue lat lon pres c,
     fetch_files env 1 pre w = (Ok tt, w1) ->
     timePeriod_size file = Some size ->
     1 <= t <= size ->
     read_message file (t - 1) w1 = (Ok msg, w2) ->
     timePeriod file t = Some period ->
     get_value_from_bufr_array period = Ok tvalue ->
     meteorologicalAttributeSignificance file (t * 2 + 2) = Some [1%Z] ->
     latitude file (t * 2 + 2) = Some lat ->
     longitude file (t * 2 + 2) = Some lon ->
     pressureReducedToMeanSeaLevel file (t + 1) = Some pres ->
     meteorologicalAttributeSignificance file (t * 2 + 3) = Some [c] ->
     c <> 3%Z ->
     read_one_bufr_tc env file (1 + Z.of_nat (List.length pre)) w1
     = (Raise (ValueError [VStr unexpected_significance; VInt 1]), w2) /\
     data w2 = data w1 /\
     fetch_ecmwf env (pre ++ file :: post) w
     = (Raise (ValueError [VStr unexpected_significance; VInt 1]), w2)).
Proof.
  assert (Hcentre : forall file n_ens st t w period tvalue c,
     timePeriod file t = Some period ->
     get_value_from_bufr_array period = Ok tvalue ->
     meteorologicalAttributeSignificance file (t * 2 + 2) = Some [c] ->
     c <> 1%Z ->
     read_timestep file n_ens st t w
     = (Raise (ValueError [VStr unexpected_significance; VInt c]), w)).
  { intros file n_ens st t w period tvalue c Hp Hv Hs Hc.
    unfold read_timestep, bind, lift. rewrite Hp. cbn [codes_get_array].
    rewrite Hv, Hs. cbn.
    now rewrite (proj2 (Z.eqb_neq c 1) Hc). }
  assert (Hwind : forall file n_ens st t w period tvalue lat lon pre c,
     timePeriod file t = Some period ->
     get_value_from_bufr_array period = Ok tvalue ->
     meteorologicalAttributeSignificance file (t * 2 + 2) = Some [1%Z] ->
     latitude file (t * 2 + 2) = Some lat ->
     longitude file (t * 2 + 2) = Some lon ->
     pressureReducedToMeanSeaLevel file (t + 1) = Some pre ->
     meteorologicalAttributeSignificance file (t * 2 + 3) = Some [c] ->
     c <> 3%Z ->
     read_timestep file n_ens st t w
     = (Raise (ValueError [VStr unexpected_significance; VInt 1]), w)).
  { intros file n_ens st t w period tvalue lat lon pre c
      Hp Hv Hs Hlat Hlon Hpre Hs3 Hc.
    unfold read_timestep, bind, lift. rewrite Hp. cbn [codes_get_array].
    rewrite Hv, Hs. cbn. rewrite Hlat, Hlon, Hpre, Hs3. cbn.
    now rewrite (proj2 (Z.eqb_neq c 3) Hc). }
  split; [exact Hcentre|]. split; [exact Hwind|]. split.
  - intros pre file post w w1 w2 msg size t period tvalue c
      Hpre Hsize Ht Hmsg Hp Hv Hs Hc.
    apply message_error_ends_run with (msg := msg) (size := size) (t := t);
      try assumption.
    intros st. now apply Hcentre with (period := period) (tvalue := tvalue).
  - intros pre file post w w1 w2 msg size t period tvalue lat lon pres c
      Hpre Hsize Ht Hmsg Hp Hv Hs Hlat Hlon Hpres Hs3 Hc.
    apply message_error_ends_run with (msg := msg) (size := size) (t := t);
      try assumption.
    intros st.
    now apply Hwind with (period := period) (tvalue := tvalue) (lat := lat)
                         (lon := lon) (pre := pres) (c := c).
Qed.

Lemma unexpected_qualifier_ends_run_witness :
  read_timestep bad_bufr 2 sample_decoded 1 w0
    = (Raise (ValueError [VStr unexpected_significance; VInt 4]), w0) /\
  read_timestep (sample_bufr [6]%Z [1]%Z [2]%Z (Some 2)) 2 sample_decoded 1 w0
    = (Raise (ValueError [VStr unexpected_significance; VInt 1]), w0) /\
  (let w1 := snd (fetch_files climada 1 [good_bufr] w0) in
   let w2 := snd (read_message bad_bufr (1 - 1) w1) in
   read_one_bufr_tc climada bad_bufr (1 + Z.of_nat (List.length [good_bufr])) w1
   = (Raise (ValueError [VStr unexpected_significance; VInt 4]), w2) /\
   data w2 = data w1 /\
   fetch_ecmwf climada ([good_bufr] ++ bad_bufr :: [good_bufr]) w0
   = (Raise (ValueError [VStr unexpected_significance; VInt 4]), w2)) /\
  (let file := sample_bufr [6]%Z [1]%Z [2]%Z (Some 2) in
   let w1 := snd (fetch_files climada 1 [good_bufr] w0) in
   let w2 := snd (read_message file (1 - 1) w1) in
   read_one_bufr_tc climada file (1 + Z.of_nat (List.length [good_bufr])) w1
   = (Raise (ValueError [VStr unexpected_significance; VInt 1]), w2) /\
   data w2 = data w1 /\
   fetch_ecmwf climada ([good_bufr] ++ file :: [good_bufr]) w0
   = (Raise (ValueError [VStr unexpected_significance; VInt 1]), w2)).
Proof.
  split; [|split; [|split]].
  - apply (proj1 (unexpected_qualifier_ends_run climada)
             bad_bufr 2 sample_decoded 1 w0 [6]%Z (VInt 6));
      [reflexivity | reflexivity | reflexivity | discriminate].
  - apply (proj1 (proj2 (unexpected_qualifier_ends_run climada))
             (sample_bufr [6]%Z [1]%Z [2]%Z (Some 2)) 2 sample_decoded 1 w0
             [6]%Z (VInt 6) [Fin (-16); Fin (-33 # 2)] [Fin 161; Fin 162]
             [Fin 98500; Fin 98700] 2%Z);
      try reflexivity; discriminate.
  - cbv zeta.
    eapply (proj1 (proj2 (proj2 (unexpected_qualifier_ends_run climada)))
              [good_bufr] bad_bufr [good_bufr] w0 _ _ _ 2 1 [6]%Z (VInt 6) 4%Z).
    + vm_compute. reflexivity.
    + reflexivity.
    + lia.
    + vm_compute. reflexivity.
    + reflexivity.
    + reflexivity.
    + reflexivity.
    + discriminate.
  - cbv zeta.
    eapply (proj2 (proj2 (proj2 (unexpected_qualifier_ends_run climada)))
              [good_bufr] (sample_bufr [6]%Z [1]%Z [2]%Z (Some 2))
              [good_bufr] w0 _ _ _ 2 1 [6]%Z (VInt 6)
              [Fin (-16); Fin (-33 # 2)] [Fin 161; Fin 162]
              [Fin 98500; Fin 98700] 2%Z).
    + vm_compute. reflexivity.
    + reflexivity.
    + lia.
    + vm_compute. reflexivity.
    + reflexivity.
    + reflexivity.
    + reflexivity.
    + reflexivity.
    + reflexivity.
    + reflexivity.
    + reflexivity.
    + discriminate.
Defined.

(** C1 as it is written fails: in the run over [bad_bufr] and then
    [good_bufr] the error of the first message ends the run; the second
    message, which alone gives two tracks, is not read and the instance
    has no track. *)
Lemma sibling_after_bad_message_is_lost :
  exists e w,
    fetch_ecmwf climada [bad_bufr; good_bufr] w0 = (Raise e, w) /\
    data w = [] /\
    List.length (data (snd (fetch_ecmwf climada [good_bufr] w0))) = 2.
Proof.
  do 2 eexists. split; [vm_compute; reflexivity|].
  split; [reflexivity | vm_compute; reflexivity].
Qed.

(** C8: a message without the key timePeriod adds no track and raises no
    error; a warning is logged, the tracks read so far are unchanged, and
    the run goes on with the next message. *)
Theorem no_time_period_is_skipped (env : Climada) (file : bufr) (id_no : Z)
    (w : world) (post : list bufr) :
  timePeriod_size file = None ->
  exists w',
    read_one_bufr_tc env file id_no w = (Ok tt, w') /\
    data w' = data w /\
    logged w'
    = logged w
      ++ [LogRecord WARNING
            "Track %s has no defined timePeriod. Track is discarded."
            [VStr (strip (stormIdentifier file))]] /\
    fetch_files env id_no (file :: post) w
    = fetch_files env (id_no + 1) post w'.
Proof.
  intros H. eexists. unfold read_one_bufr_tc. rewrite H.
  split; [reflexivity|]. split; [reflexivity|]. split; [reflexivity|].
  cbn [fetch_files]. unfold bind, read_one_bufr_tc. rewrite H. reflexivity.
Qed.

Lemma no_time_period_is_skipped_witness :
  exists w',
    read_one_bufr_tc climada no_period_bufr 1 w0 = (Ok tt, w') /\
    data w' = data w0 /\
    logged w'
    = logged w0
      ++ [LogRecord WARNING
            "Track %s has no defined timePeriod. Track is discarded."
            [VStr (strip (stormIdentifier no_period_bufr))]] /\
    fetch_files climada 1 (no_period_bufr :: [good_bufr]) w0
    = fetch_files climada (1 + 1) [good_bufr] w'.
Proof.
  apply (no_time_period_is_skipped climada no_period_bufr 1 w0 [good_bufr]).
  reflexivity.
Defined.

(** ** The CXML path *)

(** What the code does: the environmental pressure of a CXML track is
    its column of minimum (central) pressures. *)
Lemma fcastdf_environmental_pressure (df : DataFrame) (tr : Dataset) :
  _fcastdf_to_ds df = Ok tr ->
  lookup "environmental_pressure" (data_vars tr)
  = lookup "minimumPressure" df /\
  lookup "central_pressure" (data_vars tr) = lookup "minimumPressure" df.
Proof.
  unfold _fcastdf_to_ds, bind_result, df_get, xr_Dataset. intros H.
  cbn [as_time_variables as_time_variable] in H.
  destruct (lookup "minimumPressure" df) as [pressures|].
  - run_cases H. inversion H; subst. split; reflexivity.
  - run_cases H.
Qed.

(** C4 fails on the code: in the table [sample_cxml] the last closed
    isobar is missing and the basin is the Southwest Pacific, whose
    default is 1004.  [_cxml_to_df] fills the column with that default,
    but the track takes its environmental pressure from the column of
    minimum pressures: 985, the central pressure of the row. *)
Theorem cxml_environmental_pressure_is_central :
  exists df tr,
    _cxml_to_df climada sample_cxml None = Ok df /\
    lookup "lastClosedIsobar" df = Some [VFloat (Fin 1004)] /\
    read_cxml climada sample_cxml = Ok [tr] /\
    lookup "environmental_pressure" (data_vars tr) = Some [VFloat (Fin 985)] /\
    lookup "central_pressure" (data_vars tr) = Some [VFloat (Fin 985)].
Proof.
  do 2 eexists. split; [vm_compute; reflexivity|].
  split; [reflexivity|]. split; [vm_compute; reflexivity|].
  split; reflexivity.
Qed.

(** ** Writing and reading HDF5 *)

Lemma lookup_set_key {A : Type} (k : string) (a : A)
    (l : list (string * A)) :
  lookup k (set_key k a l) = Some a.
Proof.
  induction l as [|[k' a'] l IH]; cbn.
  - now rewrite String.eqb_refl.
  - destruct (String.eqb k k') eqn:E; cbn.
    + now rewrite String.eqb_refl.
    + now rewrite E.
Qed.

Lemma lookup_set_key_other {A : Type} (k k' : string) (a : A)
    (l : list (string * A)) :
  k <> k' -> lookup k' (set_key k a l) = lookup k' l.
Proof.
  intros Hk. induction l as [|[k0 a0] l IH]; cbn.
  - destruct (String.eqb_spec k' k); [congruence | reflexivity].
  - destruct (String.eqb_spec k k0) as [->|Hk0]; cbn.
    + destruct (String.eqb_spec k' k0); [congruence | reflexivity].
    + now rewrite IH.
Qed.

(** The tracks that [_subset_to_track] assembles are forecast tracks. *)
Lemma subset_to_track_forecast (env : Climada) (msg : message) (index : nat)
    (provider : string) (timestamp_origin : Z) (name : string) (id_no : Z)
    (w w' : world) (tr : Dataset) :
  _subset_to_track env msg index provider timestamp_origin name id_no w
    = (Ok (Some tr), w') ->
  forecast_track tr.
Proof.
  intros H. apply subset_to_track_some in H.
  destruct H as (lat & lon & wnd & pre & leads & basin & ety & eno
                 & _ & _ & _ & _ & _ & _ & _ & _ & _ & _ & ->).
  exists (negb (ety =? 0)%Z), timestamp_origin. split; reflexivity.
Qed.

(** What [from_hdf5] hands back is typed as the class documents it,
    whatever the file holds. *)
Lemma of_netcdf4_types (np : Numpy) (tr tr' : Dataset) :
  of_netcdf4 np tr = (tr', None) -> forecast_track tr'.
Proof.
  unfold of_netcdf4, update_attrs, update_attr.
  destruct (lookup "is_ensemble" (attrs tr)) as [v|]; [|discriminate].
  destruct (py_bool v) as [v'|] eqn:Eb; [|discriminate].
  assert (Hb : exists b, v' = VBool b).
  { destruct v as [[|q]|z|s|b|t|t|[|z [|z' l]]|]; cbn in Eb;
      inversion Eb; eauto. }
  destruct Hb as [b ->].
  destruct (lookup "run_datetime" (attrs (set_attr "is_ensemble" (VBool b) tr)))
    as [u|]; [|discriminate].
  destruct (np_datetime64 np u) as [u'|] eqn:Et; [|discriminate].
  assert (Ht : exists t, u' = VTime t).
  { destruct u as [x|z|s|b'|t|t|l|]; cbn in Et; try discriminate;
      try (inversion Et; eauto).
    destruct (datetime_of_string np s); inversion Et; eauto. }
  destruct Ht as [t ->]. intros H. inversion H; subst tr'. clear H.
  exists b, t. unfold set_attr. cbn [attrs]. split.
  - rewrite lookup_set_key_other by discriminate. apply lookup_set_key.
  - apply lookup_set_key.
Qed.

Lemma for_tracks_of_netcdf4 (np : Numpy) (stored tracks : list Dataset) :
  for_tracks (of_netcdf4 np) stored = (tracks, None) ->
  Forall forecast_track tracks.
Proof.
  revert tracks. induction stored as [|tr stored IH]; intros tracks H.
  - cbn in H. inversion H. constructor.
  - cbn [for_tracks] in H.
    destruct (of_netcdf4 np tr) as [tr' [e|]] eqn:E; [discriminate|].
    destruct (for_tracks (of_netcdf4 np) stored) as [rest e] eqn:Er.
    inversion H; subst. constructor.
    + now apply of_netcdf4_types in E.
    + now apply IH.
Qed.

(** C9 fails on a collection read from CXML.  [read_cxml] stores the
    [run_datetime] of a track as the pandas [Timestamp] that [iloc[0]]
    hands out, where the class documents a [numpy.datetime64] and the
    BUFR path stores one.  Whatever file is read, [from_hdf5] gives
    tracks whose [is_ensemble] is a boolean and whose [run_datetime] is a
    [numpy.datetime64], so it never gives that collection back; and
    [write_hdf5] itself leaves the track of the instance without its
    [Timestamp]. *)
Theorem cxml_run_datetime_type_is_lost :
  exists tr,
    read_cxml climada sample_cxml = Ok [tr] /\
    lookup "run_datetime" (attrs tr) = Some (VTimestamp 28512720) /\
    lookup "is_ensemble" (attrs tr) = Some (VBool true) /\
    (forall (np : Numpy) (file_name : string) (w w' : world)
            (tracks : list Dataset),
       from_hdf5 np file_name w = (Ok tracks, w') ->
       Forall forecast_track tracks /\ tracks <> [tr]) /\
    (forall (np : Numpy) (file_name : string) (w w' : world)
            (r : result unit),
       data w = [tr] ->
       write_hdf5 np file_name w = (r, w') ->
       exists tr',
         data w' = [tr'] /\
         lookup "run_datetime" (attrs tr')
         <> Some (VTimestamp 28512720)).
Proof.
  eexists. split; [vm_compute; reflexivity|].
  split; [reflexivity|]. split; [reflexivity|]. split.
  - intros np file_name w w' tracks H.
    assert (Hall : Forall forecast_track tracks).
    { unfold from_hdf5, bind, super_from_hdf5 in H.
      destruct (lookup file_name (files w)) as [stored|]; [|discriminate].
      destruct (for_tracks (of_netcdf4 np) stored) as [tracks' [e|]] eqn:E;
        [discriminate|].
      inversion H; subst. now apply for_tracks_of_netcdf4 in E. }
    split; [exact Hall|]. intros ->.
    inversion Hall as [|? ? (b & t & _ & Ht) _]; subst.
    cbn in Ht. discriminate.
  - intros np file_name w w' r Hdata.
    unfold write_hdf5, bind, for_self_data, try_finally, super_write_hdf5.
    rewrite Hdata.
    cbn [for_tracks to_netcdf4 update_attrs update_attr attrs lookup
         String.eqb Ascii.eqb Bool.eqb py_int py_str set_attr set_key
         data_vars coords data logged files forallb netcdf_track
         netcdf_value fst snd orb andb of_netcdf4 py_bool Z.eqb negb
         np_datetime64].
    destruct (datetime_of_string np (timestamp_as_string np 28512720));
      intros H; inversion H; subst; eexists; (split; [reflexivity|]);
      cbn; discriminate.
Qed.

(** * Further properties of the module *)

(** ** [_check_variable] *)

(** Whatever the normalizer returns has one entry per ensemble member. *)
Lemma check_variable_out_length (var out : list float64) (n : nat)
    (varname : string) (w w' : world) :
  _check_variable var n varname w = (Ok out, w') ->
  List.length out = n.
Proof.
  unfold _check_variable, bind, logger, ret, raise.
  destruct (Nat.eqb_spec (List.length var) n) as [E|E].
  - intros H. inversion H; subst. apply mask_missing_length.
  - destruct (_ && feq _ _).
    + intros H. inversion H. apply repeat_length.
    + destruct (_ && fne _ _); intros H; inversion H. apply repeat_length.
Qed.

(** What the normalizer returns is dense: it has one entry per ensemble
    member, and it never hands the ecCodes missing value on: no entry of
    a returned array equals it. *)
Theorem check_variable_is_dense (var out : list float64) (n : nat)
    (varname : string) (w w' : world) :
  _check_variable var n varname w = (Ok out, w') ->
  List.length out = n /\
  Forall (fun x => feq x MISSING_DOUBLE = false) out.
Proof.
  intros H. split; [now apply check_variable_out_length in H|].
  revert H. unfold _check_variable, bind, logger, ret, raise.
  destruct (List.length var =? n).
  - intros H. inversion H; subst. unfold mask_missing.
    apply Forall_forall. intros x Hx. apply in_map_iff in Hx.
    destruct Hx as (y & <- & _).
    now destruct (feq y MISSING_DOUBLE) eqn:E.
  - destruct (_ && feq _ _).
    + intros H. inversion H. apply Forall_forall. intros x Hx.
      now apply repeat_spec in Hx; subst.
    + destruct (List.length var =? 1); cbn [andb];
        [|intros H; inversion H].
      unfold fne. destruct (feq (nth 0 var NaN) MISSING_DOUBLE) eqn:E;
        cbn [negb]; intros H; inversion H.
      apply Forall_forall. intros x Hx.
      now apply repeat_spec in Hx; subst.
Qed.

Lemma check_variable_is_dense_witness :
  List.length [Fin 5; NaN] = 2 /\
  Forall (fun x => feq x MISSING_DOUBLE = false) [Fin 5; NaN].
Proof.
  apply (check_variable_is_dense [Fin 5; MISSING_DOUBLE] 2
           "Pressure at time 1" w0 (w' := w0)).
  reflexivity.
Defined.

(** The normalizer changes neither the tracks nor the files.  It logs one
    warning, naming the field and the member count, exactly when it
    repeats a single real value for a member count other than 1, for any
    field and any time step; otherwise it logs nothing. *)
Theorem check_variable_warns_on_broadcast (var : list float64) (n : nat)
    (varname : string) (w : world) :
  let w' := snd (_check_variable var n varname w) in
  data w' = data w /\ files w' = files w /\
  ((n <> 1 /\ exists v, var = [v] /\ feq v MISSING_DOUBLE = false) ->
     logged w'
     = logged w ++ [LogRecord WARNING check_variable_warning
                      [VStr varname; VInt (Z.of_nat n)]]) /\
  (~ (n <> 1 /\ exists v, var = [v] /\ feq v MISSING_DOUBLE = false) ->
     logged w' = logged w).
Proof.
  cbv zeta. unfold _check_variable, bind, logger, ret, raise, fne.
  destruct (Nat.eqb_spec (List.length var) n) as [E|E]; cbn [snd].
  - repeat split; try reflexivity.
    intros (Hn & v & -> & _). cbn in E. congruence.
  - destruct (Nat.eqb_spec (List.length var) 1) as [E1|E1]; cbn [andb].
    + destruct var as [|v [|v' var]]; try discriminate E1. cbn [nth].
      destruct (feq v MISSING_DOUBLE) eqn:Ev; cbn [negb snd data files logged].
      * repeat split; try reflexivity.
        intros (_ & v0 & Hv0 & Hf). inversion Hv0; subst. congruence.
      * repeat split; try reflexivity.
        intros H. exfalso. apply H. split.
        -- cbn in E. congruence.
        -- now exists v.
    + cbn [snd]. repeat split; try reflexivity.
      intros (_ & v & -> & _). now contradiction E1.
Qed.

Lemma check_variable_warns_on_broadcast_witness :
  logged (snd (_check_variable [Fin 98500] 2 "Pressure at time 1" w0))
  = logged w0 ++ [LogRecord WARNING check_variable_warning
                    [VStr "Pressure at time 1"; VInt (Z.of_nat 2)]].
Proof.
  apply (proj1 (proj2 (proj2 (check_variable_warns_on_broadcast
                                [Fin 98500] 2 "Pressure at time 1" w0)))).
  split; [discriminate|]. exists (Fin 98500). split; reflexivity.
Defined.

(** ** [get_value_from_bufr_array] *)

Lemma first_non_missing_returns (var rest : list Z) (v : value) :
  first_non_missing var rest = Ok v ->
  v = VArr var /\ Exists (fun x => x <> MISSING_LONG) rest.
Proof.
  induction rest as [|x rest IH]; cbn; [discriminate|].
  destruct (Z.eqb_spec x MISSING_LONG) as [->|Hx]; cbn.
  - intros H. destruct (IH H) as [-> Hex]. split; [reflexivity|].
    now apply Exists_cons_tl.
  - intros H. inversion H. split; [reflexivity|]. now apply Exists_cons_hd.
Qed.

(** What the function returns is a value only for an array of one entry
    (that entry, missing or not); for any other array with an entry that
    is not missing it is the array itself, not its first defined entry. *)
Theorem get_value_returns (var : list Z) (v : value) :
  get_value_from_bufr_array var = Ok v ->
  (exists x, var = [x] /\ v = VInt x) \/
  (List.length var <> 1 /\ v = VArr var /\
   Exists (fun x => x <> MISSING_LONG) var).
Proof.
  unfold get_value_from_bufr_array.
  destruct (Nat.eqb_spec (List.length var) 1) as [E|E].
  - intros H. inversion H. left.
    destruct var as [|x [|y var]]; try discriminate E. now exists x.
  - intros H. right. apply first_non_missing_returns in H. tauto.
Qed.

Lemma get_value_returns_witness :
  (exists x, [MISSING_LONG; 1; 1]%Z = [x] /\ VArr [MISSING_LONG; 1; 1]%Z = VInt x)
  \/ (List.length [MISSING_LONG; 1; 1]%Z <> 1 /\
      VArr [MISSING_LONG; 1; 1]%Z = VArr [MISSING_LONG; 1; 1]%Z /\
      Exists (fun x => x <> MISSING_LONG) [MISSING_LONG; 1; 1]%Z).
Proof.
  apply (get_value_returns [MISSING_LONG; 1; 1]%Z). reflexivity.
Defined.

(** ** [read_one_bufr_tc]: one time step *)

(** A storm-centre qualifier that comes as an array of two or more
    entries, one of them defined, stops the time step with the error of
    the truth value of an array, whatever its codes are, also when all of
    them are the expected 1: the array itself is compared with 1. *)
Theorem array_qualifier_stops_step (file : bufr) (n_ens : nat) (st : decoded)
    (t : nat) (w : world) (period sig : list Z) (tvalue : value) :
  timePeriod file t = Some period ->
  get_value_from_bufr_array period = Ok tvalue ->
  meteorologicalAttributeSignificance file (t * 2 + 2) = Some sig ->
  2 <= List.length sig ->
  Exists (fun x => x <> MISSING_LONG) sig ->
  read_timestep file n_ens st t w
  = (Raise (ValueError [VStr "The truth value of an array with more than one element is ambiguous. Use a.any() or a.all()"]), w).
Proof.
  intros Hp Hv Hs Hlen Hex.
  assert (Hg : get_value_from_bufr_array sig = Ok (VArr sig)).
  { unfold get_value_from_bufr_array.
    destruct (Nat.eqb_spec (List.length sig) 1) as [E|E]; [lia|].
    destruct (first_non_missing sig sig) as [v|e] eqn:Ef.
    - apply first_non_missing_returns in Ef. now destruct Ef as [-> _].
    - exfalso. assert (Hall : Forall (fun x => x = MISSING_LONG) sig)
        by (apply (first_non_missing_raises sig sig); eauto).
      apply Exists_exists in Hex. destruct Hex as (x & Hin & Hx).
      apply Hx. now apply (proj1 (Forall_forall _ _) Hall). }
  unfold read_timestep, bind, lift. rewrite Hp. cbn [codes_get_array].
  rewrite Hv, Hs. cbn [codes_get_array]. rewrite Hg.
  destruct sig as [|a [|b sig]]; cbn in Hlen; try lia. reflexivity.
Qed.

Lemma array_qualifier_stops_step_witness :
  read_timestep (sample_bufr [6]%Z [1; 1]%Z [3]%Z (Some 2)) 2
    sample_decoded 1 w0
  = (Raise (ValueError [VStr "The truth value of an array with more than one element is ambiguous. Use a.any() or a.all()"]), w0).
Proof.
  apply (array_qualifier_stops_step
           (sample_bufr [6]%Z [1; 1]%Z [3]%Z (Some 2)) 2 sample_decoded 1 w0
           (period := [6]%Z) (sig := [1; 1]%Z) (tvalue := VInt 6)).
  - reflexivity.
  - reflexivity.
  - reflexivity.
  - cbn. lia.
  - apply Exists_cons_hd. discriminate.
Defined.

(** ** [read_one_bufr_tc]: the decoded message *)

Lemma list_set_length {A : Type} (l : list A) (i : nat) (v : A) :
  List.length (list_set l i v) = List.length l.
Proof.
  revert i. induction l as [|a l IH]; intros [|i]; cbn; try reflexivity.
  now rewrite IH.
Qed.

Lemma list_set_head {A : Type} (l : list A) (i : nat) (v : A) :
  1 <= i -> nth_error (list_set l i v) 0 = nth_error l 0.
Proof.
  destruct l as [|a l], i as [|i]; cbn; try reflexivity; lia.
Qed.

Lemma append_step_ok (n_ens k : nat) (d : list ndarray) (x : list float64) :
  series_ok n_ens k d -> List.length x = n_ens ->
  series_ok n_ens (S k) (append_step d x).
Proof.
  unfold series_ok, append_step. intros [Hlen Hall] Hx. subst n_ens.
  revert x Hx. induction Hall as [|a d [Ha1 Ha2] Hall IH]; intros x Hx.
  - destruct x; [|discriminate]. split; [reflexivity | constructor].
  - destruct x as [|v x]; [discriminate|]. injection Hx as Hx.
    destruct (IH x Hx) as [IH1 IH2]. cbn [zip_with List.length].
    split; [now rewrite IH1|]. constructor; [|assumption].
    destruct a as [c|l]; cbn in *.
    + split; [now subst k|]. eauto.
    + split; [rewrite length_app; cbn; lia|]. eauto.
Qed.

Lemma read_timestep_ok (file : bufr) (n_ens k n_timestep : nat)
    (st st' : decoded) (t : nat) (w w' : world) :
  decoded_ok n_ens k n_timestep st -> 1 <= t ->
  read_timestep file n_ens st t w = (Ok st', w') ->
  decoded_ok n_ens (S k) n_timestep st'.
Proof.
  intros (Hts & H0 & Hlat & Hlon & Hpre & Hwnd) Ht H.
  unfold read_timestep, bind, lift, ret, raise in H.
  run_cases H. inversion H; subst. clear H.
  repeat match goal with
         | E : _check_variable _ _ _ _ = (Ok _, _) |- _ =>
             apply check_variable_out_length in E
         end.
  unfold decoded_ok; cbn [timesteps_int dec_latitude dec_longitude
                          dec_pressure dec_max_wind].
  rewrite list_set_length, list_set_head by assumption.
  split; [first [assumption | reflexivity]|]. split; [assumption|].
  split; [|split; [|split]]; now apply append_step_ok.
Qed.

Lemma read_timesteps_ok (file : bufr) (n_ens n_timestep : nat)
    (ts : list nat) (k : nat) (st st' : decoded) (w w' : world) :
  decoded_ok n_ens k n_timestep st -> Forall (fun t => 1 <= t) ts ->
  for_each (read_timestep file n_ens) st ts w = (Ok st', w') ->
  decoded_ok n_ens (k + List.length ts) n_timestep st'.
Proof.
  intros Hst Hts. revert k st w Hst.
  induction Hts as [|t ts Ht _ IH]; intros k st w Hst H.
  - cbn in H. inversion H; subst. now rewrite Nat.add_0_r.
  - cbn [for_each] in H. unfold bind at 1 in H.
    destruct (read_timestep file n_ens st t w) as [[st1|e] w1] eqn:E;
      [|discriminate].
    apply read_timestep_ok with (1 := Hst) (2 := Ht) in E.
    apply IH with (1 := E) in H. cbn [List.length].
    now replace (k + S (List.length ts)) with (S k + List.length ts) by lia.
Qed.

Lemma init_series_ok (x : list float64) :
  series_ok (List.length x) 1 (map (fun v => Arr0 (VFloat v)) x).
Proof.
  split; [apply length_map|]. apply Forall_forall. intros a Ha.
  apply in_map_iff in Ha. destruct Ha as (v & <- & _).
  split; [reflexivity | congruence].
Qed.

(** A decoded message is dense: each of the four dictionaries has one
    series per ensemble member and every series has one cell per time
    step (the analysis and the [size] lead times); there are as many lead
    times as time steps, the first being 0; the member numbers are those
    of the message. *)
Lemma read_message_shape (file : bufr) (size : nat) (w w' : world)
    (msg : message) (ens_no : list Z) :
  ensembleMemberNumber file = Some ens_no ->
  read_message file size w = (Ok msg, w') ->
  let n_ens := List.length ens_no in
  series_ok n_ens (size + 1) (msg_latitude msg) /\
  series_ok n_ens (size + 1) (msg_longitude msg) /\
  series_ok n_ens (size + 1) (msg_wind_10m msg) /\
  series_ok n_ens (size + 1) (msg_pressure msg) /\
  List.length (msg_timestamp msg) = size + 1 /\
  nth_error (msg_timestamp msg) 0 = Some (VInt 0) /\
  msg_ens_number msg = ens_no.
Proof.
  intros Hens H. cbv zeta.
  unfold read_message, bind, lift, ret in H. rewrite Hens in H.
  cbn [codes_get_array] in H.
  destruct (codes_get_array (ensembleForecastType file)); [|discriminate].
  destruct (codes_get_array (latitude file 2)); [|discriminate].
  destruct (codes_get_array (longitude file 2)); [|discriminate].
  destruct (codes_get_array (pressureReducedToMeanSeaLevel file 1));
    [|discriminate].
  destruct (codes_get_array (windSpeedAt10M file 1)); [|discriminate].
  destruct (_check_variable _ _ _ w) as [[lat|] w1] eqn:E1; [|discriminate].
  destruct (_check_variable _ _ _ w1) as [[lon|] w2] eqn:E2; [|discriminate].
  destruct (_check_variable _ _ _ w2) as [[pre|] w3] eqn:E3; [|discriminate].
  destruct (_check_variable _ _ _ w3) as [[wnd|] w4] eqn:E4; [|discriminate].
  apply check_variable_out_length in E1, E2, E3, E4.
  destruct (for_each _ _ _ w4) as [[st|] w5] eqn:E; [|discriminate].
  inversion H; subst msg w'. clear H.
  apply read_timesteps_ok with (k := 1) (n_timestep := size + 1)
    (n_ens := List.length ens_no) in E.
  - rewrite length_seq in E.
    replace (1 + (size + 1 - 1)) with (size + 1) in E by lia.
    destruct E as (Hts & H0 & Hlat & Hlon & Hpre & Hwnd).
    cbn [msg_latitude msg_longitude msg_wind_10m msg_pressure msg_timestamp
         msg_ens_number].
    tauto.
  - unfold decoded_ok.
    cbn [timesteps_int dec_latitude dec_longitude dec_pressure dec_max_wind].
    rewrite repeat_length. split; [reflexivity|].
    split; [now rewrite Nat.add_1_r|].
    split; [|split; [|split]].
    + rewrite <- E1 at 1. apply init_series_ok.
    + rewrite <- E2 at 1. apply init_series_ok.
    + rewrite <- E3 at 1. apply init_series_ok.
    + rewrite <- E4 at 1. apply init_series_ok.
  - apply Forall_forall. intros t Ht. apply in_seq in Ht. lia.
Qed.


(** A decoded message is dense.  For every ensemble member of the
    message, each of the four dictionaries holds a series for the member,
    and each series has one cell per time step: the analysis and the
    [size] lead times, including the lead times where the member has no
    value.  There are as many lead times as time steps. *)
Theorem read_message_is_dense (file : bufr) (size : nat) (w w' : world)
    (msg : message) (ens_no : list Z) (i : nat) :
  ensembleMemberNumber file = Some ens_no ->
  read_message file size w = (Ok msg, w') ->
  i < List.length ens_no ->
  exists lat lon wind pres : ndarray,
    nth_error (msg_latitude msg) i = Some lat /\
    nth_error (msg_longitude msg) i = Some lon /\
    nth_error (msg_wind_10m msg) i = Some wind /\
    nth_error (msg_pressure msg) i = Some pres /\
    arr_size lat = size + 1 /\ arr_size lon = size + 1 /\
    arr_size wind = size + 1 /\ arr_size pres = size + 1 /\
    List.length (msg_timestamp msg) = size + 1.
Proof.
  intros Hens Em Hi.
  destruct (read_message_shape _ _ _ Hens Em)
    as (Hlat & Hlon & Hwnd & Hpre & Hts & _ & _).
  assert (Hcell : forall d, series_ok (List.length ens_no) (size + 1) d ->
            exists a, nth_error d i = Some a /\ arr_size a = size + 1).
  { intros d [Hlen Hall].
    destruct (nth_error d i) as [a|] eqn:E.
    - exists a. split; [reflexivity|].
      apply nth_error_In in E. rewrite Forall_forall in Hall.
      now apply Hall in E.
    - apply nth_error_None in E. lia. }
  destruct (Hcell _ Hlat) as (lat & E1 & S1).
  destruct (Hcell _ Hlon) as (lon & E2 & S2).
  destruct (Hcell _ Hwnd) as (wind & E3 & S3).
  destruct (Hcell _ Hpre) as (pres & E4 & S4).
  exists lat, lon, wind, pres.
  split; [exact E1|]. split; [exact E2|]. split; [exact E3|].
  split; [exact E4|]. split; [exact S1|]. split; [exact S2|].
  split; [exact S3|]. split; [exact S4|]. exact Hts.
Qed.

Lemma read_message_is_dense_witness :
  exists lat lon wind pres : ndarray,
    nth_error [Arr1 [VFloat (Fin (-15)); VFloat (Fin (-16)); VFloat (Fin (-17))];
               Arr1 [VFloat (Fin (-15)); VFloat (Fin (-33 # 2)); VFloat (Fin (-18))]]
              1 = Some lat /\
    nth_error [Arr1 [VFloat (Fin 160); VFloat (Fin 161); VFloat (Fin 162)];
               Arr1 [VFloat (Fin 160); VFloat (Fin 162); VFloat (Fin 164)]]
              1 = Some lon /\
    nth_error [Arr1 [VFloat (Fin 20); VFloat (Fin 25); VFloat (Fin 30)];
               Arr1 [VFloat (Fin 19); VFloat (Fin 23); VFloat (Fin 26)]]
              1 = Some wind /\
    nth_error [Arr1 [VFloat (Fin 99000); VFloat (Fin 98500); VFloat (Fin 98000)];
               Arr1 [VFloat (Fin 99100); VFloat (Fin 98700); VFloat NaN]]
              1 = Some pres /\
    arr_size lat = 2 + 1 /\ arr_size lon = 2 + 1 /\
    arr_size wind = 2 + 1 /\ arr_size pres = 2 + 1 /\
    List.length [VInt 0; VInt 6; VInt 12] = 2 + 1.
Proof.
  apply (@read_message_is_dense good_bufr 2 w0
           (mkWorld [] [LogRecord WARNING check_variable_warning
                          [VStr "Longitude at time 0"; VInt 2]] [])
           (mkMessage
    [Arr1 [VFloat (Fin (-15)); VFloat (Fin (-16)); VFloat (Fin (-17))];
     Arr1 [VFloat (Fin (-15)); VFloat (Fin (-33 # 2)); VFloat (Fin (-18))]]
    [Arr1 [VFloat (Fin 160); VFloat (Fin 161); VFloat (Fin 162)];
     Arr1 [VFloat (Fin 160); VFloat (Fin 162); VFloat (Fin 164)]]
    [Arr1 [VFloat (Fin 20); VFloat (Fin 25); VFloat (Fin 30)];
     Arr1 [VFloat (Fin 19); VFloat (Fin 23); VFloat (Fin 26)]]
    [Arr1 [VFloat (Fin 99000); VFloat (Fin 98500); VFloat (Fin 98000)];
     Arr1 [VFloat (Fin 99100); VFloat (Fin 98700); VFloat NaN]]
    [VInt 0; VInt 6; VInt 12] "SEVEN" "07P" [4; 4]%Z [1; 2]%Z)
           [1; 2]%Z 1).
  - reflexivity.
  - vm_compute. reflexivity.
  - cbn. lia.
Defined.

(** ** [_subset_to_track]: the assembled track *)

Lemma retained_wind_defined (wnd pre : list value) :
  Forall (fun v => isnull v = false) (retained wnd pre wnd).
Proof.
  assert (H : forall xs, Forall (fun v => isnull v = false)
                           (retained xs pre xs)).
  { intros xs. revert pre. induction xs as [|w xs IH]; intros [|p pre];
      cbn; try constructor.
    unfold row_defined. destruct (isnull w) eqn:E; cbn; [apply IH|].
    destruct (isnull (div100 p)); cbn; [apply IH|].
    constructor; [assumption | apply IH]. }
  apply H.
Qed.

Lemma retained_pressure_defined (wnd pre : list value) :
  Forall (fun v => isnull v = false) (retained wnd pre (map div100 pre)).
Proof.
  revert pre. induction wnd as [|w wnd IH]; intros [|p pre]; cbn;
    try constructor.
  unfold row_defined. destruct (isnull w); cbn; [apply IH|].
  destruct (isnull (div100 p)) eqn:E; cbn; [apply IH|].
  constructor; [assumption | apply IH].
Qed.

(** In an assembled track every data variable and every coordinate has
    as many cells as the track has time steps, there is one time step at
    least, and no cell of the wind and of the pressure is missing. *)
Theorem track_is_rectangular (env : Climada) (msg : message) (index : nat)
    (provider : string) (timestamp_origin : Z) (name : string) (id_no : Z)
    (w w' : world) (tr : Dataset) :
  _subset_to_track env msg index provider timestamp_origin name id_no w
    = (Ok (Some tr), w') ->
  1 <= sizes_time tr /\
  Forall (fun kc => List.length (snd kc) = sizes_time tr)
    (data_vars tr ++ coords tr) /\
  (exists wind pressure,
     lookup "max_sustained_wind" (data_vars tr) = Some wind /\
     lookup "central_pressure" (data_vars tr) = Some pressure /\
     Forall (fun v => isnull v = false) (wind ++ pressure)).
Proof.
  intros H. apply subset_to_track_some in H.
  destruct H as (lat & lon & wnd & pre & leads & basin & ety & eno
                 & _ & _ & _ & _ & _ & L1 & L2 & L3 & L4 & Hne & ->).
  assert (Hlen : forall B (ys : list B), List.length ys = List.length leads ->
            List.length (retained wnd pre ys)
            = List.length (retained wnd pre leads))
    by (intros B ys Hys; now apply retained_length).
  unfold sizes_time, assembled.
  cbn [coords data_vars lookup String.eqb Ascii.eqb Bool.eqb app].
  rewrite length_map. split; [|split].
  - destruct (retained wnd pre leads); [contradiction | cbn; lia].
  - repeat constructor; cbn [snd];
      rewrite ?length_map, ?repeat_length, ?diff_shift_diffs, ?diffs_length;
      try reflexivity; apply Hlen; rewrite ?length_map; assumption.
  - do 2 eexists. split; [reflexivity|]. split; [reflexivity|].
    apply Forall_app. split;
      [apply retained_wind_defined | apply retained_pressure_defined].
Qed.

Lemma track_is_rectangular_witness :
  let tr := assembled climada
              [VFloat (Fin 10); VFloat (Fin 11); VFloat (Fin 12)]
              [VFloat (Fin 50); VFloat (Fin 51); VFloat (Fin 52)]
              [VFloat NaN; VFloat (Fin 21); VFloat (Fin 22)]
              [VFloat (Fin 99000); VFloat (Fin 98000); VFloat (Fin 97000)]
              [0; 6; 18]%Z "P" "07P" "ECMWF" "SEVEN" 0 1 0 4 1 in
  1 <= sizes_time tr /\
  Forall (fun kc => List.length (snd kc) = sizes_time tr)
    (data_vars tr ++ coords tr) /\
  (exists wind pressure,
     lookup "max_sustained_wind" (data_vars tr) = Some wind /\
     lookup "central_pressure" (data_vars tr) = Some pressure /\
     Forall (fun v => isnull v = false) (wind ++ pressure)).
Proof.
  cbv zeta.
  apply (track_is_rectangular climada gap_message 0 "ECMWF" 0 "SEVEN" 1
           w0 (w' := w0)).
  vm_compute. reflexivity.
Defined.

Lemma last_default (l : list Z) (b d d' : Z) :
  last (b :: l) d = last (b :: l) d'.
Proof.
  revert b. induction l as [|c l IH]; intros b; [reflexivity|].
  change (last (c :: l) d = last (c :: l) d'). apply IH.
Qed.

Lemma diffs_sum (prev : Z) (l : list Z) :
  (fold_right Z.add 0 (diffs prev l) = last l prev - prev)%Z.
Proof.
  revert prev. induction l as [|a l IH]; intros prev.
  - cbn. lia.
  - cbn [diffs fold_right]. rewrite IH.
    destruct l as [|b l]; [cbn; lia|].
    change (last (a :: b :: l) prev) with (last (b :: l) prev).
    rewrite (last_default l b prev a). lia.
Qed.

(** The time steps of an assembled track add up to the lead time of its
    last retained step. *)
Theorem time_steps_add_up (env : Climada) (msg : message) (index : nat)
    (provider : string) (timestamp_origin : Z) (name : string) (id_no : Z)
    (w w' : world) (tr : Dataset) :
  _subset_to_track env msg index provider timestamp_origin name id_no w
    = (Ok (Some tr), w') ->
  exists wnd pre leads steps,
    nth_error (msg_wind_10m msg) index = Some (Arr1 wnd) /\
    nth_error (msg_pressure msg) index = Some (Arr1 pre) /\
    msg_timestamp msg = map VInt leads /\
    lookup "time_step" (data_vars tr) = Some (map VInt steps) /\
    fold_right Z.add 0%Z steps = last (retained wnd pre leads) 0%Z.
Proof.
  intros H. apply subset_to_track_some in H.
  destruct H as (lat & lon & wnd & pre & leads & basin & ety & eno
                 & _ & _ & Hwnd & Hpre & Hts & _ & _ & _ & _ & Hne & ->).
  exists wnd, pre, leads, (diffs 0 (retained wnd pre leads)).
  split; [assumption|]. split; [assumption|]. split; [assumption|].
  split.
  - unfold assembled.
    cbn [data_vars lookup String.eqb Ascii.eqb Bool.eqb].
    now rewrite diff_shift_diffs.
  - rewrite diffs_sum. lia.
Qed.

Lemma time_steps_add_up_witness :
  exists wnd pre leads steps,
    nth_error (msg_wind_10m gap_message) 0 = Some (Arr1 wnd) /\
    nth_error (msg_pressure gap_message) 0 = Some (Arr1 pre) /\
    msg_timestamp gap_message = map VInt leads /\
    lookup "time_step"
      (data_vars
         (assembled climada
            [VFloat (Fin 10); VFloat (Fin 11); VFloat (Fin 12)]
            [VFloat (Fin 50); VFloat (Fin 51); VFloat (Fin 52)]
            [VFloat NaN; VFloat (Fin 21); VFloat (Fin 22)]
            [VFloat (Fin 99000); VFloat (Fin 98000); VFloat (Fin 97000)]
            [0; 6; 18]%Z "P" "07P" "ECMWF" "SEVEN" 0 1 0 4 1))
      = Some (map VInt steps) /\
    fold_right Z.add 0%Z steps = last (retained wnd pre leads) 0%Z.
Proof.
  apply (time_steps_add_up climada gap_message 0 "ECMWF" 0 "SEVEN" 1
           w0 (w' := w0)).
  vm_compute. reflexivity.
Defined.

(** ** [_subset_to_track]: bundles that give no track *)

Lemma as_time_variables_scalar (vars : list (string * ndarray)) (k : string)
    (v : value) :
  In (k, Arr0 v) vars ->
  as_time_variables vars = Raise (ValueError [VStr ndim0_error]).
Proof.
  induction vars as [|[k' a] vars IH]; intros Hin; [destruct Hin|].
  cbn. destruct a as [c|l]; [reflexivity|]. cbn.
  destruct Hin as [Hin|Hin]; [discriminate|]. now rewrite IH.
Qed.

Lemma xr_Dataset_scalar (dvars : list (string * ndarray)) (time : ndarray)
    (cvars : list (string * ndarray)) (ats : list (string * value))
    (k : string) (v : value) :
  In (k, Arr0 v) dvars ->
  xr_Dataset dvars time cvars ats = Raise (ValueError [VStr ndim0_error]).
Proof.
  intros Hin. unfold xr_Dataset.
  now rewrite (as_time_variables_scalar _ _ _ Hin).
Qed.

(** A bundle with a single time step never gives a track: squeezing
    leaves no time axis, the constructor of the track refuses that, and
    the member is given up with a warning. *)
Theorem single_step_gives_no_track (env : Climada) (msg : message)
    (index : nat) (provider : string) (timestamp_origin : Z) (name : string)
    (id_no : Z) (w : world) (lat lon wnd pre : ndarray) (z ety eno : Z) :
  nth_error (msg_latitude msg) index = Some lat ->
  nth_error (msg_longitude msg) index = Some lon ->
  nth_error (msg_wind_10m msg) index = Some wnd ->
  nth_error (msg_pressure msg) index = Some pre ->
  msg_timestamp msg = [VInt z] ->
  nth_error (msg_ens_type msg) index = Some ety ->
  nth_error (msg_ens_number msg) index = Some eno ->
  _subset_to_track env msg index provider timestamp_origin name id_no w
  = (Ok None,
     mkWorld (data w)
       (logged w
        ++ [LogRecord WARNING
              "Could not process track %s subset %d, error: %s"
              [VStr (strip (msg_storm_id msg)); VInt (Z.of_nat index);
               VStr ndim0_error]])
       (files w)).
Proof.
  intros Hlat Hlon Hwnd Hpre Hts Hety Heno.
  unfold _subset_to_track, bind, lift, dict_get, array_get.
  rewrite Hlat, Hlon, Hwnd, Hpre, Hts, Hety, Heno.
  cbn [np_array squeeze arr_map add_hours].
  rewrite xr_Dataset_scalar with (k := "ts_int"%string) (v := VInt z).
  - reflexivity.
  - cbn. tauto.
Qed.

Lemma single_step_gives_no_track_witness :
  _subset_to_track climada
    (mkMessage [Arr0 (VFloat (Fin 10))] [Arr0 (VFloat (Fin 50))]
       [Arr0 (VFloat (Fin 20))] [Arr0 (VFloat (Fin 99000))] [VInt 0]
       "SEVEN" "07P" [4]%Z [1]%Z)
    0 "ECMWF" 0 "SEVEN" 1 w0
  = (Ok None,
     mkWorld (data w0)
       (logged w0
        ++ [LogRecord WARNING
              "Could not process track %s subset %d, error: %s"
              [VStr (strip "07P"); VInt (Z.of_nat 0); VStr ndim0_error]])
       (files w0)).
Proof.
  apply (single_step_gives_no_track climada
           (mkMessage [Arr0 (VFloat (Fin 10))] [Arr0 (VFloat (Fin 50))]
              [Arr0 (VFloat (Fin 20))] [Arr0 (VFloat (Fin 99000))] [VInt 0]
              "SEVEN" "07P" [4]%Z [1]%Z)
           0 "ECMWF" 0 "SEVEN" 1 w0
           (lat := Arr0 (VFloat (Fin 10))) (lon := Arr0 (VFloat (Fin 50)))
           (wnd := Arr0 (VFloat (Fin 20))) (pre := Arr0 (VFloat (Fin 99000)))
           (z := 0%Z) (ety := 4%Z) (eno := 1%Z)); reflexivity.
Defined.

(** A member whose rows all lack wind or pressure gives no track, without
    an error and without a log record of the assembler, when its times
    are times that nanoseconds can hold (the constructor of the track
    refuses others, and a lead time without a value is such a one). *)
Theorem undefined_rows_give_no_track (env : Climada) (msg : message)
    (index : nat) (provider : string) (timestamp_origin : Z) (name : string)
    (id_no : Z) (w : world) (lat lon wnd pre : list value) (leads : list Z)
    (ety eno : Z) :
  nth_error (msg_latitude msg) index = Some (Arr1 lat) ->
  nth_error (msg_longitude msg) index = Some (Arr1 lon) ->
  nth_error (msg_wind_10m msg) index = Some (Arr1 wnd) ->
  nth_error (msg_pressure msg) index = Some (Arr1 pre) ->
  msg_timestamp msg = map VInt leads ->
  nth_error (msg_ens_type msg) index = Some ety ->
  nth_error (msg_ens_number msg) index = Some eno ->
  List.length lat = List.length leads ->
  List.length lon = List.length leads ->
  List.length wnd = List.length leads ->
  List.length pre = List.length leads ->
  List.length leads <> 1 ->
  forallb (fun z => datetime64_ns (timestamp_origin + 60 * z)) leads = true ->
  retained wnd pre leads = [] ->
  _subset_to_track env msg index provider timestamp_origin name id_no w
  = (Ok None, w).
Proof.
  intros Hlat Hlon Hwnd Hpre Hts Hety Heno L1 L2 L3 L4 Hn Hns Hkept.
  unfold _subset_to_track, bind, lift, dict_get, array_get.
  rewrite Hlat, Hlon, Hwnd, Hpre, Hts, np_array_ints, Hety, Heno.
  rewrite !squeeze_not_single by (rewrite ?length_map; congruence).
  unfold xr_Dataset.
  cbn [as_time_variables as_time_variable arr_map app forallb snd].
  rewrite !length_map, L1, L2, L3, L4, Nat.eqb_refl.
  cbn [andb].
  rewrite dropna_track by (rewrite ?length_map; congruence).
  unfold finish_track, sizes_time.
  cbn [coords lookup String.eqb Ascii.eqb Bool.eqb].
  rewrite (retained_length wnd pre _ leads) by (now rewrite !length_map).
  rewrite Hkept. reflexivity.
Qed.

Lemma undefined_rows_give_no_track_witness :
  _subset_to_track climada
    (mkMessage [Arr1 [VFloat (Fin 10); VFloat (Fin 11)]]
       [Arr1 [VFloat (Fin 50); VFloat (Fin 51)]]
       [Arr1 [VFloat NaN; VFloat (Fin 21)]]
       [Arr1 [VFloat (Fin 99000); VFloat NaN]] [VInt 0; VInt 6]
       "SEVEN" "07P" [4]%Z [1]%Z)
    0 "ECMWF" 0 "SEVEN" 1 w0
  = (Ok None, w0).
Proof.
  apply (@undefined_rows_give_no_track climada
           (mkMessage [Arr1 [VFloat (Fin 10); VFloat (Fin 11)]]
              [Arr1 [VFloat (Fin 50); VFloat (Fin 51)]]
              [Arr1 [VFloat NaN; VFloat (Fin 21)]]
              [Arr1 [VFloat (Fin 99000); VFloat NaN]] [VInt 0; VInt 6]
              "SEVEN" "07P" [4]%Z [1]%Z)
           0 "ECMWF" 0 "SEVEN" 1 w0
           ([VFloat (Fin 10); VFloat (Fin 11)])
           ([VFloat (Fin 50); VFloat (Fin 51)])
           ([VFloat NaN; VFloat (Fin 21)])
           ([VFloat (Fin 99000); VFloat NaN])
           ([0; 6]%Z) (4%Z) (1%Z));
    try reflexivity.
  cbn. lia.
Defined.

(** A storm identifier of fewer than three characters makes the
    assembler raise [IndexError] for a member that has a row to keep and
    whose times are times that nanoseconds can hold: the basin letter is
    read from the third character, and nothing catches the error. *)
Theorem short_storm_id_raises (env : Climada) (msg : message)
    (index : nat) (provider : string) (timestamp_origin : Z) (name : string)
    (id_no : Z) (w : world) (lat lon wnd pre : list value) (leads : list Z)
    (ety eno : Z) :
  nth_error (msg_latitude msg) index = Some (Arr1 lat) ->
  nth_error (msg_longitude msg) index = Some (Arr1 lon) ->
  nth_error (msg_wind_10m msg) index = Some (Arr1 wnd) ->
  nth_error (msg_pressure msg) index = Some (Arr1 pre) ->
  msg_timestamp msg = map VInt leads ->
  nth_error (msg_ens_type msg) index = Some ety ->
  nth_error (msg_ens_number msg) index = Some eno ->
  List.length lat = List.length leads ->
  List.length lon = List.length leads ->
  List.length wnd = List.length leads ->
  List.length pre = List.length leads ->
  List.length leads <> 1 ->
  forallb (fun z => datetime64_ns (timestamp_origin + 60 * z)) leads = true ->
  retained wnd pre leads <> [] ->
  String.length (strip (msg_storm_id msg)) < 3 ->
  _subset_to_track env msg index provider timestamp_origin name id_no w
  = (Raise IndexError, w).
Proof.
  intros Hlat Hlon Hwnd Hpre Hts Hety Heno L1 L2 L3 L4 Hn Hns Hkept Hsid.
  unfold _subset_to_track, bind, lift, dict_get, array_get.
  rewrite Hlat, Hlon, Hwnd, Hpre, Hts, np_array_ints, Hety, Heno.
  rewrite !squeeze_not_single by (rewrite ?length_map; congruence).
  unfold xr_Dataset.
  cbn [as_time_variables as_time_variable arr_map app forallb snd].
  rewrite !length_map, L1, L2, L3, L4, Nat.eqb_refl.
  cbn [andb].
  rewrite dropna_track by (rewrite ?length_map; congruence).
  unfold finish_track, sizes_time.
  cbn [coords lookup String.eqb Ascii.eqb Bool.eqb].
  rewrite (retained_length wnd pre _ leads) by (now rewrite !length_map).
  destruct (retained wnd pre leads) as [|a l] eqn:E; [contradiction|].
  cbn [List.length Nat.eqb]. unfold bind, lift, sid_basin.
  assert (Hget : String.get 2 (strip (msg_storm_id msg)) = None).
  { destruct (strip (msg_storm_id msg)) as [|c1 [|c2 [|c3 s]]]; cbn in *;
      try reflexivity; lia. }
  now rewrite Hget.
Qed.

Lemma short_storm_id_raises_witness :
  _subset_to_track climada
    (mkMessage [Arr1 [VFloat (Fin 10); VFloat (Fin 11)]]
       [Arr1 [VFloat (Fin 50); VFloat (Fin 51)]]
       [Arr1 [VFloat (Fin 20); VFloat (Fin 21)]]
       [Arr1 [VFloat (Fin 99000); VFloat (Fin 98000)]] [VInt 0; VInt 6]
       "SEVEN" " 7 " [4]%Z [1]%Z)
    0 "ECMWF" 0 "SEVEN" 1 w0
  = (Raise IndexError, w0).
Proof.
  apply (@short_storm_id_raises climada
           (mkMessage [Arr1 [VFloat (Fin 10); VFloat (Fin 11)]]
              [Arr1 [VFloat (Fin 50); VFloat (Fin 51)]]
              [Arr1 [VFloat (Fin 20); VFloat (Fin 21)]]
              [Arr1 [VFloat (Fin 99000); VFloat (Fin 98000)]]
              [VInt 0; VInt 6] "SEVEN" " 7 " [4]%Z [1]%Z)
           0 "ECMWF" 0 "SEVEN" 1 w0
           ([VFloat (Fin 10); VFloat (Fin 11)])
           ([VFloat (Fin 50); VFloat (Fin 51)])
           ([VFloat (Fin 20); VFloat (Fin 21)])
           ([VFloat (Fin 99000); VFloat (Fin 98000)])
           ([0; 6]%Z) (4%Z) (1%Z));
    try reflexivity.
  - cbn. lia.
  - discriminate.
  - vm_compute. lia.
Defined.

(** ** [read_one_bufr_tc] and [fetch_ecmwf]: what a run appends *)

Lemma keeps_data_subset_to_track (env : Climada) (msg : message)
    (index : nat) (provider : string) (timestamp_origin : Z) (name : string)
    (id_no : Z) :
  keeps_data
    (_subset_to_track env msg index provider timestamp_origin name id_no).
Proof.
  unfold _subset_to_track, finish_track. keeps.
Qed.

(** What one pass of the loop over the subsets does to the tracks: it
    leaves them, or it adds the track of this subset at the end. *)
Lemma append_subset_step (env : Climada) (msg : message) (provider : string)
    (timestamp_origin id_no : Z) (i : nat) (w w' : world) (r : result unit) :
  append_subset env msg provider timestamp_origin id_no tt i w = (r, w') ->
  data w' = data w \/
  exists tr w1 w2,
    _subset_to_track env msg i provider timestamp_origin
      (msg_wmo_longname msg) id_no w1 = (Ok (Some tr), w2) /\
    data w' = data w ++ [tr].
Proof.
  unfold append_subset, bind.
  pose proof (keeps_data_subset_to_track env msg i provider timestamp_origin
                (msg_wmo_longname msg) id_no w) as Hk.
  destruct (_subset_to_track _ _ _ _ _ _ _ w) as [[[tr|]|e] w1] eqn:E;
    cbn [snd] in Hk; unfold append, logger; intros H; inversion H; subst;
    cbn [data].
  - right. exists tr, w, w1. split; [assumption | now rewrite Hk].
  - now left.
  - now left.
Qed.

Lemma append_loop_appends (env : Climada) (msg : message) (provider : string)
    (timestamp_origin id_no : Z) (n a : nat) (w w' : world)
    (r : result unit) :
  for_each (append_subset env msg provider timestamp_origin id_no) tt
    (seq a n) w = (r, w') ->
  exists idx new,
    data w' = data w ++ new /\
    Forall2 (fun i tr => exists w1 w2,
               _subset_to_track env msg i provider timestamp_origin
                 (msg_wmo_longname msg) id_no w1 = (Ok (Some tr), w2))
      idx new /\
    StronglySorted lt idx /\
    Forall (fun i => a <= i < a + n) idx.
Proof.
  revert a w. induction n as [|n IH]; intros a w H.
  - cbn in H. inversion H; subst. exists [], [].
    rewrite app_nil_r. repeat split; constructor.
  - cbn [seq for_each] in H. unfold bind at 1 in H.
    destruct (append_subset env msg provider timestamp_origin id_no tt a w)
      as [[[]|e] w1] eqn:E.
    + apply IH in H. destruct H as (idx & new & Hd & Hf & Hs & Hr).
      assert (Hr' : Forall (fun i => a <= i < a + S n) idx)
        by (eapply Forall_impl; [|exact Hr]; cbn; intros; lia).
      apply append_subset_step in E. destruct E as [E|(tr & u1 & u2 & E & Ed)].
      * exists idx, new. rewrite Hd, E. repeat split; assumption.
      * exists (a :: idx), (tr :: new). rewrite Hd, Ed, <- app_assoc.
        split; [reflexivity|]. split; [constructor; eauto|].
        split.
        -- constructor; [assumption|].
           eapply Forall_impl; [|exact Hr]. cbn. intros; lia.
        -- constructor; [lia | assumption].
    + inversion H; subst.
      apply append_subset_step in E. destruct E as [E|(tr & u1 & u2 & E & Ed)].
      * exists [], []. rewrite app_nil_r. repeat split; try constructor.
        assumption.
      * exists [a], [tr]. split; [assumption|].
        split; [constructor; [eauto | constructor]|].
        split; [repeat constructor|]. constructor; [lia | constructor].
Qed.

(** Everything a successful assembly tells about the bundle. *)
Lemma subset_to_track_inputs (env : Climada) (msg : message) (index : nat)
    (provider : string) (timestamp_origin : Z) (name : string) (id_no : Z)
    (w w' : world) (tr : Dataset) :
  _subset_to_track env msg index provider timestamp_origin name id_no w
    = (Ok (Some tr), w') ->
  exists lat lon wnd pre leads basin ens_type ens_number,
    msg_timestamp msg = map VInt leads /\
    2 <= List.length leads /\
    nth_error (msg_ens_type msg) index = Some ens_type /\
    nth_error (msg_ens_number msg) index = Some ens_number /\
    sid_basin (strip (msg_storm_id msg)) = Ok basin /\
    tr = assembled env lat lon wnd pre leads basin
           (strip (msg_storm_id msg)) provider name timestamp_origin id_no
           index ens_type ens_number.
Proof.
  unfold _subset_to_track, bind, lift, dict_get, array_get.
  destruct (nth_error (msg_latitude msg) index) as [lat|]; [|discriminate].
  destruct (nth_error (msg_longitude msg) index) as [lon|]; [|discriminate].
  destruct (nth_error (msg_wind_10m msg) index) as [wnd|]; [|discriminate].
  destruct (nth_error (msg_pressure msg) index) as [pre|]; [|discriminate].
  destruct (np_array (msg_timestamp msg)) as [ts|] eqn:Ets; [|discriminate].
  destruct (nth_error (msg_ens_type msg) index) as [ens_type|];
    [|discriminate].
  destruct (nth_error (msg_ens_number msg) index) as [ens_number|];
    [|discriminate].
  destruct (xr_Dataset _ _ _ _) as [track|e] eqn:Ex.
  2:{ destruct e; cbn; discriminate. }
  apply xr_Dataset_track in Ex.
  destruct Ex as (l1 & l2 & l3 & lt & m1 & m2 & E1 & E2 & E3 & Et & -> & ->
                  & H1 & H2 & H3 & H4 & H5 & ->).
  apply np_array_ok in Ets. destruct Ets as [-> Hts].
  set (leads := ints_of (msg_timestamp msg)) in *.
  apply squeeze_Arr1 in E1. destruct E1 as [-> _].
  apply arr_map_Arr1 in E2. destruct E2 as (pl & E2 & ->).
  apply squeeze_Arr1 in E2. destruct E2 as [-> _].
  apply squeeze_Arr1 in E3. destruct E3 as [E3 Hn1]. injection E3 as <-.
  apply arr_map_Arr1 in Et. destruct Et as (l0 & Et & ->).
  apply squeeze_Arr1 in Et. destruct Et as [Et _]. injection Et as <-.
  rewrite Hts in *. rewrite !length_map in *.
  rewrite dropna_track by (rewrite ?length_map; assumption).
  unfold finish_track, sizes_time.
  cbn [coords lookup String.eqb Ascii.eqb Bool.eqb].
  destruct (Nat.eqb_spec
              (List.length
                 (retained l1 pl
                    (map (add_hours timestamp_origin) (map VInt leads)))) 0)
    as [E0|E0]; [discriminate|].
  unfold bind, lift.
  destruct (sid_basin (strip (msg_storm_id msg))) as [basin|]; [|discriminate].
  intros H.
  exists m1, m2, l1, pl, leads, basin, ens_type, ens_number.
  split; [reflexivity|]. split.
  { destruct leads as [|z [|z' leads']]; cbn [List.length map] in *;
      [|now contradiction Hn1|lia].
    destruct l1; [|discriminate]. now contradiction E0. }
  split; [reflexivity|]. split; [reflexivity|]. split; [reflexivity|].
  destruct (String.eqb basin "X"); unfold logger, ret in H;
    injection H as H _; subst tr.
  all: cbv [set_attr set_var drop_var full_like sizes_time lookup set_key
            remove_key data_vars coords attrs String.eqb Ascii.eqb Bool.eqb
            assembled].
  all: rewrite !retained_map, ints_of_map_VInt, !length_map, map_map.
  all: reflexivity.
Qed.

(** The tracks that reading one message adds, in the order of the member
    indices they come from. *)
Lemma read_one_appends (env : Climada) (file : bufr) (id_no : Z)
    (w w' : world) (r : result unit) :
  read_one_bufr_tc env file id_no w = (r, w') ->
  exists idx new,
    data w' = data w ++ new /\
    StronglySorted lt idx /\
    Forall2 (track_of_member file id_no) idx new.
Proof.
  unfold read_one_bufr_tc.
  destruct (timePeriod_size file) as [size|].
  2:{ unfold logger. intros H. inversion H; subst. exists [], [].
      cbn [data]. rewrite app_nil_r.
      split; [reflexivity | split; constructor]. }
  unfold bind. pose proof (keeps_data_read_message file size w) as Hk.
  destruct (read_message file size w) as [[msg|e] w1] eqn:Em; cbn [snd] in Hk.
  2:{ intros H. inversion H; subst. exists [], [].
      rewrite app_nil_r. split; [assumption | split; constructor]. }
  intros H. apply append_loop_appends in H.
  destruct H as (idx & new & Hd & Hf & Hs & _).
  exists idx, new. rewrite Hd, Hk. split; [reflexivity|].
  split; [assumption|].
  assert (Hens : exists ens_no, ensembleMemberNumber file = Some ens_no).
  { unfold read_message, bind, lift in Em.
    destruct (ensembleMemberNumber file) as [ens_no|]; [eauto|].
    discriminate Em. }
  destruct Hens as [ens_no Hens].
  pose proof (read_message_shape _ _ _ Hens Em) as Hm. cbv zeta in Hm.
  destruct Hm as (_ & _ & _ & _ & _ & _ & Hno).
  assert (Hname : msg_wmo_longname msg = strip (longStormName file)).
  { unfold read_message, bind, lift, ret in Em.
    run_cases Em; now inversion Em. }
  eapply Forall2_impl; [|exact Hf]. cbn beta.
  intros i tr (u1 & u2 & Htr).
  apply subset_to_track_inputs in Htr.
  destruct Htr as (lat & lon & wnd & pre & leads & basin & ety & eno
                   & _ & _ & _ & Heno & _ & ->).
  unfold track_of_member, assembled, provider_of.
  cbn [attrs lookup String.eqb Ascii.eqb Bool.eqb].
  rewrite Hname, Hno in *.
  split; [reflexivity|]. split; [reflexivity|]. split; [reflexivity|].
  split; [reflexivity|]. split; eauto.
Qed.

(** Reading one message only adds tracks, at the end and in the order of
    the member indices; each added track has the number [id_no + i/100]
    of its member index [i], the date of the message as [run_datetime],
    the provider named after the centre, the name of the storm, the
    member number found at [i] in the message and a boolean
    [is_ensemble].  This holds whether the call returns or raises. *)
Theorem message_tracks_in_member_order (env : Climada) (file : bufr)
    (id_no : Z) (w : world) :
  exists idx new,
    data (snd (read_one_bufr_tc env file id_no w)) = data w ++ new /\
    StronglySorted lt idx /\
    Forall2 (track_of_member file id_no) idx new.
Proof.
  destruct (read_one_bufr_tc env file id_no w) as [r w'] eqn:E.
  now apply read_one_appends in E.
Qed.

(** The tracks that reading one message adds come in the order of the
    member indices, and the track of the member at index [i] (the one
    with the number [id_no + i/100] and the member number found at [i])
    is flagged [is_ensemble] exactly when the forecast type of that
    member is not 0, 0 being the deterministic analysis: the type found
    at [i] in the message, or the single type of a message that gives
    only one. *)
Theorem forecast_type_flags_members (env : Climada) (file : bufr)
    (id_no : Z) (w : world) (types : list Z) :
  ensembleForecastType file = Some types ->
  exists idx new,
    data (snd (read_one_bufr_tc env file id_no w)) = data w ++ new /\
    StronglySorted lt idx /\
    Forall2 (fun i tr =>
               track_of_member file id_no i tr /\
               exists ty,
                 match types with
                 | [t] => ty = t
                 | _ => nth_error types i = Some ty
                 end /\
                 lookup "is_ensemble" (attrs tr)
                 = Some (VBool (negb (ty =? 0)%Z)))
      idx new.
Proof.
  intros Hty. unfold read_one_bufr_tc.
  destruct (timePeriod_size file) as [size|].
  2:{ exists [], []. cbn. rewrite app_nil_r.
      split; [reflexivity | split; constructor]. }
  unfold bind. pose proof (keeps_data_read_message file size w) as Hk.
  destruct (read_message file size w) as [[msg|e] w1] eqn:Em; cbn [snd] in Hk.
  2:{ exists [], []. cbn [snd]. rewrite app_nil_r.
      split; [assumption | split; constructor]. }
  destruct (for_each _ tt (seq 0 _) w1) as [r w'] eqn:H. cbn [snd].
  apply append_loop_appends in H.
  destruct H as (idx & new & Hd & Hf & Hs & _).
  exists idx, new. rewrite Hd, Hk. split; [reflexivity|].
  split; [exact Hs|].
  assert (Hmsg : msg_ens_type msg
                 = if (List.length types =? 1)%nat
                   then repeat (nth 0 types 0%Z)
                          (List.length (msg_ens_number msg))
                   else types).
  { unfold read_message, bind, lift, ret, codes_get_array in Em.
    rewrite Hty in Em. run_cases Em; now inversion Em. }
  assert (Hens : exists ens_no, ensembleMemberNumber file = Some ens_no).
  { unfold read_message, bind, lift in Em.
    destruct (ensembleMemberNumber file) as [ens_no|]; [eauto|].
    discriminate Em. }
  destruct Hens as [ens_no Hens].
  pose proof (read_message_shape _ _ _ Hens Em) as Hm. cbv zeta in Hm.
  destruct Hm as (_ & _ & _ & _ & _ & _ & Hno).
  assert (Hname : msg_wmo_longname msg = strip (longStormName file)).
  { unfold read_message, bind, lift, ret in Em.
    run_cases Em; now inversion Em. }
  eapply Forall2_impl; [|exact Hf]. cbn beta.
  intros i tr (u1 & u2 & Htr).
  apply subset_to_track_inputs in Htr.
  destruct Htr as (lat & lon & wnd & pre & leads & basin & ety & eno
                   & _ & _ & Hety & Heno & _ & ->).
  split.
  - unfold track_of_member, assembled, provider_of.
    cbn [attrs lookup String.eqb Ascii.eqb Bool.eqb].
    rewrite Hname, Hno in *.
    split; [reflexivity|]. split; [reflexivity|]. split; [reflexivity|].
    split; [reflexivity|]. split; eauto.
  - exists ety. split; [|reflexivity].
    rewrite Hmsg in Hety.
    destruct types as [|t [|t' types']]; cbn [List.length Nat.eqb] in Hety;
      try exact Hety.
    apply nth_error_In, repeat_spec in Hety. exact Hety.
Qed.

Lemma forecast_type_flags_members_witness :
  exists idx new,
    data (snd (read_one_bufr_tc climada mixed_bufr 1 w0)) = data w0 ++ new /\
    StronglySorted lt idx /\
    Forall2 (fun i tr =>
               track_of_member mixed_bufr 1 i tr /\
               exists ty,
                 nth_error [0; 4]%Z i = Some ty /\
                 lookup "is_ensemble" (attrs tr)
                 = Some (VBool (negb (ty =? 0)%Z)))
      idx new.
Proof.
  apply (@forecast_type_flags_members climada mixed_bufr 1 w0 [0; 4]%Z).
  reflexivity.
Defined.

(** A message whose timePeriod has no value (so that the only time step
    is the analysis) adds no track, whatever else it holds. *)
Theorem no_lead_time_adds_nothing (env : Climada) (file : bufr) (id_no : Z)
    (w : world) :
  timePeriod_size file = Some 0 ->
  data (snd (read_one_bufr_tc env file id_no w)) = data w.
Proof.
  intros Hsize. unfold read_one_bufr_tc. rewrite Hsize. unfold bind.
  pose proof (keeps_data_read_message file 0 w) as Hk.
  destruct (read_message file 0 w) as [[msg|e] w1] eqn:Em; cbn [snd] in *;
    [|assumption].
  destruct (for_each _ _ _ w1) as [r w'] eqn:E. cbn [snd].
  apply append_loop_appends in E.
  destruct E as (idx & new & Hd & Hf & _ & _).
  assert (Hens : exists ens_no, ensembleMemberNumber file = Some ens_no).
  { unfold read_message, bind, lift in Em.
    destruct (ensembleMemberNumber file) as [ens_no|]; [eauto|].
    discriminate Em. }
  destruct Hens as [ens_no Hens].
  pose proof (read_message_shape _ _ _ Hens Em) as Hm. cbv zeta in Hm.
  destruct Hm as (_ & _ & _ & _ & Hlen & _ & _).
  destruct Hf as [|i tr idx new (u1 & u2 & Htr) _].
  - now rewrite Hd, app_nil_r.
  - exfalso. apply subset_to_track_inputs in Htr.
    destruct Htr as (lat & lon & wnd & pre & leads & basin & ety & eno
                     & Hts & Hge & _).
    rewrite Hts, length_map in Hlen. cbn in Hlen. lia.
Qed.

Lemma no_lead_time_adds_nothing_witness :
  data (snd (read_one_bufr_tc climada
               (sample_bufr [6]%Z [1]%Z [3]%Z (Some 0)) 1 w0))
  = data w0.
Proof.
  apply (no_lead_time_adds_nothing climada
           (sample_bufr [6]%Z [1]%Z [3]%Z (Some 0)) 1 w0).
  reflexivity.
Defined.

(** Only the absence of timePeriod is caught.  When the message has a
    timePeriod but lacks the member numbers, the forecast types or one of
    the four arrays of the analysis, [read_one_bufr_tc] raises the error
    of ecCodes and nothing is added or logged. *)
Theorem missing_array_is_not_caught (env : Climada) (file : bufr) (id_no : Z)
    (w : world) (size : nat) :
  timePeriod_size file = Some size ->
  ensembleMemberNumber file = None \/ ensembleForecastType file = None \/
  latitude file 2 = None \/ longitude file 2 = None \/
  pressureReducedToMeanSeaLevel file 1 = None \/
  windSpeedAt10M file 1 = None ->
  read_one_bufr_tc env file id_no w = (Raise CodesInternalError, w).
Proof.
  intros Hsize H. unfold read_one_bufr_tc. rewrite Hsize.
  unfold bind, read_message, bind, lift.
  destruct (ensembleMemberNumber file); [|reflexivity]. cbn [codes_get_array].
  destruct (ensembleForecastType file); [|reflexivity]. cbn [codes_get_array].
  destruct (latitude file 2); [|reflexivity]. cbn [codes_get_array].
  destruct (longitude file 2); [|reflexivity]. cbn [codes_get_array].
  destruct (pressureReducedToMeanSeaLevel file 1); [|reflexivity].
  cbn [codes_get_array].
  destruct (windSpeedAt10M file 1); [|reflexivity].
  exfalso. intuition discriminate.
Qed.

Lemma missing_array_is_not_caught_witness :
  read_one_bufr_tc climada
    (mkBufr 0 "07P" "SEVEN" 98 (Some 2) (Some [1; 2]%Z) None
       (fun _ => None) (fun _ => None) (fun _ => None) (fun _ => None)
       (fun _ => None) (fun _ => None))
    1 w0
  = (Raise CodesInternalError, w0).
Proof.
  apply (missing_array_is_not_caught climada
           (mkBufr 0 "07P" "SEVEN" 98 (Some 2) (Some [1; 2]%Z) None
              (fun _ => None) (fun _ => None) (fun _ => None) (fun _ => None)
              (fun _ => None) (fun _ => None))
           1 w0 (size := 2)).
  - reflexivity.
  - right. left. reflexivity.
Defined.

(** ** [fetch_ecmwf]: whole runs *)

Lemma track_of_member_forecast (file : bufr) (id_no : Z) (i : nat)
    (tr : Dataset) :
  track_of_member file id_no i tr -> forecast_track tr.
Proof.
  intros (_ & Hrun & _ & _ & _ & b & Hb).
  now exists b, (bufr_datetime file).
Qed.

Lemma fetch_files_appends (env : Climada) (files : list bufr) (a : Z)
    (w : world) :
  exists new,
    data (snd (fetch_files env a files w)) = data w ++ new /\
    Forall forecast_track new.
Proof.
  revert a w. induction files as [|file files IH]; intros a w.
  - exists []. cbn. now rewrite app_nil_r.
  - cbn [fetch_files]. unfold bind.
    destruct (read_one_bufr_tc env file a w) as [r w1] eqn:E.
    apply read_one_appends in E. destruct E as (idx & new & Hd & _ & Hf).
    assert (Hnew : Forall forecast_track new).
    { clear -Hf. induction Hf as [|i tr idx new Htr _ IH]; constructor;
        [now apply track_of_member_forecast in Htr | assumption]. }
    destruct r as [[]|e].
    + destruct (IH (a + 1)%Z w1) as (new' & Hd' & Hf').
      exists (new ++ new'). rewrite Hd', Hd, app_assoc.
      split; [reflexivity | now apply Forall_app].
    + exists new. cbn [snd]. now split.
Qed.

(** A run only adds tracks: the tracks that the instance had are still
    there, in front and unchanged, whether the run ends well or with an
    error; and every track it adds has a boolean [is_ensemble] and a
    timestamp [run_datetime], as writing to HDF5 needs them. *)
Theorem run_only_appends (env : Climada) (files : list bufr) (w : world) :
  exists new,
    data (snd (fetch_ecmwf env files w)) = data w ++ new /\
    Forall forecast_track new.
Proof. apply fetch_files_appends. Qed.

(** A run over [pre ++ post] whose first part ends well is the run over
    [pre] followed by the reading of [post] with the numbers that follow:
    the files of [post] are numbered from [1 + len(pre)], not from 1 as
    in a second call of [fetch_ecmwf]. *)
Theorem run_in_two_parts (env : Climada) (pre post : list bufr)
    (w w1 : world) :
  fetch_ecmwf env pre w = (Ok tt, w1) ->
  fetch_ecmwf env (pre ++ post) w
  = fetch_files env (1 + Z.of_nat (List.length pre)) post w1.
Proof. intros H. unfold fetch_ecmwf in *. now apply fetch_files_app. Qed.

Lemma run_in_two_parts_witness :
  fetch_ecmwf climada ([good_bufr] ++ [good_bufr]) w0
  = fetch_files climada (1 + Z.of_nat (List.length [good_bufr])) [good_bufr]
      good_world.
Proof.
  apply (run_in_two_parts climada [good_bufr] [good_bufr] w0).
  vm_compute. reflexivity.
Defined.

Lemma member_id_lt (id_no : Z) (i j : nat) :
  i < j -> (member_id id_no i < member_id id_no j)%Q.
Proof. unfold member_id, Qlt, Qplus, inject_Z. cbn. lia. Qed.

Lemma member_id_range (id_no : Z) (i : nat) :
  i < 100 ->
  (inject_Z id_no <= member_id id_no i)%Q /\
  (member_id id_no i < inject_Z (id_no + 1))%Q.
Proof.
  intros H. unfold member_id, Qlt, Qle, Qplus, inject_Z. cbn. lia.
Qed.

Lemma StronglySorted_app {A : Type} (R : A -> A -> Prop) (l l' : list A) :
  StronglySorted R l -> StronglySorted R l' ->
  (forall x y, In x l -> In y l' -> R x y) ->
  StronglySorted R (l ++ l').
Proof.
  intros Hl Hl' Hc. induction Hl as [|a l Hl IH Ha]; [assumption|].
  cbn. constructor.
  - apply IH. intros x y Hx Hy. apply Hc; [now right | assumption].
  - apply Forall_app. split; [assumption|].
    apply Forall_forall. intros y Hy. apply Hc; [now left | assumption].
Qed.

(** The numbers of the tracks added by the files read from number [a]
    on, when no message has more than 100 members. *)
Lemma fetch_files_ids (env : Climada) (files : list bufr) (a : Z) (w : world) :
  Forall (fun file => forall ens_no,
            ensembleMemberNumber file = Some ens_no ->
            List.length ens_no <= 100) files ->
  exists ids new,
    data (snd (fetch_files env a files w)) = data w ++ new /\
    Forall2 (fun q tr => lookup "id_no" (attrs tr) = Some (VFloat (Fin q)))
      ids new /\
    StronglySorted Qlt ids /\
    Forall (fun q => (inject_Z a <= q)%Q) ids.
Proof.
  intros Hfiles. revert a w.
  induction Hfiles as [|file files Hfile _ IH]; intros a w.
  - exists [], []. cbn. rewrite app_nil_r. repeat split; constructor.
  - cbn [fetch_files]. unfold bind.
    destruct (read_one_bufr_tc env file a w) as [r w1] eqn:E.
    apply read_one_appends in E. destruct E as (idx & new & Hd & Hs & Hf).
    assert (Hhere : Forall2 (fun q tr => lookup "id_no" (attrs tr)
                                         = Some (VFloat (Fin q)))
                      (map (member_id a) idx) new /\
                    Forall (fun i => i < 100) idx).
    { clear -Hf Hfile. induction Hf as [|i tr idx new Htr _ [IH1 IH2]].
      - split; constructor.
      - destruct Htr as (Hid & _ & _ & _ & (ens_no & eno & He & Hn & _) & _).
        split; constructor; try assumption.
        apply Hfile in He. assert (i < List.length ens_no); [|lia].
        apply nth_error_Some. congruence. }
    destruct Hhere as [Hids Hlt].
    assert (Hsorted : StronglySorted Qlt (map (member_id a) idx)).
    { clear -Hs. induction Hs as [|i idx Hs IH Hi]; cbn; constructor;
        [assumption|].
      apply Forall_forall. intros q Hq. apply in_map_iff in Hq.
      destruct Hq as (j & <- & Hj). apply member_id_lt.
      now apply (proj1 (Forall_forall _ _) Hi). }
    assert (Hrange : Forall (fun q => (inject_Z a <= q)%Q /\
                                      (q < inject_Z (a + 1))%Q)
                       (map (member_id a) idx)).
    { apply Forall_forall. intros q Hq. apply in_map_iff in Hq.
      destruct Hq as (j & <- & Hj). apply member_id_range.
      now apply (proj1 (Forall_forall _ _) Hlt). }
    destruct r as [[]|e].
    + destruct (IH (a + 1)%Z w1) as (ids' & new' & Hd' & Hf' & Hs' & Hr').
      exists (map (member_id a) idx ++ ids'), (new ++ new').
      rewrite Hd', Hd, app_assoc. split; [reflexivity|].
      split; [now apply Forall2_app|]. split.
      * apply StronglySorted_app; try assumption.
        intros x y Hx Hy.
        apply (proj1 (Forall_forall _ _) Hrange) in Hx.
        apply (proj1 (Forall_forall _ _) Hr') in Hy.
        eapply Qlt_le_trans; [apply Hx | exact Hy].
      * apply Forall_app. split.
        -- eapply Forall_impl; [|exact Hrange]. cbn. tauto.
        -- eapply Forall_impl; [|exact Hr']. cbn. intros q Hq.
           eapply Qle_trans; [|exact Hq].
           rewrite <- Zle_Qle. lia.
    + exists (map (member_id a) idx), new. cbn [snd].
      split; [assumption|]. split; [assumption|]. split; [assumption|].
      eapply Forall_impl; [|exact Hrange]. cbn. tauto.
Qed.

(** When no message of a run has more than 100 ensemble members, the
    numbers of the tracks that the run adds strictly increase in the
    order in which they are added, so no two of them are equal, across
    the messages of the run as well. *)
Theorem run_ids_increase (env : Climada) (files : list bufr) (w : world) :
  Forall (fun file => forall ens_no,
            ensembleMemberNumber file = Some ens_no ->
            List.length ens_no <= 100) files ->
  exists ids new,
    data (snd (fetch_ecmwf env files w)) = data w ++ new /\
    Forall2 (fun q tr => lookup "id_no" (attrs tr) = Some (VFloat (Fin q)))
      ids new /\
    StronglySorted Qlt ids.
Proof.
  intros H. destruct (fetch_files_ids env 1 w H)
    as (ids & new & Hd & Hf & Hs & _).
  now exists ids, new.
Qed.

Lemma run_ids_increase_witness :
  exists ids new,
    data (snd (fetch_ecmwf climada [good_bufr; good_bufr] w0))
      = data w0 ++ new /\
    Forall2 (fun q tr => lookup "id_no" (attrs tr) = Some (VFloat (Fin q)))
      ids new /\
    StronglySorted Qlt ids.
Proof.
  apply (@run_ids_increase climada [good_bufr; good_bufr] w0).
  constructor; [|constructor; [|constructor]];
    intros ens_no H; inversion H; cbn; lia.
Defined.

(** With more than 100 members the numbers do collide across messages:
    the member at index 100 of one file has the number of the first
    member of the next file. *)
Remark member_id_collides_at_100 (id_no : Z) :
  (member_id id_no 100 == member_id (id_no + 1) 0)%Q.
Proof. unfold member_id, Qeq, Qplus, inject_Z. cbn. lia. Qed.

(** ** The CXML path: what the tracks look like *)

Lemma lookup_map_snd {A B : Type} (f : A -> B) (k : string)
    (l : list (string * A)) :
  lookup k (map (fun kc => (fst kc, f (snd kc))) l)
  = option_map f (lookup k l).
Proof.
  induction l as [|[k' a] l IH]; [reflexivity|].
  cbn. destruct (String.eqb k k'); [reflexivity | assumption].
Qed.

Lemma lookup_df_isel (mask : list bool) (k : string) (df : DataFrame) :
  lookup k (df_isel mask df) = option_map (isel mask) (lookup k df).
Proof. unfold df_isel. apply (lookup_map_snd (isel mask)). Qed.

Lemma isel_Forall {A : Type} (P : A -> Prop) (mask : list bool)
    (col : list A) :
  Forall P col -> Forall P (isel mask col).
Proof.
  intros H. revert mask. induction H as [|v col Hv _ IH]; intros [|b mask];
    cbn; try constructor.
  destruct b; [constructor; [assumption | apply IH] | apply IH].
Qed.

Lemma isel_notnull (col : column) :
  Forall (fun v => isnull v = false)
    (isel (map (fun v => negb (isnull v)) col) col).
Proof.
  induction col as [|v col IH]; cbn; [constructor|].
  destruct (isnull v) eqn:E; cbn; [assumption | now constructor].
Qed.

(** Dropping rows keeps the columns, and keeps a column free of missing
    cells if it was. *)
Lemma df_dropna_keeps (names : list string) (df df' : DataFrame)
    (k : string) (col : column) :
  df_dropna names df = Ok df' ->
  lookup k df = Some col -> Forall (fun v => isnull v = false) col ->
  exists col', lookup k df' = Some col' /\
               Forall (fun v => isnull v = false) col'.
Proof.
  revert df col. induction names as [|n names IH]; intros df col H Hk Hcol.
  - cbn in H. inversion H; subst. eauto.
  - cbn in H. destruct (df_get df n) as [c|e]; [|discriminate].
    eapply IH; [exact H | |].
    + rewrite lookup_df_isel, Hk. reflexivity.
    + now apply isel_Forall.
Qed.

Lemma df_dropna_drops (names : list string) (df df' : DataFrame) (k : string) :
  df_dropna names df = Ok df' -> In k names ->
  exists col, lookup k df' = Some col /\
              Forall (fun v => isnull v = false) col.
Proof.
  revert df. induction names as [|n names IH]; intros df H Hin;
    [destruct Hin|].
  cbn in H. destruct (df_get df n) as [c|e] eqn:E; [|discriminate].
  destruct (String.eqb_spec n k) as [->|Hne].
  - unfold df_get in E. destruct (lookup k df) as [c'|] eqn:Ek;
      [|discriminate]. inversion E; subst c'.
    eapply df_dropna_keeps; [exact H | |].
    + rewrite lookup_df_isel, Ek. reflexivity.
    + apply isel_notnull.
  - destruct Hin as [Hin|Hin]; [contradiction|]. eapply IH; eassumption.
Qed.

Lemma lookup_df_fillna_other (k k0 : string) (other : column)
    (df : DataFrame) :
  k <> k0 -> lookup k (df_fillna k0 other df) = lookup k df.
Proof.
  intros Hk. induction df as [|[k' c] df IH]; [reflexivity|].
  cbn. destruct (String.eqb_spec k' k0) as [->|H0]; cbn.
  - destruct (String.eqb_spec k k0); [contradiction | assumption].
  - destruct (String.eqb k k'); [reflexivity | assumption].
Qed.

(** After [_cxml_to_df] no row lacks its valid time, its latitude or its
    longitude. *)
Lemma cxml_rows_have_position (env : Climada) (df df' : DataFrame)
    (basin_env_pressures : option (list (string * value))) :
  _cxml_to_df env df basin_env_pressures = Ok df' ->
  Forall (fun k => exists col, lookup k df' = Some col /\
                               Forall (fun v => isnull v = false) col)
    ["validTime"; "latitude"; "longitude"]%string.
Proof.
  unfold _cxml_to_df.
  destruct (df_dropna _ df) as [df1|e] eqn:E; [|discriminate].
  destruct (df_get df1 "basin") as [basin|]; [|discriminate].
  destruct (df_get df1 "cycloneName") as [cname|];
    [|destruct (df_get df1 "cycloneNumber"); discriminate].
  destruct (df_get df1 "cycloneNumber") as [cnum|]; [|discriminate].
  intros H. inversion H; subst df'. clear H.
  apply Forall_forall. intros k Hk.
  rewrite !lookup_df_fillna_other, lookup_set_key_other
    by (cbn in Hk; intuition (subst; discriminate)).
  now apply df_dropna_drops with (1 := E).
Qed.


Lemma map_result_Forall2 {A B : Type} (f : A -> result B) (l : list A)
    (r : list B) :
  map_result f l = Ok r -> Forall2 (fun a b => f a = Ok b) l r.
Proof.
  revert r. induction l as [|a l IH]; intros r H; cbn in H.
  - inversion H. constructor.
  - unfold bind_result in H. destruct (f a) as [b|] eqn:E; [|discriminate].
    destruct (map_result f l) as [bs|]; [|discriminate].
    inversion H. constructor; [assumption | now apply IH].
Qed.

Lemma groupby_groups (names : list string) (df : DataFrame)
    (groups : list DataFrame) :
  groupby names df = Ok groups ->
  Forall (fun g => exists mask, g = df_isel mask df) groups.
Proof.
  unfold groupby, bind_result.
  destruct ((fix cols (names0 : list string) : result (list column) := _)
              names) as [cs|]; [|discriminate].
  intros H. inversion H. apply Forall_forall. intros g Hg.
  apply in_map_iff in Hg. destruct Hg as (k & <- & _). eauto.
Qed.

(** The track of a group of rows, column by column. *)
Lemma fcastdf_columns (g : DataFrame) (tr : Dataset) :
  _fcastdf_to_ds g = Ok tr ->
  exists wind pressure hour radius basin time lat lon,
    lookup "validTime" g = Some time /\
    lookup "latitude" g = Some lat /\
    lookup "longitude" g = Some lon /\
    data_vars tr
    = [("max_sustained_wind", wind); ("central_pressure", pressure);
       ("hour", hour); ("radius_max_wind", radius);
       ("environmental_pressure", pressure); ("basin", basin)]%string /\
    coords tr = [("time", time); ("lat", lat); ("lon", lon)]%string /\
    Forall (fun kc => List.length (snd kc) = List.length time)
      (data_vars tr ++ coords tr).
Proof.
  unfold _fcastdf_to_ds, bind_result, df_get, xr_Dataset. intros H.
  cbn [as_time_variables as_time_variable] in H.
  destruct (lookup "maximumWind" g) as [wind|]; [|discriminate].
  destruct (lookup "minimumPressure" g) as [pressure|]; [|discriminate].
  destruct (lookup "hour" g) as [hour|]; [|discriminate].
  destruct (lookup "maximumWindRadius" g) as [radius|]; [|discriminate].
  destruct (lookup "basin" g) as [basin|]; [|discriminate].
  destruct (lookup "validTime" g) as [time|]; [|discriminate].
  destruct (lookup "latitude" g) as [lat|]; [|discriminate].
  destruct (lookup "longitude" g) as [lon|]; [|discriminate].
  run_cases H. inversion H; subst. clear H.
  exists wind, pressure, hour, radius, basin, time, lat, lon.
  cbn [data_vars coords]. repeat (split; [reflexivity|]).
  match goal with
  | E : forallb _ _ = true |- _ =>
      rewrite forallb_forall in E; apply Forall_forall; intros kc Hkc;
      cbn [app In] in Hkc;
      repeat (destruct Hkc as [<-|Hkc];
              [first [reflexivity
                     | apply Nat.eqb_eq; apply E; cbn; tauto]|]);
      destruct Hkc
  end.
Qed.

(** Every track read from CXML has the six data variables and the three
    coordinates of [_fcastdf_to_ds], all of one length, and no missing
    cell in its times, latitudes and longitudes.  It has an [hour] but
    neither the [time_step] nor the [category] of a track read from
    BUFR. *)
Theorem cxml_tracks_are_positioned (env : Climada) (df : DataFrame)
    (tracks : list Dataset) :
  read_cxml env df = Ok tracks ->
  Forall (fun tr =>
            map fst (data_vars tr)
            = ["max_sustained_wind"; "central_pressure"; "hour";
               "radius_max_wind"; "environmental_pressure";
               "basin"]%string /\
            map fst (coords tr) = ["time"; "lat"; "lon"]%string /\
            lookup "category" (attrs tr) = None /\
            Forall (fun kc => List.length (snd kc) = sizes_time tr /\
                              (In (fst kc) (map fst (coords tr)) ->
                               Forall (fun v => isnull v = false) (snd kc)))
              (data_vars tr ++ coords tr))
    tracks.
Proof.
  unfold read_cxml, bind_result.
  destruct (_cxml_to_df env df None) as [df1|] eqn:E1; [|discriminate].
  destruct (groupby _ df1) as [groups|] eqn:E2; [|discriminate].
  intros H. apply map_result_Forall2 in H.
  apply groupby_groups in E2. apply cxml_rows_have_position in E1.
  induction H as [|g tr groups tracks Hg _ IH]; [constructor|].
  inversion E2 as [|? ? [mask ->] E2']; subst.
  constructor; [|now apply IH].
  assert (Hattrs : lookup "category" (attrs tr) = None).
  { unfold _fcastdf_to_ds, bind_result, df_get, xr_Dataset in Hg.
    cbn [as_time_variables as_time_variable] in Hg.
    run_cases Hg. now inversion Hg. }
  apply fcastdf_columns in Hg.
  destruct Hg as (wind & pressure & hour & radius & basin & time & lat & lon
                  & Ht & Hla & Hlo & Hd & Hc & Hlen).
  unfold sizes_time. rewrite Hd, Hc in *. cbn [map fst].
  split; [reflexivity|]. split; [reflexivity|]. split; [assumption|].
  assert (Hpos : forall k col,
            In k ["validTime"; "latitude"; "longitude"]%string ->
            lookup k (df_isel mask df1) = Some col ->
            Forall (fun v => isnull v = false) col).
  { intros k col Hk Hcol.
    apply (proj1 (Forall_forall _ _) E1) in Hk.
    destruct Hk as (c & Hc1 & Hc2).
    rewrite lookup_df_isel, Hc1 in Hcol. inversion Hcol.
    now apply isel_Forall. }
  cbn [lookup String.eqb Ascii.eqb Bool.eqb].
  apply Forall_forall. intros kc Hkc. split.
  - now apply (proj1 (Forall_forall _ _) Hlen).
  - intros Hin. cbn [app In] in Hkc.
    repeat (destruct Hkc as [<-|Hkc];
            [cbn [fst snd] in *;
             first [ apply (Hpos "validTime"%string);
                       [cbn; tauto | assumption]
                   | apply (Hpos "latitude"%string);
                       [cbn; tauto | assumption]
                   | apply (Hpos "longitude"%string);
                       [cbn; tauto | assumption]
                   | exfalso; cbn in Hin; intuition discriminate ]|]).
    destruct Hkc.
Qed.

Lemma cxml_tracks_are_positioned_witness :
  exists tracks,
    read_cxml climada sample_cxml = Ok tracks /\
    Forall (fun tr =>
            map fst (data_vars tr)
            = ["max_sustained_wind"; "central_pressure"; "hour";
               "radius_max_wind"; "environmental_pressure";
               "basin"]%string /\
            map fst (coords tr) = ["time"; "lat"; "lon"]%string /\
            lookup "category" (attrs tr) = None /\
            Forall (fun kc => List.length (snd kc) = sizes_time tr /\
                              (In (fst kc) (map fst (coords tr)) ->
                               Forall (fun v => isnull v = false) (snd kc)))
              (data_vars tr ++ coords tr))
      tracks.
Proof.
  eexists. split; [vm_compute; reflexivity|].
  apply (cxml_tracks_are_positioned climada sample_cxml).
  vm_compute. reflexivity.
Defined.

(** ** [write_hdf5]: a track without [is_ensemble] *)

Lemma to_netcdf4_forecast (np : Numpy) (tr : Dataset) (b : bool) (t : Z) :
  lookup "is_ensemble" (attrs tr) = Some (VBool b) ->
  lookup "run_datetime" (attrs tr) = Some (VTime t) ->
  exists tr1,
    to_netcdf4 np tr = (tr1, None) /\
    lookup "is_ensemble" (attrs tr1) = Some (VInt (if b then 1 else 0)) /\
    lookup "run_datetime" (attrs tr1)
    = Some (VStr (datetime_as_string np t)).
Proof.
  intros Hb Ht. destruct tr as [dv cs ats]. cbn in Hb, Ht.
  eexists. unfold to_netcdf4, update_attrs, update_attr.
  cbn [attrs set_attr data_vars coords]. rewrite Hb. cbn [py_int].
  cbn [attrs set_attr data_vars coords].
  rewrite lookup_set_key_other by discriminate. rewrite Ht. cbn [py_str].
  split; [reflexivity|]. cbn [attrs set_attr].
  rewrite lookup_set_key_other by discriminate.
  now rewrite !lookup_set_key.
Qed.

(** The change of type before writing is not undone when it fails: if a
    track of the instance has no [is_ensemble], [write_hdf5] raises
    [KeyError] and writes no file, and the tracks in front of that one
    are left with an integer [is_ensemble] and a text [run_datetime];
    that track and the ones after it are as they were. *)
Theorem write_hdf5_leaves_tracks_changed (np : Numpy) (file_name : string)
    (w : world) (pre post : list Dataset) (bad : Dataset) :
  data w = pre ++ bad :: post ->
  Forall forecast_track pre ->
  lookup "is_ensemble" (attrs bad) = None ->
  exists pre',
    write_hdf5 np file_name w
    = (Raise KeyError, mkWorld (pre' ++ bad :: post) (logged w) (files w)) /\
    Forall2 (fun tr tr' =>
               exists b t,
                 lookup "is_ensemble" (attrs tr) = Some (VBool b) /\
                 lookup "is_ensemble" (attrs tr')
                 = Some (VInt (if b then 1 else 0)) /\
                 lookup "run_datetime" (attrs tr) = Some (VTime t) /\
                 lookup "run_datetime" (attrs tr')
                 = Some (VStr (datetime_as_string np t)))
      pre pre'.
Proof.
  intros Hdata Hpre Hbad.
  assert (H : exists pre',
             for_tracks (to_netcdf4 np) (pre ++ bad :: post)
             = (pre' ++ bad :: post, Some KeyError) /\
             Forall2 (fun tr tr' =>
               exists b t,
                 lookup "is_ensemble" (attrs tr) = Some (VBool b) /\
                 lookup "is_ensemble" (attrs tr')
                 = Some (VInt (if b then 1 else 0)) /\
                 lookup "run_datetime" (attrs tr) = Some (VTime t) /\
                 lookup "run_datetime" (attrs tr')
                 = Some (VStr (datetime_as_string np t)))
               pre pre').
  { clear Hdata. induction Hpre as [|tr pre (b & t & Hb & Ht) _ IH].
    - exists []. split; [|constructor]. cbn.
      unfold to_netcdf4, update_attrs, update_attr. now rewrite Hbad.
    - destruct IH as (pre' & Hrun & Hall).
      destruct (to_netcdf4_forecast np tr Hb Ht) as (tr1 & E & Hb1 & Ht1).
      exists (tr1 :: pre'). cbn. rewrite E, Hrun. split; [reflexivity|].
      constructor; [|assumption]. exists b, t. tauto. }
  destruct H as (pre' & Hrun & Hall). exists pre'. split; [|assumption].
  unfold write_hdf5, bind, for_self_data. now rewrite Hdata, Hrun.
Qed.

Lemma write_hdf5_leaves_tracks_changed_witness :
  exists pre',
    write_hdf5 decimal_clock "tracks.h5"
      (mkWorld (data good_world ++ [mkDataset [] [] []]) [] [])
    = (Raise KeyError,
       mkWorld (pre' ++ mkDataset [] [] [] :: []) [] []) /\
    Forall2 (fun tr tr' =>
               exists b t,
                 lookup "is_ensemble" (attrs tr) = Some (VBool b) /\
                 lookup "is_ensemble" (attrs tr')
                 = Some (VInt (if b then 1 else 0)) /\
                 lookup "run_datetime" (attrs tr) = Some (VTime t) /\
                 lookup "run_datetime" (attrs tr')
                 = Some (VStr (datetime_as_string decimal_clock t)))
      (data good_world) pre'.
Proof.
  apply (@write_hdf5_leaves_tracks_changed decimal_clock "tracks.h5"
           (mkWorld (data good_world ++ [mkDataset [] [] []]) [] [])
           (data good_world) [] (mkDataset [] [] [])).
  - reflexivity.
  - vm_compute. repeat constructor; exists true, 28512720%Z; split;
      reflexivity.
  - reflexivity.
Defined.

(** ** fetch_bufr_ftp *)

Lemma str_le_total (a b : string) : str_le a b = false -> str_le b a = true.
Proof.
  unfold str_le.
  destruct (String_as_OT.compare_spec a b) as [E|L|L]; try discriminate.
  intros _.
  destruct (String_as_OT.compare_spec b a) as [E'|L'|L']; try reflexivity.
  exfalso. destruct String_as_OT.lt_strorder as [Irr Tr].
  exact (Irr _ (Tr _ _ _ L L')).
Qed.

Lemma str_le_trans (a b c : string) :
  str_le a b = true -> str_le b c = true -> str_le a c = true.
Proof.
  unfold str_le. destruct String_as_OT.lt_strorder as [Irr Tr].
  destruct (String_as_OT.compare_spec a b) as [E|L|L]; try discriminate;
    destruct (String_as_OT.compare_spec b c) as [E'|L'|L'];
    try discriminate; intros _ _;
    destruct (String_as_OT.compare_spec a c) as [E2|L2|L2];
    try reflexivity; exfalso; unfold String_as_OT.eq in *; subst.
  - exact (Irr _ L2).
  - exact (Irr _ (Tr _ _ _ L' L2)).
  - exact (Irr _ (Tr _ _ _ L L2)).
  - exact (Irr _ (Tr _ _ _ (Tr _ _ _ L L') L2)).
Qed.

Lemma str_le_refl (a : string) : str_le a a = true.
Proof.
  destruct (str_le a a) eqn:E; [reflexivity|].
  pose proof (str_le_total _ _ E) as E'. congruence.
Qed.

Lemma insert_desc_In (x y : string) (l : list string) :
  In y (insert_desc x l) <-> y = x \/ In y l.
Proof.
  induction l as [|h t IH]; cbn [insert_desc].
  - cbn. intuition congruence.
  - destruct (str_le h x); cbn [In] in *; rewrite ?IH; intuition congruence.
Qed.

Lemma sort_desc_In (y : string) (l : list string) :
  In y (sort_desc l) <-> In y l.
Proof.
  induction l as [|h t IH]; cbn [sort_desc]; [reflexivity|].
  rewrite insert_desc_In, IH. cbn. intuition congruence.
Qed.

Lemma insert_desc_sorted (x : string) (l : list string) :
  StronglySorted (fun a b => str_le b a = true) l ->
  StronglySorted (fun a b => str_le b a = true) (insert_desc x l).
Proof.
  induction 1 as [|h t Hs IH Hh]; cbn [insert_desc].
  - constructor; constructor.
  - destruct (str_le h x) eqn:E.
    + constructor; [now constructor|]. constructor; [exact E|].
      eapply Forall_impl; [|exact Hh]. cbn. intros y Hy.
      now apply str_le_trans with h.
    + constructor; [exact IH|]. apply Forall_forall. intros y Hy.
      apply insert_desc_In in Hy. destruct Hy as [->|Hy].
      * now apply str_le_total.
      * rewrite Forall_forall in Hh. now apply Hh.
Qed.

Lemma sort_desc_sorted (l : list string) :
  StronglySorted (fun a b => str_le b a = true) (sort_desc l).
Proof.
  induction l as [|h t IH]; cbn [sort_desc]; [constructor|].
  now apply insert_desc_sorted.
Qed.

(** The first name of the sorted listing is a name of the listing that
    no other name follows in the order of texts. *)
Lemma sort_desc_head (l rest : list string) (d : string) :
  sort_desc l = d :: rest ->
  In d l /\ forall x, In x l -> str_le x d = true.
Proof.
  intros E. split.
  - apply sort_desc_In. rewrite E. now left.
  - intros x Hx. apply sort_desc_In in Hx. rewrite E in Hx.
    pose proof (sort_desc_sorted l) as Hs. rewrite E in Hs.
    inversion Hs as [|? ? _ Hall]; subst.
    destruct Hx as [<-|Hx]; [apply str_le_refl|].
    rewrite Forall_forall in Hall. now apply Hall.
Qed.

Lemma filter_filter {A : Type} (f g : A -> bool) (l : list A) :
  filter g (filter f l) = filter (fun x => f x && g x) l.
Proof.
  induction l as [|a l IH]; [reflexivity|]. cbn [filter].
  destruct (f a); cbn [filter andb]; [destruct (g a)|]; now rewrite IH.
Qed.

Lemma remotefiles_eq (names : list string) :
  filter (contains "ECEP") (filter (contains "tropical_cyclone") names)
  = filter is_ensemble_track_file names.
Proof. apply filter_filter. Qed.

Lemma retrieve_all (server : ftp_server) (d : string) (names : list string)
    (files : list bufr) :
  retrieve server d names = inr files <->
  Forall2 (fun n f => ftp_retr server d n = inr f) names files.
Proof.
  revert files. induction names as [|n names IH]; intros files;
    cbn [retrieve].
  - split; intros H; [inversion H; constructor | now inversion H].
  - destruct (ftp_retr server d n) as [err|f] eqn:E.
    + split; intros H; [discriminate|]. inversion H; subst. congruence.
    + destruct (retrieve server d names) as [err|fs].
      * split; intros H; [discriminate|]. inversion H; subst.
        assert (f = y) by congruence. subst.
        match goal with H' : Forall2 _ names _ |- _ =>
          apply IH in H'; discriminate end.
      * split; intros H.
        -- inversion H; subst. constructor; [exact E|]. now apply IH.
        -- inversion H; subst. assert (f = y) by congruence. subst.
           match goal with H' : Forall2 _ names _ |- _ =>
             apply IH in H'; now inversion H' end.
Qed.

Lemma retrieve_refused (server : ftp_server) (d : string)
    (pre post : list string) (n err : string) :
  Forall (fun m => exists f, ftp_retr server d m = inr f) pre ->
  ftp_retr server d n = inl err ->
  retrieve server d (pre ++ n :: post) = inl err.
Proof.
  intros Hpre Hn. induction Hpre as [|m pre [f Hm] _ IH];
    cbn [retrieve app].
  - now rewrite Hn.
  - now rewrite Hm, IH.
Qed.

(** When [fetch_bufr_ftp] returns, it returns the files of one directory
    of the server: the directory asked for or, when none is asked for,
    a run directory of the root listing (a name with 120000 in it or with
    000000 at its end) that no other run directory follows in the order
    of texts.  The files are those whose names hold both
    [tropical_cyclone] and [ECEP], each one once and in the order of the
    listing; there is one at least; the connection has been closed and
    one INFO record logged. *)
Theorem fetch_bufr_ftp_returns (server : ftp_server)
    (remote_dir : option string) (files : list bufr) :
  ftp_result (fetch_bufr_ftp server remote_dir) = inr files ->
  exists d names,
    match remote_dir with
    | Some r => d = r
    | None =>
        exists root, ftp_root server = inr root /\ In d root /\
          is_run_directory d = true /\
          forall d', In d' root -> is_run_directory d' = true ->
                     str_le d' d = true
    end /\
    ftp_cwd server d = inr names /\
    Forall2 (fun n f => ftp_retr server d n = inr f)
      (filter is_ensemble_track_file names) files /\
    files <> [] /\
    ftp_quit (fetch_bufr_ftp server remote_dir) = true /\
    ftp_log (fetch_bufr_ftp server remote_dir)
    = [LogRecord INFO "Fetching BUFR tracks:" []].
Proof.
  unfold fetch_bufr_ftp.
  assert (Hbody : forall d,
    ftp_result
      match ftp_cwd server d with
      | inl err => mkOutcome (inl (FtpError (download_error ++ err))) true []
      | inr names =>
          if (List.length (filter (contains "ECEP")
                (filter (contains "tropical_cyclone") names)) =? 0)%nat
          then mkOutcome
                 (inl (FtpFileNotFound
                    (download_error ++ "No tracks found at ftp://{}/{}")))
                 true []
          else
            match retrieve server d (filter (contains "ECEP")
                    (filter (contains "tropical_cyclone") names)) with
            | inl err =>
                mkOutcome (inl (FtpError (download_error ++ err))) true
                  [LogRecord INFO "Fetching BUFR tracks:" []]
            | inr localfiles =>
                mkOutcome (inr localfiles) true
                  [LogRecord INFO "Fetching BUFR tracks:" []]
            end
      end = inr files ->
    exists names,
      ftp_cwd server d = inr names /\
      Forall2 (fun n f => ftp_retr server d n = inr f)
        (filter is_ensemble_track_file names) files /\
      files <> [] /\
      ftp_quit
        match ftp_cwd server d with
        | inl err => mkOutcome (inl (FtpError (download_error ++ err))) true []
        | inr names =>
            if (List.length (filter (contains "ECEP")
                  (filter (contains "tropical_cyclone") names)) =? 0)%nat
            then mkOutcome
                   (inl (FtpFileNotFound
                      (download_error ++ "No tracks found at ftp://{}/{}")))
                   true []
            else
              match retrieve server d (filter (contains "ECEP")
                      (filter (contains "tropical_cyclone") names)) with
              | inl err =>
                  mkOutcome (inl (FtpError (download_error ++ err))) true
                    [LogRecord INFO "Fetching BUFR tracks:" []]
              | inr localfiles =>
                  mkOutcome (inr localfiles) true
                    [LogRecord INFO "Fetching BUFR tracks:" []]
              end
        end = true /\
      ftp_log
        match ftp_cwd server d with
        | inl err => mkOutcome (inl (FtpError (download_error ++ err))) true []
        | inr names =>
            if (List.length (filter (contains "ECEP")
                  (filter (contains "tropical_cyclone") names)) =? 0)%nat
            then mkOutcome
                   (inl (FtpFileNotFound
                      (download_error ++ "No tracks found at ftp://{}/{}")))
                   true []
            else
              match retrieve server d (filter (contains "ECEP")
                      (filter (contains "tropical_cyclone") names)) with
              | inl err =>
                  mkOutcome (inl (FtpError (download_error ++ err))) true
                    [LogRecord INFO "Fetching BUFR tracks:" []]
              | inr localfiles =>
                  mkOutcome (inr localfiles) true
                    [LogRecord INFO "Fetching BUFR tracks:" []]
              end
        end = [LogRecord INFO "Fetching BUFR tracks:" []]).
  { intros d. destruct (ftp_cwd server d) as [err|names]; [discriminate|].
    rewrite remotefiles_eq.
    destruct (List.length (filter is_ensemble_track_file names) =? 0)%nat
      eqn:E0; [discriminate|].
    destruct (retrieve server d (filter is_ensemble_track_file names))
      as [err|fs] eqn:Er; [discriminate|].
    cbn. intros H. inversion H; subst fs. exists names.
    split; [reflexivity|]. split; [now apply retrieve_all|].
    split; [|split; reflexivity].
    intros ->. apply retrieve_all in Er. inversion Er as [E|]; subst.
    rewrite <- E in E0. discriminate. }
  destruct remote_dir as [r|].
  - intros H. destruct (Hbody r H) as (names & H1 & H2 & H3 & H4 & H5).
    exists r, names. split; [reflexivity|].
    repeat (split; [assumption|]). assumption.
  - destruct (ftp_root server) as [err|root]; [discriminate|].
    destruct (sort_desc (filter is_run_directory root)) as [|d rest] eqn:Es;
      [discriminate|].
    intros H. destruct (Hbody d H) as (names & H1 & H2 & H3 & H4 & H5).
    exists d, names. split.
    + exists root. split; [reflexivity|].
      destruct (sort_desc_head _ Es) as [Hin Hmax].
      apply filter_In in Hin. destruct Hin as [Hin Hrun].
      split; [exact Hin|]. split; [exact Hrun|].
      intros d' Hd' Hr'. apply Hmax. now apply filter_In.
    + repeat (split; [assumption|]). assumption.
Qed.

Lemma fetch_bufr_ftp_returns_witness :
  exists d names,
    (exists root, ftp_root sample_server = inr root /\ In d root /\
       is_run_directory d = true /\
       forall d', In d' root -> is_run_directory d' = true ->
                  str_le d' d = true) /\
    ftp_cwd sample_server d = inr names /\
    Forall2 (fun n f => ftp_retr sample_server d n = inr f)
      (filter is_ensemble_track_file names) [good_bufr] /\
    [good_bufr] <> [] /\
    ftp_quit (fetch_bufr_ftp sample_server None) = true /\
    ftp_log (fetch_bufr_ftp sample_server None)
    = [LogRecord INFO "Fetching BUFR tracks:" []].
Proof.
  apply (@fetch_bufr_ftp_returns sample_server None [good_bufr]).
  vm_compute. reflexivity.
Defined.

(** The connection is closed in every case but one.  When no directory is
    asked for and the root listing holds no run directory, [IndexError]
    leaves the function as it is, without the prefix of the download
    errors, and the connection stays open. *)
Theorem fetch_bufr_ftp_quits (server : ftp_server)
    (remote_dir : option string) :
  (ftp_quit (fetch_bufr_ftp server remote_dir) = false <->
   remote_dir = None /\
   exists root, ftp_root server = inr root /\
     Forall (fun d => is_run_directory d = false) root) /\
  (ftp_result (fetch_bufr_ftp server remote_dir) = inl FtpIndexError <->
   ftp_quit (fetch_bufr_ftp server remote_dir) = false).
Proof.
  unfold fetch_bufr_ftp.
  assert (Hbody : forall d,
    let o :=
      match ftp_cwd server d with
      | inl err => mkOutcome (inl (FtpError (download_error ++ err))) true []
      | inr names =>
          if (List.length (filter (contains "ECEP")
                (filter (contains "tropical_cyclone") names)) =? 0)%nat
          then mkOutcome
                 (inl (FtpFileNotFound
                    (download_error ++ "No tracks found at ftp://{}/{}")))
                 true []
          else
            match retrieve server d (filter (contains "ECEP")
                    (filter (contains "tropical_cyclone") names)) with
            | inl err =>
                mkOutcome (inl (FtpError (download_error ++ err))) true
                  [LogRecord INFO "Fetching BUFR tracks:" []]
            | inr localfiles =>
                mkOutcome (inr localfiles) true
                  [LogRecord INFO "Fetching BUFR tracks:" []]
            end
      end in
    ftp_quit o = true /\ ftp_result o <> inl FtpIndexError).
  { intros d. cbv zeta. destruct (ftp_cwd server d) as [err|names];
      [split; [reflexivity | discriminate]|].
    destruct (_ =? 0)%nat; [split; [reflexivity | discriminate]|].
    destruct (retrieve _ _ _); split; try reflexivity; discriminate. }
  destruct remote_dir as [r|].
  - destruct (Hbody r) as [Hq Hr]. cbv zeta in Hq, Hr. rewrite Hq.
    split; split; try discriminate; try (intros [? _]; discriminate).
    intros H. now destruct Hr.
  - destruct (ftp_root server) as [err|root].
    + cbn. split; split; try discriminate.
      intros (_ & root & H & _). discriminate.
    + destruct (sort_desc (filter is_run_directory root)) as [|d rest] eqn:Es.
      * cbn. split; split; try reflexivity. intros _.
        split; [reflexivity|]. exists root. split; [reflexivity|].
        apply Forall_forall. intros x Hx.
        destruct (is_run_directory x) eqn:Ex; [|reflexivity].
        assert (Hin : In x (sort_desc (filter is_run_directory root)))
          by (apply sort_desc_In, filter_In; now split).
        rewrite Es in Hin. destruct Hin.
      * destruct (Hbody d) as [Hq Hr]. cbv zeta in Hq, Hr. rewrite Hq.
        split; split; try discriminate.
        -- intros (_ & root' & H & Hall). inversion H; subst root'.
           destruct (sort_desc_head _ Es) as [Hin _].
           apply filter_In in Hin. destruct Hin as [Hin Hrun].
           rewrite Forall_forall in Hall. apply Hall in Hin. congruence.
        -- intros H. now destruct Hr.
Qed.

Lemma str_le_antisym (a b : string) :
  str_le a b = true -> str_le b a = true -> a = b.
Proof.
  unfold str_le. destruct String_as_OT.lt_strorder as [Irr Tr].
  destruct (String_as_OT.compare_spec a b) as [E|L|L]; try discriminate;
    [intros _ _; exact E|].
  destruct (String_as_OT.compare_spec b a) as [E'|L'|L']; try discriminate;
    intros _ _.
  - symmetry. exact E'.
  - exfalso. exact (Irr _ (Tr _ _ _ L L')).
Qed.

(** The call without a directory is the call with the directory that it
    reads. *)
Lemma fetch_bufr_ftp_reads (server : ftp_server) (remote_dir : option string)
    (d : string) :
  reads_directory server remote_dir d ->
  fetch_bufr_ftp server remote_dir = fetch_bufr_ftp server (Some d).
Proof.
  destruct remote_dir as [r|]; cbn [reads_directory].
  - now intros ->.
  - intros (root & Hroot & Hin & Hrun & Hmax).
    unfold fetch_bufr_ftp. rewrite Hroot.
    destruct (sort_desc (filter is_run_directory root)) as [|h rest] eqn:Es.
    + exfalso.
      assert (Hd : In d (sort_desc (filter is_run_directory root)))
        by (apply sort_desc_In, filter_In; now split).
      rewrite Es in Hd. destruct Hd.
    + destruct (sort_desc_head _ Es) as [Hh Hall].
      apply filter_In in Hh. destruct Hh as [Hh Hhrun].
      assert (h = d) as ->; [|reflexivity].
      apply str_le_antisym.
      * now apply Hmax.
      * apply Hall. apply filter_In. now split.
Qed.

(** In a directory without a file of ensemble tracks the function raises
    [FileNotFoundError]; its message has the prefix of the download
    errors and the text with the two braces as they are written: neither
    the host nor the directory is named.  The connection is closed and
    nothing is logged.  This holds for the directory asked for and for
    the one found in the root listing. *)
Theorem no_tracks_message_is_unformatted (server : ftp_server)
    (remote_dir : option string) (d : string) (names : list string) :
  reads_directory server remote_dir d ->
  ftp_cwd server d = inr names ->
  Forall (fun n => is_ensemble_track_file n = false) names ->
  fetch_bufr_ftp server remote_dir
  = mkOutcome
      (inl (FtpFileNotFound
              "Error while downloading BUFR TC tracks: No tracks found at ftp://{}/{}"))
      true [].
Proof.
  intros Hd Hcwd Hall. rewrite (@fetch_bufr_ftp_reads _ _ _ Hd).
  unfold fetch_bufr_ftp. rewrite Hcwd, remotefiles_eq.
  replace (filter is_ensemble_track_file names) with (@nil string);
    [reflexivity|].
  symmetry. clear Hcwd.
  induction Hall as [|n names Hn _ IH]; [reflexivity|].
  cbn [filter]. now rewrite Hn.
Qed.

Lemma no_tracks_message_is_unformatted_witness :
  fetch_bufr_ftp sample_server (Some "20200730180000"%string)
  = mkOutcome
      (inl (FtpFileNotFound
              "Error while downloading BUFR TC tracks: No tracks found at ftp://{}/{}"))
      true [].
Proof.
  apply (@no_tracks_message_is_unformatted sample_server
           (Some "20200730180000"%string) "20200730180000"%string
           ["readme.txt"; "A_JSXX01ECEP301800_C_ECMP_20200730180000_wave.bin"]%string).
  - reflexivity.
  - reflexivity.
  - repeat constructor.
Defined.

(** The first refused download ends the call with the error of the
    server behind the prefix of the download errors: the files fetched
    before it are not returned, the ones after it are not asked for, and
    the connection is closed.  This holds for the directory asked for and
    for the one found in the root listing. *)
Theorem refused_download_ends_call (server : ftp_server)
    (remote_dir : option string) (d : string)
    (names pre post : list string) (n err : string) :
  reads_directory server remote_dir d ->
  ftp_cwd server d = inr names ->
  filter is_ensemble_track_file names = pre ++ n :: post ->
  Forall (fun m => exists f, ftp_retr server d m = inr f) pre ->
  ftp_retr server d n = inl err ->
  fetch_bufr_ftp server remote_dir
  = mkOutcome (inl (FtpError (download_error ++ err))) true
      [LogRecord INFO "Fetching BUFR tracks:" []].
Proof.
  intros Hd Hcwd Hf Hpre Hn. rewrite (@fetch_bufr_ftp_reads _ _ _ Hd).
  unfold fetch_bufr_ftp.
  rewrite Hcwd, remotefiles_eq, Hf.
  rewrite (@retrieve_refused server d pre post n err Hpre Hn).
  rewrite length_app. cbn [List.length].
  now replace (List.length pre + S (List.length post) =? 0)%nat with false
    by (symmetry; apply Nat.eqb_neq; lia).
Qed.

Lemma refused_download_ends_call_witness :
  fetch_bufr_ftp sample_server (Some "20200730000000"%string)
  = mkOutcome
      (inl (FtpError (download_error ++ "550 Failed to open file.")))
      true [LogRecord INFO "Fetching BUFR tracks:" []].
Proof.
  apply (@refused_download_ends_call sample_server
           (Some "20200730000000"%string) "20200730000000"%string
           ["A_JSXX01ECEP300000_C_ECMP_20200730000000_tropical_cyclone_track_ISAIAS_bufr4.bin";
            "A_JSXX02ECEP300000_C_ECMP_20200730000000_tropical_cyclone_track_HANNA_bufr4.bin"]%string
           ["A_JSXX01ECEP300000_C_ECMP_20200730000000_tropical_cyclone_track_ISAIAS_bufr4.bin"]%string
           []
           "A_JSXX02ECEP300000_C_ECMP_20200730000000_tropical_cyclone_track_HANNA_bufr4.bin"%string
           "550 Failed to open file."%string).
  - reflexivity.
  - reflexivity.
  - vm_compute. reflexivity.
  - constructor; [|constructor]. exists good_bufr. reflexivity.
  - reflexivity.
Defined.
